(** * Loan-Eligibility-Engine: the matching pipeline, embedded and verified

    The development follows the Go packages of the repository:

    - [F64]      : Go's [float64] (IEEE 754 binary64, round to nearest even),
                   on the Standard Library's executable [spec_float];
    - [gostrings] : the functions of Go's [strings] package the code calls;
    - [models]   : [internal/models] (users, loan products, matches, and the
                   SQL pre-filter candidate with [IsFullyEligible] and
                   [CalculateMatchScore]);
    - [database] : the repositories the matcher calls ([GetByIDs],
                   [GetAllActive], [BulkInsert]) and the Stage-1 query of
                   the match repository ([SQLPrefilterMatches]);
    - [matcher]  : the three-stage pipeline of [MatcherService]
                   ([sqlPrefilter], [logicFilter], [selectTopCandidates],
                   [llmCheck], [createMatches], [ProcessNewUsers]).

    Go's [int] and [int64] are 64-bit two's-complement integers, modelled as
    [Z] with the wrap-around written out where the code computes on them.
    Every float64 operation is rounded on its own (no fused multiply-add),
    as the compiler does on amd64.  A pointer is the value it points to,
    [None] standing for nil where the code can meet one.  What lies outside
    the process (the database, the remote reasoning service, the clock) is
    a parameter: the rows of the tables, whether a query, a scan or a
    transaction step fails, how many rows a cursor delivers, the reply of
    the service to each request, the elapsed time.  A call that can panic
    has an [outcome]: the values it returns, or the panic that ends the
    run. *)

From Stdlib Require Import ZArith List Bool Lia Permutation Sorted.
From Stdlib Require Import Ascii DecimalString.
From Stdlib Require Import Floats.SpecFloat.
From stdpp Require Import gmap strings list.

Local Open Scope Z_scope.

(* ===================================================================== *)
(** ** 64-bit integers *)
(* ===================================================================== *)

Module Int64.

Definition min_int : Z := - 2 ^ 63.
Definition max_int : Z := 2 ^ 63 - 1.

(** Two's-complement wrap-around of an exact result. *)
Definition wrap (z : Z) : Z := (z + 2 ^ 63) mod 2 ^ 64 - 2 ^ 63.

Definition add (a b : Z) : Z := wrap (a + b).
Definition sub (a b : Z) : Z := wrap (a - b).
Definition mul (a b : Z) : Z := wrap (a * b).

End Int64.

(* ===================================================================== *)
(** ** float64 *)
(* ===================================================================== *)

Module F64.

Definition prec : Z := 53.
Definition emax : Z := 1024.

Definition float64 : Type := spec_float.

Definition add : float64 -> float64 -> float64 := SFadd prec emax.
Definition sub : float64 -> float64 -> float64 := SFsub prec emax.
Definition mul : float64 -> float64 -> float64 := SFmul prec emax.
Definition div : float64 -> float64 -> float64 := SFdiv prec emax.
Definition neg : float64 -> float64 := SFopp.

(** Go's comparison operators; every one of them is false on a NaN. *)
Definition eqb (x y : float64) : bool := SFeqb x y.
Definition ltb (x y : float64) : bool := SFltb x y.
Definition leb (x y : float64) : bool := SFleb x y.
Definition gtb (x y : float64) : bool := SFltb y x.
Definition geb (x y : float64) : bool := SFleb y x.

Definition is_nan (x : float64) : bool :=
  match x with S754_nan => true | _ => false end.

(** [float64(n)] for an integer [n]: the nearest binary64 value. *)
Definition of_int (n : Z) : float64 := binary_normalize prec emax n 0 false.

(** [int(x)]: truncation toward zero.  Go leaves the result unspecified
    when the value does not fit; amd64 yields the smallest integer. *)
Definition to_int (x : float64) : Z :=
  match x with
  | S754_zero _ => 0
  | S754_finite s m e =>
      let a := if 0 <=? e then Z.pos m * 2 ^ e else Z.pos m / 2 ^ (- e) in
      let v := if s then - a else a in
      if (Int64.min_int <=? v) && (v <=? Int64.max_int) then v
      else Int64.min_int
  | S754_infinity _ | S754_nan => Int64.min_int
  end.

(** A decimal literal [n/d] of the source, correctly rounded. *)
Definition lit (n d : Z) : float64 := div (of_int n) (of_int d).

Definition zero : float64 := S754_zero false.
Definition one : float64 := Eval vm_compute in of_int 1.
Definition nan : float64 := S754_nan.

End F64.

Module F64Notations.
Declare Scope f64_scope.
Delimit Scope f64_scope with f64.
Infix "+" := F64.add : f64_scope.
Infix "-" := F64.sub : f64_scope.
Infix "*" := F64.mul : f64_scope.
Infix "/" := F64.div : f64_scope.
Infix "==?" := F64.eqb (at level 70) : f64_scope.
Infix "<?" := F64.ltb : f64_scope.
Infix "<=?" := F64.leb : f64_scope.
Infix ">?" := F64.gtb : f64_scope.
Infix ">=?" := F64.geb : f64_scope.
End F64Notations.
Import F64Notations.

(** Go's [error] values are kept as their messages; wrapping with
    [fmt.Errorf("...: %w", err)] prefixes the message. *)
Definition error : Type := string.

Definition wrapError (context : string) (err : error) : error :=
  (context ++ ": " ++ err)%string.

(** The two shapes of a Go [(value, error)] return. *)
Inductive result (A : Type) : Type :=
| Ok (value : A)
| Err (err : error).
Arguments Ok {A} value.
Arguments Err {A} err.

(** A Go call returns, or it panics; nothing in the repository recovers
    from a panic, so one that is raised ends the run without a return
    value.  The two run-time errors the matcher can raise: a type
    assertion [x.(T)] in its one-value form on a value that is not a [T],
    and a slice expression whose bounds are out of range. *)
Inductive panic : Type :=
| InterfaceConversion
| SliceBoundsOutOfRange.

Inductive outcome (A : Type) : Type :=
| Returns (value : A)
| Panics (p : panic).
Arguments Returns {A} value.
Arguments Panics {A} p.

(** [%d] of [fmt] for an [int]. *)
Definition itoa (n : Z) : string := NilZero.string_of_int (Z.to_int n).

(* ===================================================================== *)
(** ** Package strings *)
(* ===================================================================== *)

(** The functions of Go's [strings] package that the code calls.  A Go string is a sequence of bytes, here the characters of a
    [string]; indices and lengths count bytes. *)
Module gostrings.

(** [len(s)]. *)
Definition byteLen (s : string) : Z := Z.of_nat (String.length s).

(** [strings.Index(s, sep)] for a separator of one byte: the index of its
    first occurrence, -1 when there is none. *)
Fixpoint Index (s : string) (sep : ascii) : Z :=
  match s with
  | EmptyString => -1
  | String c rest =>
      if Ascii.eqb c sep then 0
      else
        let i := Index rest sep in
        if i <? 0 then -1 else i + 1
  end.

(** [strings.LastIndex(s, sep)] for a separator of one byte: the index of
    its last occurrence, -1 when there is none. *)
Fixpoint LastIndex (s : string) (sep : ascii) : Z :=
  match s with
  | EmptyString => -1
  | String c rest =>
      let i := LastIndex rest sep in
      if 0 <=? i then i + 1
      else if Ascii.eqb c sep then 0 else -1
  end.

(** Whether every byte is below [utf8.RuneSelf] (0x80).  On such input
    [ToLower] and [TrimSpace] work byte by byte, as below; on other input
    they decode UTF-8, which is not modelled, so what is proved of them
    assumes [isASCII]. *)
Definition isASCII (s : string) : bool :=
  forallb (fun c => (N_of_ascii c <? 128)%N) (String.list_ascii_of_string s).

(** The table [asciiSpace]: tab, line feed, vertical tab, form feed,
    carriage return, space. *)
Definition asciiSpace (c : ascii) : bool :=
  let n := N_of_ascii c in
  ((9 <=? n) && (n <=? 13) || (n =? 32))%N.

(** The loop of [TrimSpace] that steps over leading white space. *)
Fixpoint skipSpace (s : list ascii) : list ascii :=
  match s with
  | [] => []
  | c :: rest => if asciiSpace c then skipSpace rest else s
  end.

(** [strings.TrimSpace(s)]: the leading loop, then the same from the
    end. *)
Definition TrimSpace (s : string) : string :=
  String.string_of_list_ascii
    (rev (skipSpace (rev (skipSpace (String.list_ascii_of_string s))))).

(** One byte of [ToLower]: [if 'A' <= c && c <= 'Z' { c += 'a' - 'A' }]. *)
Definition lowerByte (c : ascii) : ascii :=
  let n := N_of_ascii c in
  if ((65 <=? n) && (n <=? 90))%N then ascii_of_N (n + 32) else c.

Fixpoint mapBytes (f : ascii -> ascii) (s : string) : string :=
  match s with
  | EmptyString => EmptyString
  | String c rest => String (f c) (mapBytes f rest)
  end.

(** [strings.ToLower(s)]. *)
Definition ToLower (s : string) : string := mapBytes lowerByte s.

(** [strings.ReplaceAll(s, old, new)] for [old] and [new] of one byte. *)
Definition ReplaceAll (s : string) (old new : ascii) : string :=
  mapBytes (fun c => if Ascii.eqb c old then new else c) s.

End gostrings.

(* ===================================================================== *)
(** ** Package models *)
(* ===================================================================== *)

Module models.

(** [type EmploymentStatus string] *)
Definition EmploymentStatus : Type := string.

Definition EmploymentStatusEmployed : EmploymentStatus := "employed".
Definition EmploymentStatusSelfEmployed : EmploymentStatus := "self_employed".
Definition EmploymentStatusUnemployed : EmploymentStatus := "unemployed".
Definition EmploymentStatusRetired : EmploymentStatus := "retired".
Definition EmploymentStatusStudent : EmploymentStatus := "student".

(** [type MatchStatus string] with its five constants. *)
Inductive MatchStatus : Type :=
| MatchStatusPending
| MatchStatusEligible
| MatchStatusNotEligible
| MatchStatusNotified
| MatchStatusExpired.

Definition MatchStatus_string (s : MatchStatus) : string :=
  match s with
  | MatchStatusPending => "pending"
  | MatchStatusEligible => "eligible"
  | MatchStatusNotEligible => "not_eligible"
  | MatchStatusNotified => "notified"
  | MatchStatusExpired => "expired"
  end.

(** [type MatchSource string] with its four constants. *)
Inductive MatchSource : Type :=
| MatchSourceSQLFilter
| MatchSourceLogicFilter
| MatchSourceLLMCheck
| MatchSourceManual.

Definition MatchSource_string (s : MatchSource) : string :=
  match s with
  | MatchSourceSQLFilter => "sql_filter"
  | MatchSourceLogicFilter => "logic_filter"
  | MatchSourceLLMCheck => "llm_check"
  | MatchSourceManual => "manual"
  end.

(** [type User struct]; the two timestamps play no part in matching and
    are left out. *)
Module User.
Record t : Type := mk {
  ID : Z;
  UserID : string;
  Email : string;
  MonthlyIncome : F64.float64;
  CreditScore : Z;
  EmploymentStatus : models.EmploymentStatus;
  Age : Z;
  BatchID : string;
  IsActive : bool
}.
End User.

(** [type LoanProduct struct]; timestamps left out, a nil pointer is
    [None]. *)
Module LoanProduct.
Record t : Type := mk {
  ID : Z;
  ProductName : string;
  ProviderName : string;
  ProductType : string;
  InterestRateMin : F64.float64;
  InterestRateMax : F64.float64;
  LoanAmountMin : F64.float64;
  LoanAmountMax : F64.float64;
  TenureMinMonths : Z;
  TenureMaxMonths : Z;
  MinMonthlyIncome : F64.float64;
  MinCreditScore : Z;
  MaxCreditScore : option Z;
  MinAge : Z;
  MaxAge : Z;
  AcceptedEmploymentStatus : list EmploymentStatus;
  ProcessingFeePercent : option F64.float64;
  SourceURL : string;
  IsActive : bool
}.
End LoanProduct.

(** [type MatchCreate struct] *)
Module MatchCreate.
Record t : Type := mk {
  UserID : Z;
  ProductID : Z;
  MatchScore : F64.float64;
  Status : MatchStatus;
  MatchSource : models.MatchSource;
  IncomeEligible : bool;
  CreditScoreEligible : bool;
  AgeEligible : bool;
  EmploymentEligible : bool;
  LLMAnalysis : string;
  LLMConfidence : option F64.float64;
  BatchID : string
}.
End MatchCreate.

(** [type MatchCandidate struct]: one row of the SQL pre-filter. *)
Module MatchCandidate.
Record t : Type := mk {
  UserDBID : Z;
  UserExternalID : string;
  Email : string;
  MonthlyIncome : F64.float64;
  CreditScore : Z;
  EmploymentStatus : models.EmploymentStatus;
  Age : Z;
  ProductID : Z;
  ProductName : string;
  ProviderName : string;
  MinMonthlyIncome : F64.float64;
  MinCreditScore : Z;
  MaxCreditScore : option Z;
  MinAge : Z;
  MaxAge : Z;
  AcceptedEmploymentStatus : list models.EmploymentStatus;
  InterestRateMin : F64.float64;
  InterestRateMax : F64.float64
}.
End MatchCandidate.

(** The loop [for _, status := range accepted { if status == wanted
    { found = true; break } }], returning [found]. *)
Fixpoint statusListed (accepted : list EmploymentStatus)
    (wanted : EmploymentStatus) : bool :=
  match accepted with
  | [] => false
  | status :: rest =>
      if String.eqb status wanted then true else statusListed rest wanted
  end.

Import MatchCandidate.

(** [func (c *MatchCandidate) IsFullyEligible() bool] *)
Definition IsFullyEligible (c : MatchCandidate.t) : bool :=
  if (MonthlyIncome c <? MinMonthlyIncome c)%f64 then false
  else if CreditScore c <? MinCreditScore c then false
  else if match MaxCreditScore c with
          | Some maxCredit => CreditScore c >? maxCredit
          | None => false
          end then false
  else if (Age c <? MinAge c) || (Age c >? MaxAge c) then false
  else if (0 <? length (AcceptedEmploymentStatus c))%nat then
    if negb (statusListed (AcceptedEmploymentStatus c) (EmploymentStatus c))
    then false else true
  else true.

(** [func (c *MatchCandidate) CalculateMatchScore() float64] *)
Definition CalculateMatchScore (c : MatchCandidate.t) : F64.float64 :=
  let score := F64.zero in
  let maxScore := F64.of_int 100 in
  let score :=
    if (MonthlyIncome c >=? MinMonthlyIncome c)%f64 then
      let incomeRatio := (MonthlyIncome c / MinMonthlyIncome c)%f64 in
      let incomeRatio :=
        if (incomeRatio >? F64.of_int 2)%f64 then F64.of_int 2
        else incomeRatio in
      (score + F64.of_int 15 * incomeRatio)%f64
    else score in
  let score :=
    if CreditScore c >=? MinCreditScore c then
      let normalizedScore :=
        (F64.of_int (Int64.sub (CreditScore c) 300) / F64.of_int 600)%f64 in
      (score + F64.of_int 40 * normalizedScore)%f64
    else score in
  let score :=
    if (Age c >=? MinAge c) && (Age c <=? MaxAge c)
    then (score + F64.of_int 15)%f64 else score in
  let score :=
    if (0 <? length (AcceptedEmploymentStatus c))%nat then
      if statusListed (AcceptedEmploymentStatus c) (EmploymentStatus c)
      then (score + F64.of_int 15)%f64 else score
    else (score + F64.of_int 15)%f64 in
  if (score >? maxScore)%f64 then maxScore else score.

End models.


(* ===================================================================== *)
(** ** Package database *)
(* ===================================================================== *)

Module database.
Import models.

(** What a transaction on the connection pool can do: [pool.Begin], one
    [tx.Exec] per row (the row is read through the slice's pointer, [None]
    being a nil pointer), and [tx.Commit]; each may fail. *)
Record Tx : Type := mkTx {
  txBegin : option error;
  txExec : option MatchCreate.t -> option error;
  txCommit : option error
}.

(** What the connection does with one [SELECT].  [pool.Query] may fail.
    Otherwise the cursor delivers the selected rows in order until
    [rows.Next()] returns false: after the last row, or earlier when the
    stream breaks, [delivered] then being the number of rows that came
    through (the repositories never read [rows.Err()], so to them a
    broken stream is the end of the rows).  On each delivered row
    [rows.Scan] may fail, for instance on a NULL in a column scanned into
    a field that is not a pointer. *)
Record Cursor (A : Type) : Type := mkCursor {
  queryErr : option error;
  delivered : option nat;
  scanErr : A -> option error
}.
Arguments mkCursor {A} queryErr delivered scanErr.
Arguments queryErr {A} c.
Arguments delivered {A} c.
Arguments scanErr {A} c row.

(** The state of the database seen by one batch run: the two tables the
    matcher reads, the cursor of each of the three queries, what the
    decoding of the accepted_employment_status column leaves in a row of
    the Stage-1 query, and the transaction the match repository writes
    through. *)
Record DB : Type := mkDB {
  users : list User.t;
  loan_products : list LoanProduct.t;
  usersCursor : Cursor User.t;
  productsCursor : Cursor LoanProduct.t;
  prefilterCursor : Cursor (User.t * LoanProduct.t);
  prefilterAccepted : User.t * LoanProduct.t -> list EmploymentStatus;
  tx : Tx
}.

(** [ORDER BY]: insertion of a row before the first row it precedes. *)
Fixpoint insertBy {A : Type} (before : A -> A -> bool) (x : A)
    (rows : list A) : list A :=
  match rows with
  | [] => [x]
  | y :: rest =>
      if before x y then x :: rows else y :: insertBy before x rest
  end.

Definition orderBy {A : Type} (before : A -> A -> bool) (rows : list A)
    : list A :=
  fold_right (insertBy before) [] rows.

(** [func (db *DB) WithTransaction] around a closure that never fails, which
    is how [BulkInsert] uses it. *)
Definition WithTransaction {A : Type} (t : Tx) (fn : unit -> A) (nothing : A)
    : A * option error :=
  match txBegin t with
  | Some err => (nothing, Some (wrapError "failed to begin transaction" err))
  | None =>
      let done := fn tt in
      match txCommit t with
      | Some err =>
          (done, Some (wrapError "failed to commit transaction" err))
      | None => (done, None)
      end
  end.

(** [func (r *MatchRepository) BulkInsert]: a failing row is counted and the
    loop goes on; only the transaction itself can make the call fail. *)
Definition BulkInsert (db : DB) (matches : list (option MatchCreate.t))
    : Z * Z * option error :=
  let rows (_ : unit) :=
    fold_left
      (fun (counts : Z * Z) (m : option MatchCreate.t) =>
         let '(inserted, failed) := counts in
         match txExec (tx db) m with
         | Some _ => (inserted, Int64.add failed 1)
         | None => (Int64.add inserted 1, failed)
         end)
      matches (0, 0) in
  let '((inserted, failed), err) := WithTransaction (tx db) rows (0, 0) in
  (inserted, failed, err).

(** The rows that come through before [rows.Next()] returns false. *)
Definition deliver {A : Type} (delivered : option nat) (rows : list A)
    : list A :=
  match delivered with
  | None => rows
  | Some n => firstn n rows
  end.

(** The loop [for rows.Next() { err := rows.Scan(...); if err != nil
    { return nil, fmt.Errorf(context, err) }; rows = append(rows, row) }]:
    a row that cannot be scanned ends the call with the wrapped error and
    without the rows scanned before it. *)
Fixpoint scanLoop {A B : Type} (context : string)
    (scanErr : A -> option error) (build : A -> B) (rows : list A)
    (scanned : list B) : result (list B) :=
  match rows with
  | [] => Ok scanned
  | row :: rest =>
      match scanErr row with
      | Some err => Err (wrapError context err)
      | None => scanLoop context scanErr build rest (scanned ++ [build row])
      end
  end.

(** [func (r *UserRepository) GetByIDs]:
    [WHERE id IN (...) AND is_active = true ORDER BY id]. *)
Definition GetByIDs (db : DB) (ids : list Z) : result (list User.t) :=
  if (length ids =? 0)%nat then Ok []
  else
    match queryErr (usersCursor db) with
    | Some err => Err (wrapError "failed to query users" err)
    | None =>
        scanLoop "failed to scan user" (scanErr (usersCursor db))
          (fun user => user)
          (deliver (delivered (usersCursor db))
             (orderBy (fun u1 u2 => User.ID u1 <=? User.ID u2)
                (List.filter
                   (fun u =>
                      existsb (Z.eqb (User.ID u)) ids && User.IsActive u)
                   (users db))))
          []
    end.

(** [func (r *ProductRepository) GetAllActive]:
    [WHERE is_active = true ORDER BY id], each row through
    [scanProductRow]. *)
Definition GetAllActive (db : DB) : result (list LoanProduct.t) :=
  match queryErr (productsCursor db) with
  | Some err => Err (wrapError "failed to query loan products" err)
  | None =>
      scanLoop "failed to scan loan product" (scanErr (productsCursor db))
        (fun product => product)
        (deliver (delivered (productsCursor db))
           (orderBy (fun p1 p2 => LoanProduct.ID p1 <=? LoanProduct.ID p2)
              (List.filter LoanProduct.IsActive (loan_products db))))
        []
  end.

(** The [WHERE] clause of the Stage-1 query, conjunct by conjunct; the
    batch conjunct is appended only for a non-empty [batchID]. *)
Definition prefilterWhere (batchID : string) (u : User.t)
    (p : LoanProduct.t) : bool :=
  User.IsActive u
  && LoanProduct.IsActive p
  && (User.MonthlyIncome u >=? LoanProduct.MinMonthlyIncome p)%f64
  && (User.CreditScore u >=? LoanProduct.MinCreditScore p)
  && match LoanProduct.MaxCreditScore p with
     | None => true
     | Some maxCredit => User.CreditScore u <=? maxCredit
     end
  && (User.Age u >=? LoanProduct.MinAge p)
  && (User.Age u <=? LoanProduct.MaxAge p)
  && (if String.eqb batchID "" then true
      else String.eqb (User.BatchID u) batchID).

(** [ORDER BY u.id, p.id] *)
Definition prefilterOrder (r1 r2 : User.t * LoanProduct.t) : bool :=
  (User.ID (fst r1) <? User.ID (fst r2))
  || ((User.ID (fst r1) =? User.ID (fst r2))
      && (LoanProduct.ID (snd r1) <=? LoanProduct.ID (snd r2))).

(** The [models.MatchCandidate] a row of the Stage-1 query becomes once
    [rows.Scan] has succeeded.  The scalar columns are scanned into their
    fields.  The accepted_employment_status column, a TEXT[], is scanned
    into the Go string [empStatusJSON] and, when that string is not empty,
    decoded with [json.Unmarshal], an error of which empties the field;
    [accepted] is what the field holds after that: the list the string
    spells as a JSON array of strings, and no status at all otherwise (as
    for the text form of a Postgres array, which is written in braces). *)
Definition scanCandidate (row : User.t * LoanProduct.t)
    (accepted : list EmploymentStatus) : MatchCandidate.t :=
  let (u, p) := row in
  MatchCandidate.mk
    (User.ID u) (User.UserID u) (User.Email u) (User.MonthlyIncome u)
    (User.CreditScore u) (User.EmploymentStatus u) (User.Age u)
    (LoanProduct.ID p) (LoanProduct.ProductName p)
    (LoanProduct.ProviderName p) (LoanProduct.MinMonthlyIncome p)
    (LoanProduct.MinCreditScore p) (LoanProduct.MaxCreditScore p)
    (LoanProduct.MinAge p) (LoanProduct.MaxAge p)
    accepted
    (LoanProduct.InterestRateMin p) (LoanProduct.InterestRateMax p).

(** [func (r *MatchRepository) SQLPrefilterMatches]: the cross join of the
    two tables under the [WHERE] clause, ordered, then the scan loop. *)
Definition SQLPrefilterMatches (db : DB) (batchID : string)
    : result (list MatchCandidate.t) :=
  match queryErr (prefilterCursor db) with
  | Some err => Err (wrapError "failed to execute SQL prefilter" err)
  | None =>
      scanLoop "failed to scan candidate" (scanErr (prefilterCursor db))
        (fun row => scanCandidate row (prefilterAccepted db row))
        (deliver (delivered (prefilterCursor db))
           (orderBy prefilterOrder
              (List.filter
                 (fun row => prefilterWhere batchID (fst row) (snd row))
                 (list_prod (users db) (loan_products db)))))
        []
  end.

End database.


(* ===================================================================== *)
(** ** Package matcher *)
(* ===================================================================== *)

Module matcher.
Import models.

(** [type LLMResponse struct] *)
Record LLMResponse : Type := mkLLMResponse {
  Qualified : bool;
  Confidence : F64.float64;
  Reasoning : string;
  RiskFactors : list string
}.

(** What [encoding/json] decodes into an [interface{}]: nil, a [bool], a
    [float64], a [string], a [[]interface{}] or a
    [map[string]interface{}], the map as its entries, one for each key. *)
Unset Elimination Schemes.
Inductive JSON : Type :=
| JNull
| JBool (b : bool)
| JNumber (x : F64.float64)
| JString (s : string)
| JArray (items : list JSON)
| JObject (entries : list (string * JSON)).
Set Elimination Schemes.

(** [m[key]] on such a map; [None] is the nil interface of a missing
    key. *)
Fixpoint index (m : list (string * JSON)) (key : string) : option JSON :=
  match m with
  | [] => None
  | (k, v) :: rest => if String.eqb k key then Some v else index rest key
  end.

(** [type Response struct] of [net/http], as far as [EvaluateMatch] reads
    it: the status code, and what [json.NewDecoder(resp.Body).Decode]
    leaves in its [map[string]interface{}]: the entries of the object
    read (none for a JSON null), or the error of the decoder. *)
Record Response : Type := mkResponse {
  StatusCode : Z;
  Body : result (list (string * JSON))
}.

(** [type Client struct] of [net/http] with what [EvaluateMatch] calls on
    the way to it and back: [http.NewRequestWithContext] on the URL,
    [client.Do] on the request of the n-th evaluation of the batch, whose
    prompt is built from the user and the product, and [json.Unmarshal] of
    a text into an [LLMResponse].  ([json.Marshal] of the request body, a
    map of strings and numbers, cannot fail.) *)
Record Client : Type := mkClient {
  NewRequestWithContext : string -> option error;
  Do : nat -> User.t -> LoanProduct.t -> result Response;
  Unmarshal : string -> result LLMResponse
}.

(** [type LLMClient struct] *)
Record LLMClient : Type := mkLLMClient {
  apiKey : string;
  apiURL : string;
  model : string;
  client : Client
}.

(** [type MatcherService struct] *)
Record MatcherService : Type := mkMatcherService {
  db : database.DB;
  llmClient : LLMClient
}.

(** [type MatchingResult struct] *)
Record MatchingResult : Type := mkMatchingResult {
  TotalUsers : Z;
  TotalProducts : Z;
  TotalPairs : Z;
  SQLPrefilterPassed : Z;
  LogicFilterPassed : Z;
  LLMCheckPassed_count : Z;
  FinalMatches : Z;
  ProcessingTime : Z;
  Errors : list error
}.

(** [type MatchCandidate struct] of the matcher. *)
Module MatchCandidate.
Record t : Type := mk {
  UserID : Z;
  ProductID : Z;
  EligibilityScore : F64.float64;
  IncomeEligible : bool;
  CreditScoreEligible : bool;
  AgeEligible : bool;
  EmploymentEligible : bool;
  LLMCheckPassed : bool;
  LLMReasoning : string;
  LLMConfidence : F64.float64
}.

(** Assignments through the candidate pointer. *)
Definition setEligibilityScore (c : t) (score : F64.float64) : t :=
  mk (UserID c) (ProductID c) score (IncomeEligible c)
     (CreditScoreEligible c) (AgeEligible c) (EmploymentEligible c)
     (LLMCheckPassed c) (LLMReasoning c) (LLMConfidence c).

Definition setLLMCheckPassed (c : t) (passed : bool) : t :=
  mk (UserID c) (ProductID c) (EligibilityScore c) (IncomeEligible c)
     (CreditScoreEligible c) (AgeEligible c) (EmploymentEligible c)
     passed (LLMReasoning c) (LLMConfidence c).

Definition setLLMReasoning (c : t) (reasoning : string) : t :=
  mk (UserID c) (ProductID c) (EligibilityScore c) (IncomeEligible c)
     (CreditScoreEligible c) (AgeEligible c) (EmploymentEligible c)
     (LLMCheckPassed c) reasoning (LLMConfidence c).

Definition setLLMConfidence (c : t) (confidence : F64.float64) : t :=
  mk (UserID c) (ProductID c) (EligibilityScore c) (IncomeEligible c)
     (CreditScoreEligible c) (AgeEligible c) (EmploymentEligible c)
     (LLMCheckPassed c) (LLMReasoning c) confidence.
End MatchCandidate.

(** *** Stage 1: [sqlPrefilter] *)

Definition incomeEligible (user : User.t) (product : LoanProduct.t) : bool :=
  (User.MonthlyIncome user >=? LoanProduct.MinMonthlyIncome product)%f64.

Definition creditScoreEligible (user : User.t) (product : LoanProduct.t)
    : bool :=
  User.CreditScore user >=? LoanProduct.MinCreditScore product.

Definition ageEligible (user : User.t) (product : LoanProduct.t) : bool :=
  (User.Age user >=? LoanProduct.MinAge product)
  && (User.Age user <=? LoanProduct.MaxAge product).

(** The flag starts false, the loop over the accepted statuses may set it,
    and an empty list sets it afterwards. *)
Definition employmentEligible (user : User.t) (product : LoanProduct.t)
    : bool :=
  let employmentEligible :=
    statusListed (LoanProduct.AcceptedEmploymentStatus product)
      (User.EmploymentStatus user) in
  if (length (LoanProduct.AcceptedEmploymentStatus product) =? 0)%nat
  then true else employmentEligible.

(** The body of the inner loop: one (user, product) pair. *)
Definition sqlPrefilterPair (user : User.t)
    (candidates : list MatchCandidate.t) (product : LoanProduct.t)
    : list MatchCandidate.t :=
  let incomeEligible := incomeEligible user product in
  let creditScoreEligible := creditScoreEligible user product in
  let ageEligible := ageEligible user product in
  let employmentEligible := employmentEligible user product in
  if incomeEligible && creditScoreEligible && ageEligible
     && employmentEligible
  then
    candidates ++
      [MatchCandidate.mk (User.ID user) (LoanProduct.ID product) F64.zero
         incomeEligible creditScoreEligible ageEligible employmentEligible
         false "" F64.zero]
  else candidates.

(** [func (m *MatcherService) sqlPrefilter] *)
Definition sqlPrefilter (users : list User.t) (products : list LoanProduct.t)
    : list MatchCandidate.t :=
  fold_left
    (fun candidates user =>
       fold_left (sqlPrefilterPair user) products candidates)
    users [].

(** *** Stage 2: [logicFilter] *)

(** [func pow(base, exp float64) float64]: the loop runs [int(exp)] times. *)
Fixpoint powLoop (iterations : nat) (base result : F64.float64)
    : F64.float64 :=
  match iterations with
  | O => result
  | S rest => powLoop rest base (result * base)%f64
  end.

Definition pow (base exp : F64.float64) : F64.float64 :=
  powLoop (Z.to_nat (F64.to_int exp)) base F64.one.

(** [func (m *MatcherService) passesBusinessRules] *)
Definition passesBusinessRules (user : User.t) (product : LoanProduct.t)
    : bool :=
  let maxEMI := (User.MonthlyIncome user * F64.lit 1 2)%f64 in
  let monthlyRate :=
    (LoanProduct.InterestRateMax product / F64.of_int 100 / F64.of_int 12)%f64
  in
  let tenure := F64.of_int (LoanProduct.TenureMaxMonths product) in
  let tenure := if (tenure ==? F64.zero)%f64 then F64.of_int 60 else tenure in
  if (monthlyRate >? F64.zero)%f64 then
    let emiForMinAmount :=
      (LoanProduct.LoanAmountMin product * monthlyRate
       * pow (F64.one + monthlyRate) tenure
       / (pow (F64.one + monthlyRate) tenure - F64.one))%f64 in
    if (emiForMinAmount >? maxEMI * F64.of_int 2)%f64 then false else true
  else true.

(** [func abs(x float64) float64] *)
Definition abs (x : F64.float64) : F64.float64 :=
  if (x <? F64.zero)%f64 then F64.neg x else x.

(** [func (m *MatcherService) calculateEligibilityScore] *)
Definition calculateEligibilityScore (user : User.t)
    (product : LoanProduct.t) : F64.float64 :=
  let score := F64.zero in
  let creditScoreExcess :=
    F64.of_int
      (Int64.sub (User.CreditScore user) (LoanProduct.MinCreditScore product))
  in
  let creditScoreRange :=
    F64.of_int (Int64.sub 900 (LoanProduct.MinCreditScore product)) in
  let score :=
    if (creditScoreRange >? F64.zero)%f64 then
      let creditComponent :=
        (creditScoreExcess / creditScoreRange * F64.of_int 40)%f64 in
      let creditComponent :=
        if (creditComponent >? F64.of_int 40)%f64 then F64.of_int 40
        else creditComponent in
      let creditComponent :=
        if (creditComponent <? F64.zero)%f64 then F64.zero
        else creditComponent in
      (score + creditComponent)%f64
    else score in
  let incomeExcess :=
    (User.MonthlyIncome user - LoanProduct.MinMonthlyIncome product)%f64 in
  let incomeRange :=
    (LoanProduct.MinMonthlyIncome product * F64.of_int 2)%f64 in
  let score :=
    if (incomeRange >? F64.zero)%f64 then
      let incomeComponent :=
        (incomeExcess / incomeRange * F64.of_int 30)%f64 in
      let incomeComponent :=
        if (incomeComponent >? F64.of_int 30)%f64 then F64.of_int 30
        else incomeComponent in
      let incomeComponent :=
        if (incomeComponent <? F64.zero)%f64 then F64.zero
        else incomeComponent in
      (score + incomeComponent)%f64
    else score in
  let score := (score + F64.of_int 20)%f64 in
  let ageRange :=
    F64.of_int
      (Int64.sub (LoanProduct.MaxAge product) (LoanProduct.MinAge product)) in
  let score :=
    if (ageRange >? F64.zero)%f64 then
      let ageMidpoint :=
        (F64.of_int
           (Int64.add (LoanProduct.MinAge product)
              (LoanProduct.MaxAge product))
         / F64.of_int 2)%f64 in
      let ageDiff := abs (F64.of_int (User.Age user) - ageMidpoint)%f64 in
      let ageComponent :=
        ((F64.one - ageDiff / (ageRange / F64.of_int 2))
         * F64.of_int 10)%f64 in
      let ageComponent :=
        if (ageComponent <? F64.zero)%f64 then F64.zero else ageComponent in
      (score + ageComponent)%f64
    else score in
  score.

(** [userMap[u.ID] = u] for every user in turn. *)
Definition buildUserMap (users : list User.t) : gmap Z User.t :=
  fold_left (fun userMap u => <[User.ID u := u]> userMap) users ∅.

Definition buildProductMap (products : list LoanProduct.t)
    : gmap Z LoanProduct.t :=
  fold_left (fun productMap p => <[LoanProduct.ID p := p]> productMap)
    products ∅.

(** The body of the loop of [logicFilter]. *)
Definition logicFilterStep (userMap : gmap Z User.t)
    (productMap : gmap Z LoanProduct.t)
    (filtered : list MatchCandidate.t) (c : MatchCandidate.t)
    : list MatchCandidate.t :=
  match userMap !! MatchCandidate.UserID c,
        productMap !! MatchCandidate.ProductID c with
  | Some user, Some product =>
      if negb (passesBusinessRules user product) then filtered
      else
        filtered ++
          [MatchCandidate.setEligibilityScore c
             (calculateEligibilityScore user product)]
  | _, _ => filtered
  end.

(** [func (m *MatcherService) logicFilter] *)
Definition logicFilter (candidates : list MatchCandidate.t)
    (users : list User.t) (products : list LoanProduct.t)
    : list MatchCandidate.t :=
  let userMap := buildUserMap users in
  let productMap := buildProductMap products in
  fold_left (logicFilterStep userMap productMap) candidates [].

(** *** The ranker: [selectTopCandidates] *)

(** The body of the inner loop: compare the slots [j] and [j+1] and swap
    them in place when the left score is the smaller one.  The loop bounds
    keep both indices inside the slice. *)
Definition swapIfLess (candidates : list MatchCandidate.t) (j : nat)
    : list MatchCandidate.t :=
  match candidates !! j, candidates !! (j + 1)%nat with
  | Some cj, Some cj1 =>
      if (MatchCandidate.EligibilityScore cj
          <? MatchCandidate.EligibilityScore cj1)%f64
      then <[j := cj1]> (<[(j + 1)%nat := cj]> candidates)
      else candidates
  | _, _ => candidates
  end.

(** [for j := 0; j < len(candidates)-i-1; j++] *)
Definition bubbleInner (candidates : list MatchCandidate.t) (i : nat)
    : list MatchCandidate.t :=
  fold_left swapIfLess (seq 0 (length candidates - i - 1)) candidates.

(** [for i := 0; i < len(candidates)-1; i++] *)
Definition bubbleSort (candidates : list MatchCandidate.t)
    : list MatchCandidate.t :=
  fold_left bubbleInner (seq 0 (length candidates - 1)) candidates.

(** [func (m *MatcherService) selectTopCandidates]; [limit] is the constant
    100 at its only call. *)
Definition selectTopCandidates (candidates : list MatchCandidate.t)
    (limit : nat) : list MatchCandidate.t :=
  if (length candidates <=? limit)%nat then candidates
  else firstn limit (bubbleSort candidates).

(** *** Stage 3: [llmCheck] *)

Definition noAPIKeyResponse : LLMResponse :=
  mkLLMResponse true (F64.lit 7 10)
    "LLM check skipped - no API key configured" [].

(** [func (c *LLMClient) parseResponse].  The assertion on
    [result["candidates"]] is the only one in the two-value form; each of
    the others panics on a value of another type, a missing key and a JSON
    null included, and so does [text[start : end+1]] when the last closing
    brace lies more than one byte before the first opening brace. *)
Definition parseResponse (c : LLMClient) (decoded : list (string * JSON))
    : outcome (result LLMResponse) :=
  match index decoded "candidates" with
  | Some (JArray (candidate :: _)) =>
      match candidate with
      | JObject candidate =>
          match index candidate "content" with
          | Some (JObject content) =>
              match index content "parts" with
              | Some (JArray []) => Returns (Err "no parts in response")
              | Some (JArray (part :: _)) =>
                  match part with
                  | JObject part =>
                      match index part "text" with
                      | Some (JString text) =>
                          let start := gostrings.Index text "{"%char in
                          let end_ := gostrings.LastIndex text "}"%char in
                          if (start =? -1) || (end_ =? -1) then
                            Returns (Err "no JSON found in response")
                          else if end_ + 1 <? start then
                            Panics SliceBoundsOutOfRange
                          else
                            let jsonStr :=
                              String.substring (Z.to_nat start)
                                (Z.to_nat (end_ + 1 - start)) text in
                            match Unmarshal (client c) jsonStr with
                            | Err err =>
                                Returns
                                  (Err (wrapError "failed to parse JSON" err))
                            | Ok response => Returns (Ok response)
                            end
                      | _ => Panics InterfaceConversion
                      end
                  | _ => Panics InterfaceConversion
                  end
              | _ => Panics InterfaceConversion
              end
          | _ => Panics InterfaceConversion
          end
      | _ => Panics InterfaceConversion
      end
  | _ => Returns (Err "no candidates in response")
  end.

(** [func (c *LLMClient) EvaluateMatch], as the [evaluation]-th call of the
    batch. *)
Definition EvaluateMatch (c : LLMClient) (evaluation : nat) (user : User.t)
    (product : LoanProduct.t) : outcome (result LLMResponse) :=
  if String.eqb (apiKey c) "" then Returns (Ok noAPIKeyResponse)
  else
    let url := (apiURL c ++ "?key=" ++ apiKey c)%string in
    match NewRequestWithContext (client c) url with
    | Some err => Returns (Err (wrapError "failed to create request" err))
    | None =>
        match Do (client c) evaluation user product with
        | Err err => Returns (Err (wrapError "API request failed" err))
        | Ok resp =>
            if negb (StatusCode resp =? 200) then
              Returns
                (Err ("API returned status " ++ itoa (StatusCode resp))%string)
            else
              match Body resp with
              | Err err =>
                  Returns (Err (wrapError "failed to decode response" err))
              | Ok result => parseResponse c result
              end
        end
    end.

Definition apiErrorNote : string :=
  "LLM check skipped due to API error, high score approved".

(** The loop of [llmCheck] with its three variables: the slice [passed],
    [lastErr], and the number of evaluations made so far.  An evaluation
    that panics ends the loop and the call. *)
Fixpoint llmCheckLoop (llm : LLMClient) (userMap : gmap Z User.t)
    (productMap : gmap Z LoanProduct.t)
    (candidates passed : list MatchCandidate.t) (lastErr : option error)
    (evaluation : nat) : outcome (list MatchCandidate.t * option error) :=
  match candidates with
  | [] => Returns (passed, lastErr)
  | c :: rest =>
      match userMap !! MatchCandidate.UserID c,
            productMap !! MatchCandidate.ProductID c with
      | Some user, Some product =>
          match EvaluateMatch llm evaluation user product with
          | Panics p => Panics p
          | Returns (Err err) =>
              let lastErr := Some err in
              if (MatchCandidate.EligibilityScore c >=? F64.of_int 60)%f64
              then
                let c := MatchCandidate.setLLMCheckPassed c true in
                let c := MatchCandidate.setLLMReasoning c apiErrorNote in
                llmCheckLoop llm userMap productMap rest (passed ++ [c])
                  lastErr (S evaluation)
              else
                llmCheckLoop llm userMap productMap rest passed lastErr
                  (S evaluation)
          | Returns (Ok response) =>
              let c := MatchCandidate.setLLMCheckPassed c
                         (Qualified response) in
              let c := MatchCandidate.setLLMReasoning c
                         (Reasoning response) in
              let c := MatchCandidate.setLLMConfidence c
                         (Confidence response) in
              if Qualified response then
                llmCheckLoop llm userMap productMap rest (passed ++ [c])
                  lastErr (S evaluation)
              else
                llmCheckLoop llm userMap productMap rest passed lastErr
                  (S evaluation)
          end
      | _, _ =>
          llmCheckLoop llm userMap productMap rest passed lastErr evaluation
      end
  end.

(** [func (m *MatcherService) llmCheck] *)
Definition llmCheck (llm : LLMClient) (candidates : list MatchCandidate.t)
    (users : list User.t) (products : list LoanProduct.t)
    : outcome (list MatchCandidate.t * option error) :=
  llmCheckLoop llm (buildUserMap users) (buildProductMap products)
    candidates [] None 0.

(** *** Match records: [createMatches] *)

(** The record written to slot [i]. *)
Definition matchOf (c : MatchCandidate.t) : MatchCreate.t :=
  let llmConfidence :=
    if (MatchCandidate.LLMConfidence c >? F64.zero)%f64
    then Some (MatchCandidate.LLMConfidence c) else None in
  MatchCreate.mk
    (MatchCandidate.UserID c) (MatchCandidate.ProductID c)
    (MatchCandidate.EligibilityScore c)
    MatchStatusEligible MatchSourceLLMCheck
    (MatchCandidate.IncomeEligible c) (MatchCandidate.CreditScoreEligible c)
    (MatchCandidate.AgeEligible c) (MatchCandidate.EmploymentEligible c)
    (MatchCandidate.LLMReasoning c) llmConfidence "".

(** [func (m *MatcherService) createMatches]: a slice of
    [len(candidates)] nil pointers, then [matches[i] = &MatchCreate{...}]
    for each [i, c] of the range. *)
Definition createMatches (candidates : list MatchCandidate.t)
    : list (option MatchCreate.t) :=
  let matches := replicate (length candidates) (@None MatchCreate.t) in
  fold_left
    (fun matches (ic : nat * MatchCandidate.t) =>
       <[fst ic := Some (matchOf (snd ic))]> matches)
    (combine (seq 0 (length candidates)) candidates) matches.

(** *** The orchestrator: [ProcessNewUsers] *)

Definition len {A : Type} (l : list A) : Z := Z.of_nat (length l).

(** [func (m *MatcherService) ProcessNewUsers]; the pair is Go's
    result pointer and error, with [None] for nil, and [elapsed] is the
    reading of [time.Since(startTime)]. *)
Definition ProcessNewUsers (m : MatcherService) (userIDs : list Z)
    (elapsed : Z) : outcome (option MatchingResult * option error) :=
  match database.GetByIDs (db m) userIDs with
  | Err err => Returns (None, Some (wrapError "failed to get users" err))
  | Ok users =>
      match database.GetAllActive (db m) with
      | Err err =>
          Returns (None, Some (wrapError "failed to get products" err))
      | Ok products =>
          let totalPairs := Int64.mul (len users) (len products) in
          let candidates := sqlPrefilter users products in
          let sqlPrefilterPassed := len candidates in
          let candidates := logicFilter candidates users products in
          let logicFilterPassed := len candidates in
          let topCandidates := selectTopCandidates candidates 100 in
          match llmCheck (llmClient m) topCandidates users products with
          | Panics p => Panics p
          | Returns (finalCandidates, err) =>
              let errors :=
                match err with Some e => [e] | None => [] end in
              let matches := createMatches finalCandidates in
              match database.BulkInsert (db m) matches with
              | (_, _, Some err) =>
                  Returns
                    (None, Some (wrapError "failed to save matches" err))
              | (_, _, None) =>
                  Returns
                    (Some (mkMatchingResult (len users) (len products)
                             totalPairs sqlPrefilterPassed logicFilterPassed
                             (len finalCandidates) (len matches) elapsed
                             errors),
                     None)
              end
          end
      end
  end.

End matcher.


(* ===================================================================== *)
(** ** Sample rows *)
(* ===================================================================== *)

Module Samples.
Import models.

Definition user (id : Z) (income : Z) (credit : Z) (status : EmploymentStatus)
    (age : Z) : User.t :=
  User.mk id "U" "u@example.com" (F64.of_int income) credit status age
    "batch-1" true.

(** A personal loan shaped like the first row of the schema's sample data:
    rates 10.5 to 21 percent, amounts 50000 to 4000000, 12 to 60 months. *)
Definition product (id : Z) (minIncome : Z) (minCredit : Z)
    (maxCredit : option Z) (minAge maxAge : Z)
    (accepted : list EmploymentStatus) (tenureMax : Z) : LoanProduct.t :=
  LoanProduct.mk id "Personal Loan" "Bank" "personal"
    (F64.lit 21 2) (F64.of_int 21) (F64.of_int 50000) (F64.of_int 4000000)
    12 tenureMax (F64.of_int minIncome) minCredit maxCredit minAge maxAge
    accepted None "" true.

Definition alice : User.t := user 1 60000 780 EmploymentStatusEmployed 35.
Definition student : User.t := user 2 30000 720 EmploymentStatusStudent 22.
Definition prime : User.t := user 3 90000 800 EmploymentStatusEmployed 40.

Definition hdfc : LoanProduct.t :=
  product 1 25000 700 None 21 60
    [EmploymentStatusEmployed; EmploymentStatusSelfEmployed] 60.

Definition openToAll : LoanProduct.t := product 2 25000 700 None 21 60 [] 60.

Definition subprime : LoanProduct.t :=
  product 3 25000 700 (Some 750) 21 60 [] 60.

Definition noTenure : LoanProduct.t := product 4 25000 700 None 21 60 [] 0.

End Samples.


(* ===================================================================== *)
(** ** The specification's own words, for comparison with the code *)
(* ===================================================================== *)

Module Spec.
Import models.

(** "Income eligible: applicant.income >= product.minIncome" *)
Definition incomeEligible (income minIncome : F64.float64) : bool :=
  (income >=? minIncome)%f64.

(** "Credit eligible: applicant.credit >= product.minCredit AND
    (product.maxCredit is unset OR applicant.credit <= product.maxCredit)" *)
Definition creditEligible (credit minCredit : Z) (maxCredit : option Z)
    : bool :=
  (credit >=? minCredit)
  && match maxCredit with
     | None => true
     | Some maxCredit => credit <=? maxCredit
     end.

(** "Age eligible: product.minAge <= applicant.age <= product.maxAge" *)
Definition ageEligible (age minAge maxAge : Z) : bool :=
  (minAge <=? age) && (age <=? maxAge).

(** "Employment eligible: product.acceptedEmployment is empty OR
    applicant.employment ∈ product.acceptedEmployment" *)
Definition employmentEligible (employment : EmploymentStatus)
    (acceptedEmployment : list EmploymentStatus) : bool :=
  match acceptedEmployment with
  | [] => true
  | _ :: _ => existsb (String.eqb employment) acceptedEmployment
  end.

(** "A candidate is a Stage-1 pass only if all four are true." *)
Definition stage1Pass (applicant : User.t) (product : LoanProduct.t) : bool :=
  incomeEligible (User.MonthlyIncome applicant)
    (LoanProduct.MinMonthlyIncome product)
  && creditEligible (User.CreditScore applicant)
       (LoanProduct.MinCreditScore product)
       (LoanProduct.MaxCreditScore product)
  && ageEligible (User.Age applicant) (LoanProduct.MinAge product)
       (LoanProduct.MaxAge product)
  && employmentEligible (User.EmploymentStatus applicant)
       (LoanProduct.AcceptedEmploymentStatus product).

(** "Score is always within [0, 100]" *)
Definition scoreInRange (score : F64.float64) : bool :=
  (F64.zero <=? score)%f64 && (score <=? F64.of_int 100)%f64.

End Spec.

(* ===================================================================== *)
(** ** Stage 1: the pairs that pass *)
(* ===================================================================== *)

Import models matcher.

(** The candidate [sqlPrefilter] appends for a passing pair. *)
Definition candidateOf (user : User.t) (product : LoanProduct.t)
    : MatchCandidate.t :=
  MatchCandidate.mk (User.ID user) (LoanProduct.ID product) F64.zero
    (incomeEligible user product) (creditScoreEligible user product)
    (ageEligible user product) (employmentEligible user product)
    false "" F64.zero.

Definition allFourFlags (user : User.t) (product : LoanProduct.t) : bool :=
  incomeEligible user product && creditScoreEligible user product
  && ageEligible user product && employmentEligible user product.

Definition pairCandidates (user : User.t) (product : LoanProduct.t)
    : list MatchCandidate.t :=
  if allFourFlags user product then [candidateOf user product] else [].

(** The (user ID, product ID) pair a candidate stands for. *)
Definition pairOf (c : MatchCandidate.t) : Z * Z :=
  (MatchCandidate.UserID c, MatchCandidate.ProductID c).



(** A database holding the given rows, on which every query and the
    transaction succeed. *)
Definition healthyTx : database.Tx :=
  database.mkTx None (fun _ => None) None.

(** A cursor whose query succeeds, which delivers every row and scans
    each of them. *)
Definition healthyCursor {A : Type} : database.Cursor A :=
  database.mkCursor None None (fun _ => None).

(** A cursor whose query is refused. *)
Definition refusedCursor {A : Type} (err : error) : database.Cursor A :=
  database.mkCursor (Some err) None (fun _ => None).

(** The decoding of the accepted_employment_status column of a row handed
    over in the text form of a Postgres array: no status is left. *)
Definition bracesDecoded (row : User.t * LoanProduct.t)
    : list EmploymentStatus := [].

Definition healthyDB (users : list User.t) (products : list LoanProduct.t)
    : database.DB :=
  database.mkDB users products healthyCursor healthyCursor healthyCursor
    bracesDecoded healthyTx.

(** An applicant without income and a product without an income floor. *)
Definition noIncome : User.t :=
  Samples.user 4 0 650 EmploymentStatusUnemployed 30.

Definition noFloor : LoanProduct.t :=
  Samples.product 5 0 600 None 18 65 [] 60.

(* ===================================================================== *)
(** ** Stage 1 on the fields of the rows *)
(* ===================================================================== *)

Module Stage1.

(** The four tests of the in-memory generator, written on the fields of
    the two rows: the three tests of the specification that read no
    maximum credit score, and the credit score against the minimum
    alone. *)
Definition passes (user : User.t) (product : LoanProduct.t) : bool :=
  Spec.incomeEligible (User.MonthlyIncome user)
    (LoanProduct.MinMonthlyIncome product)
  && (LoanProduct.MinCreditScore product <=? User.CreditScore user)
  && Spec.ageEligible (User.Age user) (LoanProduct.MinAge product)
       (LoanProduct.MaxAge product)
  && Spec.employmentEligible (User.EmploymentStatus user)
       (LoanProduct.AcceptedEmploymentStatus product).

(** The candidate of a passing pair: the two IDs, the four flags true, and
    the zero values of the other fields. *)
Definition candidate (user : User.t) (product : LoanProduct.t)
    : MatchCandidate.t :=
  MatchCandidate.mk (User.ID user) (LoanProduct.ID product) F64.zero
    true true true true false "" F64.zero.

(** The claim, with the four flags of the specification. *)
Definition claim_as_stated : Prop :=
  forall (users : list User.t) (products : list LoanProduct.t)
         (user : User.t) (product : LoanProduct.t),
    In user users -> In product products ->
    (In (candidate user product) (sqlPrefilter users products)
     <-> Spec.stage1Pass user product = true).

End Stage1.

(* ===================================================================== *)
(** ** Stage 2: the affordability rule in the specification's words *)
(* ===================================================================== *)

Module Affordability.

(** [(1+r)^n] as a float64: [n] successive multiplications starting from 1
    (a negative [n], which no tenure is, counts as none). *)
Fixpoint power (base : F64.float64) (n : nat) : F64.float64 :=
  match n with
  | O => F64.one
  | S k => (power base k * base)%f64
  end.

(** "r is the monthly rate": the maximum yearly rate in percent, per
    month. *)
Definition monthlyRate (product : LoanProduct.t) : F64.float64 :=
  (LoanProduct.InterestRateMax product / F64.of_int 100 / F64.of_int 12)%f64.

(** "installment = P × r × (1+r)^n / ((1+r)^n − 1)" *)
Definition installment (P r : F64.float64) (n : Z) : F64.float64 :=
  (P * r * power (F64.one + r) (Z.to_nat n)
   / (power (F64.one + r) (Z.to_nat n) - F64.one))%f64.

(** "income × 0.5 × a tolerance buffer (2.0×)" *)
Definition ceiling (user : User.t) : F64.float64 :=
  (User.MonthlyIncome user * F64.lit 1 2 * F64.of_int 2)%f64.

(** The tenure the code computes with: 60 months stand in for a maximum
    tenure of 0. *)
Definition effectiveTenure (product : LoanProduct.t) : Z :=
  if LoanProduct.TenureMaxMonths product =? 0 then 60
  else LoanProduct.TenureMaxMonths product.

(** The claim with [n] the product's maximum tenure itself. *)
Definition claim_as_stated : Prop :=
  forall (user : User.t) (product : LoanProduct.t),
    ((monthlyRate product >? F64.zero)%f64 = true ->
     (passesBusinessRules user product = false
      <-> (installment (LoanProduct.LoanAmountMin product)
             (monthlyRate product) (LoanProduct.TenureMaxMonths product)
           >? ceiling user)%f64 = true))
    /\ ((monthlyRate product ==? F64.zero)%f64 = true ->
        passesBusinessRules user product = true).

End Affordability.

(* ===================================================================== *)
(** ** The order of float64 values *)
(* ===================================================================== *)

Module F64Order.

(** A value that is not a NaN is placed by its class (infinities, finite
    values of either sign, zeros), then by exponent, then by mantissa. *)
Definition key (x : F64.float64) : Z * Z * Z :=
  match x with
  | S754_nan => (0, 0, 0)
  | S754_zero _ => (0, 0, 0)
  | S754_infinity s => (if s then -2 else 2, 0, 0)
  | S754_finite s m e => if s then (-1, - e, Z.neg m) else (1, e, Z.pos m)
  end.

Definition keyLt (k1 k2 : Z * Z * Z) : Prop :=
  let '(c1, e1, m1) := k1 in
  let '(c2, e2, m2) := k2 in
  c1 < c2 \/ (c1 = c2 /\ (e1 < e2 \/ (e1 = e2 /\ m1 < m2))).

End F64Order.

(* ===================================================================== *)
(** ** The ranker *)
(* ===================================================================== *)

Module Ranker.

Definition score (c : MatchCandidate.t) : F64.float64 :=
  MatchCandidate.EligibilityScore c.

(** One run of the inner loop read along the list: [k] comparisons, each
    carrying the smaller score one slot to the right. *)
Fixpoint bubblePass (k : nat) (l : list MatchCandidate.t)
    : list MatchCandidate.t :=
  match k, l with
  | S k', a :: b :: rest =>
      if (score a <? score b)%f64
      then b :: bubblePass k' (a :: rest)
      else a :: bubblePass k' (b :: rest)
  | _, _ => l
  end.

Definition notBelow (a b : MatchCandidate.t) : Prop :=
  (score a <? score b)%f64 = false.

(** Sorted by score, descending: every candidate's score is at least the
    score of every later candidate. *)
Definition descending (l : list MatchCandidate.t) : Prop :=
  StronglySorted (fun a b => (score a >=? score b)%f64 = true) l.

(** Stable: for every score, the candidates with that score come in the
    same order in the output as in the input. *)
Definition sameScore (s : F64.float64) (c : MatchCandidate.t) : bool :=
  (score c ==? s)%f64.

Definition stable (input output : list MatchCandidate.t) : Prop :=
  forall s, List.filter (sameScore s) output = List.filter (sameScore s) input.

(** Every score is a number. *)
Definition numbered (l : list MatchCandidate.t) : Prop :=
  Forall (fun c => F64.is_nan (score c) = false) l.

(** The state of the slice after [i] runs of the inner loop: its last [i]
    slots are final. *)
Definition settled (i : nat) (l : list MatchCandidate.t) : Prop :=
  exists front back,
    l = front ++ back /\ length back = i
    /\ StronglySorted notBelow back
    /\ (forall x y, In x front -> In y back -> notBelow x y).

(** The claim: whatever the survivors, the ranker returns the first 100 of
    their stable descending sort. *)
Definition claim_as_stated : Prop :=
  forall survivors : list MatchCandidate.t,
    exists sorted,
      Permutation survivors sorted /\ descending sorted
      /\ stable survivors sorted
      /\ selectTopCandidates survivors 100 = firstn 100 sorted.

(** A candidate with the given IDs and score. *)
Definition scored (userID productID score : Z) : MatchCandidate.t :=
  MatchCandidate.mk userID productID (F64.of_int score) true true true true
    false "" F64.zero.

(** 120 survivors with scores cycling through 40 .. 99. *)
Definition crowd : list MatchCandidate.t :=
  map (fun n => scored (Z.of_nat n) 1 (40 + Z.of_nat (n * 7 mod 60)))
    (seq 0 120).

End Ranker.

(** Two survivors, the lower score first. *)
Definition risingPair : list MatchCandidate.t :=
  [Ranker.scored 1 1 50; Ranker.scored 2 1 80].

(* ===================================================================== *)
(** ** Stage 3 *)
(* ===================================================================== *)

Module Assessor.

(** The candidate as the error branch appends it. *)
Definition fallback (c : MatchCandidate.t) : MatchCandidate.t :=
  MatchCandidate.setLLMReasoning (MatchCandidate.setLLMCheckPassed c true)
    apiErrorNote.

(** The candidate as the loop appends it after the answer given without an
    API key. *)
Definition keyless (c : MatchCandidate.t) : MatchCandidate.t :=
  MatchCandidate.setLLMConfidence
    (MatchCandidate.setLLMReasoning
       (MatchCandidate.setLLMCheckPassed c true)
       "LLM check skipped - no API key configured")
    (F64.lit 7 10).

(** A candidate of the result of Stage 3, field by field: the IDs, the
    score and the four flags of the candidate [c] it comes from, and the
    three fields of the assessment. *)
Definition assessed (c : MatchCandidate.t) (passed : bool)
    (reasoning : string) (confidence : F64.float64) : MatchCandidate.t :=
  MatchCandidate.mk (MatchCandidate.UserID c) (MatchCandidate.ProductID c)
    (MatchCandidate.EligibilityScore c) (MatchCandidate.IncomeEligible c)
    (MatchCandidate.CreditScoreEligible c) (MatchCandidate.AgeEligible c)
    (MatchCandidate.EmploymentEligible c) passed reasoning confidence.

(** The client as it answers once [made] evaluations of the batch have been
    made: its n-th evaluation is evaluation [made + n] of the batch. *)
Definition later (llm : LLMClient) (made : nat) : LLMClient :=
  mkLLMClient (apiKey llm) (apiURL llm) (model llm)
    (mkClient (NewRequestWithContext (client llm))
       (fun n => Do (client llm) (made + n)%nat)
       (Unmarshal (client llm))).

(** Both IDs of the candidate are keys of the maps built from the lists. *)
Definition resolves (users : list User.t) (products : list LoanProduct.t)
    (c : MatchCandidate.t) : Prop :=
  is_Some (buildUserMap users !! MatchCandidate.UserID c)
  /\ is_Some (buildProductMap products !! MatchCandidate.ProductID c).

(** What the assessor does with a list in which the evaluation of the
    candidate [c] returns an error, when the fallback keeps [c] exactly if
    [kept]: it panics if it does on the candidates before [c] or on those
    after [c]; otherwise it returns its result for the candidates before
    [c], then [c] with the fallback note if kept, then its result for the
    candidates after [c], and the last error met. *)
Definition fallbackRule (kept : MatchCandidate.t -> bool) : Prop :=
  forall (llm : LLMClient) (before : list MatchCandidate.t)
         (c : MatchCandidate.t) (after : list MatchCandidate.t)
         (users : list User.t) (products : list LoanProduct.t)
         (user : User.t) (product : LoanProduct.t) (err : error),
    Forall (resolves users products) before ->
    buildUserMap users !! MatchCandidate.UserID c = Some user ->
    buildProductMap products !! MatchCandidate.ProductID c = Some product ->
    EvaluateMatch llm (length before) user product = Returns (Err err) ->
    llmCheck llm (before ++ c :: after) users products
    = match llmCheck llm before users products with
      | Panics p => Panics p
      | Returns (passedBefore, _) =>
          match llmCheck (later llm (S (length before))) after users
                  products with
          | Panics p => Panics p
          | Returns (passedAfter, errAfter) =>
              Returns
                (passedBefore
                 ++ (if kept c
                     then [assessed c true
                             "LLM check skipped due to API error, high score approved"
                             (MatchCandidate.LLMConfidence c)]
                     else [])
                 ++ passedAfter,
                 Some match errAfter with
                      | Some errLater => errLater
                      | None => err
                      end)
          end
      end.

(** The claim: on an error the candidate is accepted exactly when its score
    exceeds 60. *)
Definition claim_as_stated : Prop :=
  fallbackRule
    (fun c => (MatchCandidate.EligibilityScore c >? F64.of_int 60)%f64).

(** The double quote, and the text of a verdict as the service is asked to
    write it. *)
Definition quote : string := String "034"%char EmptyString.

Definition verdictText (qualified : bool) : string :=
  ("{" ++ quote ++ "qualified" ++ quote ++ ": "
   ++ (if qualified then "true" else "false") ++ ", "
   ++ quote ++ "confidence" ++ quote ++ ": 0.9, "
   ++ quote ++ "reasoning" ++ quote ++ ": "
   ++ quote ++ "verdict" ++ quote ++ "}")%string.

(** [json.Unmarshal] on the two verdict texts. *)
Definition unmarshalVerdict (text : string) : result LLMResponse :=
  if String.eqb text (verdictText true)
  then Ok (mkLLMResponse true (F64.lit 9 10) "verdict" [])
  else if String.eqb text (verdictText false)
  then Ok (mkLLMResponse false (F64.lit 9 10) "verdict" [])
  else Err "invalid character".

(** The decoded body that carries a text in its first candidate, and the
    reply of the service with that body. *)
Definition bodyWith (text : string) : list (string * JSON) :=
  [("candidates"%string,
    JArray
      [JObject
         [("content"%string,
           JObject
             [("parts"%string,
               JArray [JObject [("text"%string, JString text)]])])]])].

Definition replyWith (text : string) : Response :=
  mkResponse 200 (Ok (bodyWith text)).

(** A service that is down, and a client without a key. *)
Definition unreachable : LLMClient :=
  mkLLMClient "key" "https://generativelanguage.googleapis.com" "gemini-pro"
    (mkClient (fun _ => None) (fun _ _ _ => Err "connection refused")
       unmarshalVerdict).

Definition offline : LLMClient :=
  mkLLMClient "" "https://generativelanguage.googleapis.com" "gemini-pro"
    (mkClient (fun _ => None) (fun _ _ _ => Err "connection refused")
       unmarshalVerdict).

(** A service whose reply holds a candidate without content. *)
Definition shapeless : LLMClient :=
  mkLLMClient "key" "https://generativelanguage.googleapis.com" "gemini-pro"
    (mkClient (fun _ => None)
       (fun _ _ _ =>
          Ok (mkResponse 200 (Ok [("candidates"%string, JArray [JObject []])])))
       unmarshalVerdict).

(** Alice on the first product, with a Stage-2 score of exactly 60. *)
Definition borderline : MatchCandidate.t := Ranker.scored 1 1 60.

End Assessor.

(* ===================================================================== *)
(** ** The orchestrator *)
(* ===================================================================== *)

Module Orchestrator.

(** The fatal errors of a batch run, in the order the run meets them: the
    query for the users, the query for the active products, and the
    transaction of the persist step. *)
Definition fatalError (m : MatcherService) (userIDs : list Z)
    : option error :=
  match database.GetByIDs (db m) userIDs with
  | Err err => Some (wrapError "failed to get users" err)
  | Ok _ =>
      match database.GetAllActive (db m) with
      | Err err => Some (wrapError "failed to get products" err)
      | Ok _ =>
          match database.txBegin (database.tx (db m)),
                database.txCommit (database.tx (db m)) with
          | Some err, _ =>
              Some (wrapError "failed to save matches"
                      (wrapError "failed to begin transaction" err))
          | None, Some err =>
              Some (wrapError "failed to save matches"
                      (wrapError "failed to commit transaction" err))
          | None, None => None
          end
      end
  end.

(** The claim: a run that ends with an error still returns a summary. *)
Definition claim_as_stated : Prop :=
  forall (m : MatcherService) (userIDs : list Z) (elapsed : Z)
         (summary : option MatchingResult) (err : error),
    ProcessNewUsers m userIDs elapsed = Returns (summary, Some err) ->
    summary <> None.

(** A service whose database refuses the query for the users, and one
    whose database cannot commit. *)
Definition usersDown : MatcherService :=
  mkMatcherService
    (database.mkDB [Samples.alice] [Samples.hdfc]
       (refusedCursor "connection refused") healthyCursor healthyCursor
       bracesDecoded healthyTx)
    Assessor.offline.

Definition commitDown : MatcherService :=
  mkMatcherService
    (database.mkDB [Samples.alice] [Samples.hdfc] healthyCursor
       healthyCursor healthyCursor bracesDecoded
       (database.mkTx None (fun _ => None) (Some "connection reset")))
    Assessor.offline.

(** A service on a healthy database whose reasoning service is down, and
    one whose reasoning service replies without content. *)
Definition degraded : MatcherService :=
  mkMatcherService (healthyDB [Samples.alice] [Samples.hdfc])
    Assessor.unreachable.

Definition derailed : MatcherService :=
  mkMatcherService (healthyDB [Samples.alice] [Samples.hdfc])
    Assessor.shapeless.

Definition healthy : MatcherService :=
  mkMatcherService (healthyDB [Samples.alice] [Samples.hdfc])
    Assessor.offline.

End Orchestrator.

(* ===================================================================== *)
(** ** The pipeline, stage by stage *)
(* ===================================================================== *)

Module Pipeline.

(** What [logicFilter] does with one candidate, given the two maps: the
    candidate with its score, or nothing. *)
Definition scoredSurvivor (userMap : gmap Z User.t)
    (productMap : gmap Z LoanProduct.t) (c : MatchCandidate.t)
    : option MatchCandidate.t :=
  match userMap !! MatchCandidate.UserID c,
        productMap !! MatchCandidate.ProductID c with
  | Some user, Some product =>
      if passesBusinessRules user product
      then Some (MatchCandidate.setEligibilityScore c
                   (calculateEligibilityScore user product))
      else None
  | _, _ => None
  end.

(** Two candidates that differ at most in the three fields Stage 3
    writes. *)
Definition sameUpToAssessment (c c' : MatchCandidate.t) : Prop :=
  MatchCandidate.UserID c' = MatchCandidate.UserID c
  /\ MatchCandidate.ProductID c' = MatchCandidate.ProductID c
  /\ MatchCandidate.EligibilityScore c' = MatchCandidate.EligibilityScore c
  /\ MatchCandidate.IncomeEligible c' = MatchCandidate.IncomeEligible c
  /\ MatchCandidate.CreditScoreEligible c'
     = MatchCandidate.CreditScoreEligible c
  /\ MatchCandidate.AgeEligible c' = MatchCandidate.AgeEligible c
  /\ MatchCandidate.EmploymentEligible c'
     = MatchCandidate.EmploymentEligible c.

(** The candidate of a pair as it leaves Stage 2. *)
Definition stage2Candidate (row : User.t * LoanProduct.t)
    : MatchCandidate.t :=
  MatchCandidate.setEligibilityScore (candidateOf (fst row) (snd row))
    (calculateEligibilityScore (fst row) (snd row)).

(** A candidate of the result of Stage 2, field by field: the candidate
    [c] it comes from with the given score. *)
Definition rescored (c : MatchCandidate.t) (score : F64.float64)
    : MatchCandidate.t :=
  MatchCandidate.mk (MatchCandidate.UserID c) (MatchCandidate.ProductID c)
    score (MatchCandidate.IncomeEligible c)
    (MatchCandidate.CreditScoreEligible c) (MatchCandidate.AgeEligible c)
    (MatchCandidate.EmploymentEligible c) (MatchCandidate.LLMCheckPassed c)
    (MatchCandidate.LLMReasoning c) (MatchCandidate.LLMConfidence c).

(** The candidate of a pair that has passed Stages 1 and 2, field by
    field: the two IDs, the score of the pair, the four flags true, and no
    assessment yet. *)
Definition survivor (row : User.t * LoanProduct.t) : MatchCandidate.t :=
  MatchCandidate.mk (User.ID (fst row)) (LoanProduct.ID (snd row))
    (calculateEligibilityScore (fst row) (snd row))
    true true true true false "" F64.zero.

End Pipeline.

(** The (user ID, product ID) key of a row of the cross product, and of a
    match record in a slot of the slice. *)
Definition idPair (row : User.t * LoanProduct.t) : Z * Z :=
  (User.ID (fst row), LoanProduct.ID (snd row)).

Definition matchKey (m : MatchCreate.t) : Z * Z :=
  (MatchCreate.UserID m, MatchCreate.ProductID m).

(** Three users and three products with distinct IDs. *)
Definition sampleUsers : list User.t :=
  [Samples.alice; Samples.student; Samples.prime].

Definition sampleProducts : list LoanProduct.t :=
  [Samples.hdfc; Samples.openToAll; Samples.subprime].

(** The test of the error branch of [llmCheck]. *)
Definition highScore (c : MatchCandidate.t) : bool :=
  (MatchCandidate.EligibilityScore c >=? F64.of_int 60)%f64.

(** The candidate as the loop appends it after a verdict. *)
Definition withVerdict (c : MatchCandidate.t) (response : LLMResponse)
    : MatchCandidate.t :=
  MatchCandidate.setLLMConfidence
    (MatchCandidate.setLLMReasoning
       (MatchCandidate.setLLMCheckPassed c (Qualified response))
       (Reasoning response))
    (Confidence response).

(** A service that answers every call, approving the pairs whose product
    has an even ID. *)
Definition evenProducts : LLMClient :=
  mkLLMClient "key" "https://generativelanguage.googleapis.com" "gemini-pro"
    (mkClient (fun _ => None)
       (fun _ _ product =>
          Ok (Assessor.replyWith
                (Assessor.verdictText (Z.even (LoanProduct.ID product)))))
       Assessor.unmarshalVerdict).

(** A service that turns every request away with status 503. *)
Definition overloaded : LLMClient :=
  mkLLMClient "key" "https://generativelanguage.googleapis.com" "gemini-pro"
    (mkClient (fun _ => None)
       (fun _ _ _ => Ok (mkResponse 503 (Err "unexpected end of JSON input")))
       Assessor.unmarshalVerdict).


(** The maximum-credit check that [IsFullyEligible] and the Stage-1 query
    make. *)
Definition withinMaxCredit (user : User.t) (product : LoanProduct.t)
    : bool :=
  match LoanProduct.MaxCreditScore product with
  | None => true
  | Some maxCredit => User.CreditScore user <=? maxCredit
  end.

(** The error of the first row of a list that cannot be scanned. *)
Fixpoint firstScanError {A : Type} (scanErr : A -> option error)
    (rows : list A) : option error :=
  match rows with
  | [] => None
  | row :: rest =>
      match scanErr row with
      | Some err => Some err
      | None => firstScanError scanErr rest
      end
  end.

(** A cursor on the users that cannot scan the row of user 3, as when its
    batch_id is NULL, and one whose stream breaks after the first row. *)
Definition nullBatchCursor : database.Cursor User.t :=
  database.mkCursor None None
    (fun user =>
       if User.ID user =? 3 then Some "cannot scan NULL into *string"%string
       else None).

Definition brokenCursor {A : Type} : database.Cursor A :=
  database.mkCursor None (Some 1%nat) (fun _ => None).

(** A user who has left (inactive), for the queries to pass over. *)
Definition goneUser : User.t :=
  User.mk 7 "U7" "u7@example.com" (F64.of_int 80000) 790
    EmploymentStatusEmployed 45 "batch-1" false.

(** A transaction in which the rows of user 2 are refused. *)
Definition pickyTx : database.Tx :=
  database.mkTx None
    (fun slot =>
       match slot with
       | Some m => if MatchCreate.UserID m =? 2 then Some "refused" else None
       | None => Some "nil"
       end)
    None.

(** Whether the statement for a slot of the slice succeeds. *)
Definition rowAccepted (t : database.Tx) (slot : option MatchCreate.t)
    : bool :=
  match database.txExec t slot with
  | None => true
  | Some _ => false
  end.


(* ===================================================================== *)
(** ** Package models: validation of incoming users *)
(* ===================================================================== *)

Module intake.

Module UserCreate.
Record t : Type := mk {
  UserID : string;
  Email : string;
  MonthlyIncome : F64.float64;
  CreditScore : Z;
  EmploymentStatus : models.EmploymentStatus;
  Age : Z;
  BatchID : string
}.
End UserCreate.

Module CSVUserRow.
Record t : Type := mk {
  UserID : string;
  Email : string;
  MonthlyIncome : F64.float64;
  CreditScore : Z;
  EmploymentStatus : string;
  Age : Z
}.
End CSVUserRow.

Definition ErrInvalidEmploymentStatus : error := "invalid employment status".
Definition ErrInvalidCreditScore : error :=
  "credit score must be between 300 and 900".
Definition ErrInvalidAge : error := "age must be between 18 and 120".
Definition ErrInvalidIncome : error := "monthly income cannot be negative".
Definition ErrInvalidEmail : error := "invalid email address".
Definition ErrEmptyUserID : error := "user_id cannot be empty".

Definition ValidEmploymentStatuses : list EmploymentStatus :=
  [EmploymentStatusEmployed; EmploymentStatusSelfEmployed;
   EmploymentStatusUnemployed; EmploymentStatusRetired;
   EmploymentStatusStudent].

(** [IsValid]: the loop [for _, valid := range ValidEmploymentStatuses()
    { if e == valid { return true } }; return false]. *)
Definition IsValid (e : EmploymentStatus) : bool :=
  statusListed ValidEmploymentStatuses e.

(** The entries of the map literal [statusMap], in the order written. *)
Definition statusEntries : list (string * EmploymentStatus) :=
  [("employed", EmploymentStatusEmployed);
   ("salaried", EmploymentStatusEmployed);
   ("full_time", EmploymentStatusEmployed);
   ("fulltime", EmploymentStatusEmployed);
   ("part_time", EmploymentStatusEmployed);
   ("parttime", EmploymentStatusEmployed);
   ("self_employed", EmploymentStatusSelfEmployed);
   ("selfemployed", EmploymentStatusSelfEmployed);
   ("self_employment", EmploymentStatusSelfEmployed);
   ("business", EmploymentStatusSelfEmployed);
   ("business_owner", EmploymentStatusSelfEmployed);
   ("businessowner", EmploymentStatusSelfEmployed);
   ("entrepreneur", EmploymentStatusSelfEmployed);
   ("freelancer", EmploymentStatusSelfEmployed);
   ("unemployed", EmploymentStatusUnemployed);
   ("jobless", EmploymentStatusUnemployed);
   ("not_employed", EmploymentStatusUnemployed);
   ("retired", EmploymentStatusRetired);
   ("pensioner", EmploymentStatusRetired);
   ("student", EmploymentStatusStudent);
   ("studying", EmploymentStatusStudent)].

Definition statusMap : gmap string EmploymentStatus :=
  list_to_map statusEntries.

(** The string after the three normalising steps, before the lookup. *)
Definition normalized (status : string) : string :=
  let normalized := gostrings.ToLower (gostrings.TrimSpace status) in
  let normalized := gostrings.ReplaceAll normalized " " "_" in
  gostrings.ReplaceAll normalized "-" "_".

Definition NormalizeEmploymentStatus (status : string) : EmploymentStatus :=
  match statusMap !! normalized status with
  | Some mapped => mapped
  | None => normalized status
  end.


Definition isValidEmail (email : string) : bool :=
  if String.eqb email "" then false
  else
    let atIndex := gostrings.Index email "@" in
    if (atIndex <=? 0) || (atIndex =? gostrings.byteLen email - 1)
    then false
    else
      let dotIndex := gostrings.LastIndex email "." in
      if (dotIndex <=? atIndex + 1)
         || (dotIndex =? gostrings.byteLen email - 1)
      then false
      else true.

(** [ValidateUserCreate]: [None] is Go's nil error. *)
Definition ValidateUserCreate (u : UserCreate.t) : option error :=
  if String.eqb (gostrings.TrimSpace (UserCreate.UserID u)) "" then
    Some ErrEmptyUserID
  else if negb (isValidEmail (UserCreate.Email u)) then
    Some ErrInvalidEmail
  else if (UserCreate.MonthlyIncome u <? F64.zero)%f64 then
    Some ErrInvalidIncome
  else if (UserCreate.CreditScore u <? 300)
          || (UserCreate.CreditScore u >? 900) then
    Some ErrInvalidCreditScore
  else if (UserCreate.Age u <? 18) || (UserCreate.Age u >? 120) then
    Some ErrInvalidAge
  else if negb (IsValid (UserCreate.EmploymentStatus u)) then
    Some ErrInvalidEmploymentStatus
  else None.

End intake.

(** The bytes of a string, and whether one of them is a given byte. *)
Definition hasByte (s : string) (c : ascii) : Prop :=
  In c (String.list_ascii_of_string s).



(** A record with another income. *)
Definition withIncome (u : intake.UserCreate.t) (income : F64.float64)
    : intake.UserCreate.t :=
  intake.UserCreate.mk (intake.UserCreate.UserID u)
    (intake.UserCreate.Email u) income (intake.UserCreate.CreditScore u)
    (intake.UserCreate.EmploymentStatus u) (intake.UserCreate.Age u)
    (intake.UserCreate.BatchID u).

(** A string with a byte that is not white space. *)
Definition hasContent (s : string) : Prop :=
  exists c, hasByte s c /\ gostrings.asciiSpace c = false.

(** A record as the parser builds it from a well-formed row. *)
Definition sampleRecord : intake.UserCreate.t :=
  intake.UserCreate.mk " U1" "alice@example.com" (F64.of_int 60000) 780
    EmploymentStatusEmployed 34 "batch-1".

(** One byte through the three steps of [NormalizeEmploymentStatus] that
    work byte by byte. *)
Definition normalByte (c : ascii) : ascii :=
  let c := gostrings.lowerByte c in
  let c := if Ascii.eqb c " " then "_"%char else c in
  if Ascii.eqb c "-" then "_"%char else c.

(** A byte sequence that does not start with white space. *)
Definition clearHead (s : list ascii) : Prop :=
  match s with
  | [] => True
  | c :: _ => gostrings.asciiSpace c = false
  end.

(* ===================================================================== *)
(** ** The user repository: storing a validated batch *)
(* ===================================================================== *)

Module userrepo.
Import intake.

Module BulkInsertResult.
Record t : Type := mk {
  InsertedCount : Z;
  FailedCount : Z;
  Errors : list string
}.
End BulkInsertResult.
Import BulkInsertResult.

(** The loop of [BulkInsert] over the users; [exec n user] is what the
    [n]-th [tx.Exec] of the transaction answers for that user. *)
Fixpoint insertLoop (exec : nat -> UserCreate.t -> option error) (n : nat)
    (users : list UserCreate.t) (result : BulkInsertResult.t)
    : BulkInsertResult.t :=
  match users with
  | [] => result
  | user :: rest =>
      insertLoop exec (S n) rest
        (match exec n user with
         | Some err =>
             mk (InsertedCount result) (Int64.add (FailedCount result) 1)
               (Errors result
                ++ [("user " ++ UserCreate.UserID user ++ ": " ++ err)%string])
         | None =>
             mk (Int64.add (InsertedCount result) 1) (FailedCount result)
               (Errors result)
         end)
  end.

(** [func (r *UserRepository) BulkInsert]: the result is returned with or
    without an error. *)
Definition BulkInsert (t : database.Tx)
    (exec : nat -> UserCreate.t -> option error)
    (users : list UserCreate.t) : BulkInsertResult.t * option error :=
  let result := mk 0 0 [] in
  let '(result, err) :=
    database.WithTransaction t (fun _ => insertLoop exec 0 users result)
      result in
  match err with
  | Some err => (result, Some (wrapError "bulk insert failed" err))
  | None => (result, None)
  end.

End userrepo.

(** A transaction whose second statement is refused. *)
Definition secondRefused (n : nat) (user : intake.UserCreate.t)
    : option error :=
  if (n =? 1)%nat then Some "duplicate key"%string else None.
(* ===================================================================== *)
(** ** float64: integers below 2^53 convert exactly *)
(* ===================================================================== *)

Lemma digits2_pos_bounds (m : positive) :
  2 ^ (Z.pos (digits2_pos m) - 1) <= Z.pos m < 2 ^ Z.pos (digits2_pos m).
Proof.
  induction m as [m IH|m IH|]; cbn [digits2_pos].
  - rewrite Pos2Z.inj_succ, Z.pow_succ_r by lia.
    replace (Z.succ (Z.pos (digits2_pos m)) - 1) with
      (Z.succ (Z.pos (digits2_pos m) - 1)) by lia.
    rewrite Z.pow_succ_r by lia. lia.
  - rewrite Pos2Z.inj_succ, Z.pow_succ_r by lia.
    replace (Z.succ (Z.pos (digits2_pos m)) - 1) with
      (Z.succ (Z.pos (digits2_pos m) - 1)) by lia.
    rewrite Z.pow_succ_r by lia. lia.
  - simpl. lia.
Qed.

Lemma iter_xO_pow2 (m k : positive) :
  Z.pos (Pos.iter xO m k) = Z.pos m * 2 ^ Z.pos k.
Proof.
  induction k as [|k IH] using Pos.peano_ind.
  - simpl. lia.
  - rewrite Pos.iter_succ, Pos2Z.inj_succ, Z.pow_succ_r by lia.
    rewrite Pos2Z.inj_xO, IH. lia.
Qed.

Lemma digits2_pos_iter_xO (m k : positive) :
  digits2_pos (Pos.iter xO m k) = (digits2_pos m + k)%positive.
Proof.
  induction k as [|k IH] using Pos.peano_ind.
  - simpl. lia.
  - rewrite Pos.iter_succ. cbn [digits2_pos]. rewrite IH. lia.
Qed.

Lemma binary_round_aux_exact (s : bool) (mz : positive) (ez : Z) :
  Z.pos (digits2_pos mz) = 53 -> -1074 <= ez <= 971 ->
  binary_round_aux F64.prec F64.emax s (Z.pos mz) ez loc_Exact
  = S754_finite s mz ez.
Proof.
  intros Hd He.
  unfold binary_round_aux, shr_fexp, fexp, emin, F64.prec, F64.emax.
  cbn [Zdigits2 shr_record_of_loc]. rewrite Hd.
  replace (Z.max (53 + ez - 53) (3 - 1024 - 53) - ez) with 0 by lia.
  cbn [shr shr_m loc_of_shr_record round_nearest_even Zdigits2
       shr_record_of_loc].
  rewrite Hd.
  replace (Z.max (53 + ez - 53) (3 - 1024 - 53) - ez) with 0 by lia.
  cbn [shr shr_m].
  destruct (Z.leb_spec ez (1024 - 53)); [reflexivity | lia].
Qed.

Lemma binary_round_exact (s : bool) (m : positive) :
  Z.pos m < 2 ^ 53 ->
  exists mz ez,
    binary_round F64.prec F64.emax s m 0 = S754_finite s mz ez
    /\ -52 <= ez <= 0 /\ Z.pos mz = Z.pos m * 2 ^ (- ez).
Proof.
  intros Hm.
  pose proof (digits2_pos_bounds m) as [Hlo Hhi].
  assert (Hd : Z.pos (digits2_pos m) <= 53).
  { destruct (Z.le_gt_cases (Z.pos (digits2_pos m)) 53) as [H|H]; [exact H|].
    exfalso.
    assert (2 ^ 53 <= 2 ^ (Z.pos (digits2_pos m) - 1))
      by (apply Z.pow_le_mono_r; lia).
    lia. }
  unfold binary_round, shl_align, fexp, emin, F64.prec, F64.emax.
  replace (Z.max (Z.pos (digits2_pos m) + 0 - 53) (3 - 1024 - 53) - 0)
    with (Z.pos (digits2_pos m) - 53) by lia.
  replace (Z.max (Z.pos (digits2_pos m) + 0 - 53) (3 - 1024 - 53))
    with (Z.pos (digits2_pos m) - 53) by lia.
  destruct (Z.pos (digits2_pos m) - 53) as [|k|k] eqn:Ek; [|lia|].
  - exists m, 0. split; [|split; [lia|simpl; lia]].
    apply binary_round_aux_exact; lia.
  - exists (Pos.iter xO m k), (Z.neg k). split; [|split].
    + apply binary_round_aux_exact; [|lia].
      rewrite digits2_pos_iter_xO. lia.
    + lia.
    + rewrite iter_xO_pow2. reflexivity.
Qed.

Lemma of_int_round_trip (n : Z) :
  - 2 ^ 53 < n < 2 ^ 53 ->
  F64.to_int (F64.of_int n) = n
  /\ F64.eqb (F64.of_int n) F64.zero = (n =? 0).
Proof.
  intros Hn. unfold F64.of_int, binary_normalize.
  destruct n as [|m|m].
  - split; reflexivity.
  - destruct (binary_round_exact false m) as (mz & ez & -> & He & Hmz);
      [lia|].
    split; [|reflexivity].
    unfold F64.to_int. rewrite Hmz.
    assert (Hv : (if 0 <=? ez then Z.pos m * 2 ^ (- ez) * 2 ^ ez
                  else Z.pos m * 2 ^ (- ez) / 2 ^ (- ez)) = Z.pos m).
    { destruct (Z.leb_spec 0 ez).
      - replace ez with 0 by lia. simpl. lia.
      - apply Z.div_mul. apply Z.pow_nonzero; lia. }
    rewrite Hv.
    unfold Int64.min_int, Int64.max_int.
    destruct (Z.leb_spec (- 2 ^ 63) (Z.pos m)); [|lia].
    destruct (Z.leb_spec (Z.pos m) (2 ^ 63 - 1)); [reflexivity|lia].
  - destruct (binary_round_exact true m) as (mz & ez & -> & He & Hmz);
      [lia|].
    split; [|reflexivity].
    unfold F64.to_int. rewrite Hmz.
    assert (Hv : (if 0 <=? ez then Z.pos m * 2 ^ (- ez) * 2 ^ ez
                  else Z.pos m * 2 ^ (- ez) / 2 ^ (- ez)) = Z.pos m).
    { destruct (Z.leb_spec 0 ez).
      - replace ez with 0 by lia. simpl. lia.
      - apply Z.div_mul. apply Z.pow_nonzero; lia. }
    rewrite Hv.
    unfold Int64.min_int, Int64.max_int.
    destruct (Z.leb_spec (- 2 ^ 63) (- Z.pos m)); [|lia].
    destruct (Z.leb_spec (- Z.pos m) (2 ^ 63 - 1)); [reflexivity|lia].
Qed.


(* ===================================================================== *)
(** ** float64: [<] is a strict weak order away from NaN *)
(* ===================================================================== *)

Lemma ltb_keyLt (a b : F64.float64) :
  F64.is_nan a = false -> F64.is_nan b = false ->
  ((a <? b)%f64 = true <-> F64Order.keyLt (F64Order.key a) (F64Order.key b)).
Proof.
  destruct a as [sa|sa| |sa ma ea], b as [sb|sb| |sb mb eb];
    intros Ha Hb; try discriminate;
    try destruct sa; try destruct sb;
    unfold F64.ltb, SFltb, SFcompare, F64Order.keyLt, F64Order.key;
    try (split; [discriminate | lia]);
    try (split; [lia | reflexivity]);
    change (Pos.compare_cont Eq ma mb) with (Pos.compare ma mb);
    destruct (Z.compare_spec ea eb); destruct (Pos.compare_spec ma mb);
    cbn [CompOpp];
    split; intros H'; try discriminate; try reflexivity; try lia.
Qed.

Lemma ltb_not_nan (a b : F64.float64) :
  (a <? b)%f64 = true -> F64.is_nan a = false /\ F64.is_nan b = false.
Proof.
  destruct a as [sa|sa| |sa ma ea], b as [sb|sb| |sb mb eb];
    cbv; intros H; split; congruence.
Qed.

Lemma eqb_not_nan (a b : F64.float64) :
  (a ==? b)%f64 = true -> F64.is_nan a = false /\ F64.is_nan b = false.
Proof.
  destruct a as [sa|sa| |sa ma ea], b as [sb|sb| |sb mb eb];
    cbv; intros H; split; congruence.
Qed.

Lemma eqb_key (a b : F64.float64) :
  (a ==? b)%f64 = true -> F64Order.key a = F64Order.key b.
Proof.
  destruct a as [sa|sa| |sa ma ea], b as [sb|sb| |sb mb eb];
    try destruct sa; try destruct sb;
    unfold F64.eqb, SFeqb, SFcompare, F64Order.key;
    try discriminate; try reflexivity;
    change (Pos.compare_cont Eq ma mb) with (Pos.compare ma mb);
    destruct (Z.compare_spec ea eb); destruct (Pos.compare_spec ma mb);
    cbn [CompOpp]; intros H'; try discriminate; subst; reflexivity.
Qed.

Lemma ltb_trans (a b c : F64.float64) :
  (a <? b)%f64 = true -> (b <? c)%f64 = true -> (a <? c)%f64 = true.
Proof.
  intros Hab Hbc.
  destruct (ltb_not_nan _ _ Hab) as [Ha Hb].
  destruct (ltb_not_nan _ _ Hbc) as [_ Hc].
  apply ltb_keyLt in Hab; [|assumption..].
  apply ltb_keyLt in Hbc; [|assumption..].
  apply ltb_keyLt; [assumption..|].
  unfold F64Order.keyLt in *.
  destruct (F64Order.key a) as [[c1 e1] m1], (F64Order.key b) as [[c2 e2] m2],
    (F64Order.key c) as [[c3 e3] m3].
  lia.
Qed.

Lemma ltb_false_trans (a b c : F64.float64) :
  F64.is_nan b = false ->
  (a <? b)%f64 = false -> (b <? c)%f64 = false -> (a <? c)%f64 = false.
Proof.
  intros Hb Hab Hbc.
  destruct (a <? c)%f64 eqn:Hac; [|reflexivity]. exfalso.
  destruct (ltb_not_nan _ _ Hac) as [Ha Hc].
  apply ltb_keyLt in Hac; [|assumption..].
  assert (Hab' : ~ F64Order.keyLt (F64Order.key a) (F64Order.key b)).
  { intros H. apply ltb_keyLt in H; [congruence|assumption..]. }
  assert (Hbc' : ~ F64Order.keyLt (F64Order.key b) (F64Order.key c)).
  { intros H. apply ltb_keyLt in H; [congruence|assumption..]. }
  unfold F64Order.keyLt in *.
  destruct (F64Order.key a) as [[c1 e1] m1], (F64Order.key b) as [[c2 e2] m2],
    (F64Order.key c) as [[c3 e3] m3].
  lia.
Qed.

Lemma eqb_not_ltb (a b s : F64.float64) :
  (a ==? s)%f64 = true -> (b ==? s)%f64 = true -> (a <? b)%f64 = false.
Proof.
  intros Ha Hb.
  destruct (a <? b)%f64 eqn:Hab; [|reflexivity]. exfalso.
  destruct (ltb_not_nan _ _ Hab) as [Hna Hnb].
  apply ltb_keyLt in Hab; [|assumption..].
  apply eqb_key in Ha. apply eqb_key in Hb. rewrite Ha, Hb in Hab.
  unfold F64Order.keyLt in Hab.
  destruct (F64Order.key s) as [[c1 e1] m1]. lia.
Qed.

Lemma ltb_irrefl (a : F64.float64) : (a <? a)%f64 = false.
Proof.
  destruct (a <? a)%f64 eqn:Haa; [|reflexivity]. exfalso.
  destruct (ltb_not_nan _ _ Haa) as [Ha _].
  apply ltb_keyLt in Haa; [|assumption..].
  unfold F64Order.keyLt in Haa.
  destruct (F64Order.key a) as [[c1 e1] m1]. lia.
Qed.

(** Away from NaN, "not smaller" is "at least". *)
Lemma ltb_false_geb (a b : F64.float64) :
  F64.is_nan a = false -> F64.is_nan b = false ->
  (a <? b)%f64 = false -> (a >=? b)%f64 = true.
Proof.
  destruct a as [sa|sa| |sa ma ea], b as [sb|sb| |sb mb eb];
    intros Ha Hb; try discriminate;
    try destruct sa; try destruct sb;
    unfold F64.ltb, F64.geb, SFltb, SFleb, SFcompare;
    try reflexivity; try discriminate;
    change (Pos.compare_cont Eq ma mb) with (Pos.compare ma mb);
    change (Pos.compare_cont Eq mb ma) with (Pos.compare mb ma);
    rewrite (Z.compare_antisym ea eb), (Pos.compare_antisym ma mb);
    destruct (ea ?= eb); destruct (ma ?= mb)%positive; cbn;
    intros H'; try discriminate; reflexivity.
Qed.
(* ===================================================================== *)
(** ** Stage 1 *)
(* ===================================================================== *)

Lemma statusListed_In (accepted : list EmploymentStatus)
    (wanted : EmploymentStatus) :
  statusListed accepted wanted = true <-> In wanted accepted.
Proof.
  induction accepted as [|status rest IH]; simpl.
  - split; [discriminate | tauto].
  - destruct (String.eqb_spec status wanted) as [Heq|Hne].
    + split; auto.
    + rewrite IH. split; [auto | intros [H|H]; [congruence | exact H]].
Qed.

Lemma sqlPrefilterPair_pairCandidates user candidates product :
  sqlPrefilterPair user candidates product
  = candidates ++ pairCandidates user product.
Proof.
  unfold sqlPrefilterPair, pairCandidates, allFourFlags, candidateOf.
  destruct (incomeEligible user product && creditScoreEligible user product
            && ageEligible user product && employmentEligible user product).
  - reflexivity.
  - symmetry. apply app_nil_r.
Qed.

Lemma sqlPrefilter_inner user products : forall candidates,
  fold_left (sqlPrefilterPair user) products candidates
  = candidates ++ flat_map (pairCandidates user) products.
Proof.
  induction products as [|p ps IH]; intros candidates; simpl.
  - symmetry. apply app_nil_r.
  - rewrite IH, sqlPrefilterPair_pairCandidates, <- app_assoc. reflexivity.
Qed.

Lemma sqlPrefilter_outer products users : forall candidates,
  fold_left
    (fun candidates user =>
       fold_left (sqlPrefilterPair user) products candidates)
    users candidates
  = candidates
    ++ flat_map (fun user => flat_map (pairCandidates user) products) users.
Proof.
  induction users as [|u us IH]; intros candidates; simpl.
  - symmetry. apply app_nil_r.
  - rewrite IH, sqlPrefilter_inner, <- app_assoc. reflexivity.
Qed.

Lemma sqlPrefilter_flat_map users products :
  sqlPrefilter users products
  = flat_map (fun user => flat_map (pairCandidates user) products) users.
Proof. unfold sqlPrefilter. apply sqlPrefilter_outer. Qed.

Lemma pairCandidates_filter user products :
  flat_map (pairCandidates user) products
  = map (fun row => candidateOf (fst row) (snd row))
      (List.filter (fun row => allFourFlags (fst row) (snd row))
         (map (fun product => (user, product)) products)).
Proof.
  induction products as [|p ps IH]; simpl; [reflexivity|].
  unfold pairCandidates at 1.
  destruct (allFourFlags user p); simpl; rewrite IH; reflexivity.
Qed.

Lemma filter_bool_app {A : Type} (f : A -> bool) (l1 l2 : list A) :
  List.filter f (l1 ++ l2) = List.filter f l1 ++ List.filter f l2.
Proof.
  induction l1 as [|x l1 IH]; simpl; [reflexivity|].
  destruct (f x); simpl; rewrite IH; reflexivity.
Qed.

Lemma sqlPrefilter_filter users products :
  sqlPrefilter users products
  = map (fun row => candidateOf (fst row) (snd row))
      (List.filter (fun row => allFourFlags (fst row) (snd row))
         (list_prod users products)).
Proof.
  rewrite sqlPrefilter_flat_map.
  induction users as [|u us IH]; simpl; [reflexivity|].
  rewrite filter_bool_app, map_app, IH, pairCandidates_filter.
  reflexivity.
Qed.

Lemma employmentEligible_iff user product :
  employmentEligible user product = true
  <-> LoanProduct.AcceptedEmploymentStatus product = []
      \/ In (User.EmploymentStatus user)
           (LoanProduct.AcceptedEmploymentStatus product).
Proof.
  unfold employmentEligible.
  destruct (LoanProduct.AcceptedEmploymentStatus product) as [|s rest] eqn:E.
  - simpl. tauto.
  - cbn [length Nat.eqb]. rewrite statusListed_In.
    split; [auto | intros [H|H]; [discriminate | exact H]].
Qed.

Lemma In_sqlPrefilter c users products :
  In c (sqlPrefilter users products)
  <-> exists user product,
        In user users /\ In product products
        /\ allFourFlags user product = true /\ c = candidateOf user product.
Proof.
  rewrite sqlPrefilter_filter, in_map_iff. split.
  - intros [[u p] [Hc Hin]]. apply filter_In in Hin as [Hin Hf].
    apply in_prod_iff in Hin. exists u, p. simpl in *. intuition.
  - intros (u & p & Hu & Hp & Hf & ->). exists (u, p). split; [reflexivity|].
    apply filter_In. split; [apply in_prod_iff; auto | exact Hf].
Qed.

Lemma candidateOf_flags user product :
  allFourFlags user product
  = MatchCandidate.IncomeEligible (candidateOf user product)
    && MatchCandidate.CreditScoreEligible (candidateOf user product)
    && MatchCandidate.AgeEligible (candidateOf user product)
    && MatchCandidate.EmploymentEligible (candidateOf user product).
Proof. reflexivity. Qed.

(** The models path: [IsFullyEligible] passes a scanned row exactly when
    its four checks pass. *)
Lemma IsFullyEligible_iff (c : models.MatchCandidate.t) :
  IsFullyEligible c = true
  <-> (models.MatchCandidate.MonthlyIncome c
       <? models.MatchCandidate.MinMonthlyIncome c)%f64 = false
      /\ Spec.creditEligible (models.MatchCandidate.CreditScore c)
           (models.MatchCandidate.MinCreditScore c)
           (models.MatchCandidate.MaxCreditScore c) = true
      /\ (models.MatchCandidate.MinAge c <= models.MatchCandidate.Age c
          <= models.MatchCandidate.MaxAge c)
      /\ (models.MatchCandidate.AcceptedEmploymentStatus c = []
          \/ In (models.MatchCandidate.EmploymentStatus c)
               (models.MatchCandidate.AcceptedEmploymentStatus c)).
Proof.
  unfold IsFullyEligible, Spec.creditEligible.
  destruct (_ <? _)%f64; [split; [discriminate | intros [H _]; discriminate]|].
  destruct (Z.ltb_spec (models.MatchCandidate.CreditScore c)
              (models.MatchCandidate.MinCreditScore c)) as [Hlow|Hlow].
  { split; [discriminate|]. intros (_ & H & _).
    apply andb_prop in H as [H _]. apply Z.geb_le in H. lia. }
  assert (Hmin : (models.MatchCandidate.CreditScore c
                  >=? models.MatchCandidate.MinCreditScore c) = true)
    by (apply Z.geb_le; lia).
  rewrite Hmin. cbn [andb].
  assert (Hrest :
    (if (models.MatchCandidate.Age c <? models.MatchCandidate.MinAge c)
        || (models.MatchCandidate.Age c >? models.MatchCandidate.MaxAge c)
     then false
     else if (0 <? length (models.MatchCandidate.AcceptedEmploymentStatus c))%nat
          then if negb (statusListed
                          (models.MatchCandidate.AcceptedEmploymentStatus c)
                          (models.MatchCandidate.EmploymentStatus c))
               then false else true
          else true) = true
    <-> (models.MatchCandidate.MinAge c <= models.MatchCandidate.Age c
         <= models.MatchCandidate.MaxAge c)
        /\ (models.MatchCandidate.AcceptedEmploymentStatus c = []
            \/ In (models.MatchCandidate.EmploymentStatus c)
                 (models.MatchCandidate.AcceptedEmploymentStatus c))).
  { destruct (Z.ltb_spec (models.MatchCandidate.Age c)
                (models.MatchCandidate.MinAge c));
      [split; [discriminate | lia]|].
    destruct (Z.gtb_spec (models.MatchCandidate.Age c)
                (models.MatchCandidate.MaxAge c));
      [split; [discriminate | lia]|].
    cbn [orb].
    destruct (models.MatchCandidate.AcceptedEmploymentStatus c)
      as [|s rest] eqn:E.
    - cbn. split; [intros _; split; [lia | left; reflexivity] | reflexivity].
    - cbn [length Nat.ltb Nat.leb]. rewrite <- E.
      destruct (statusListed _ _) eqn:Hl; cbn [negb].
      + apply statusListed_In in Hl.
        split; [intros _; split; [lia | right; exact Hl] | reflexivity].
      + split; [discriminate|]. intros [_ [Hnil|Hin]].
        * rewrite E in Hnil. discriminate Hnil.
        * apply statusListed_In in Hin. congruence. }
  destruct (models.MatchCandidate.MaxCreditScore c) as [maxCredit|].
  - destruct (Z.gtb_spec (models.MatchCandidate.CreditScore c) maxCredit)
      as [Hhigh|Hhigh].
    + split; [discriminate|]. intros (_ & H & _).
      apply Z.leb_le in H. lia.
    + rewrite Hrest.
      assert ((models.MatchCandidate.CreditScore c <=? maxCredit) = true)
        by (apply Z.leb_le; lia).
      tauto.
  - rewrite Hrest. tauto.
Qed.

(** The four tests of the loop come to the tests on the fields. *)
Lemma existsb_eqb_In (wanted : EmploymentStatus)
    (accepted : list EmploymentStatus) :
  existsb (String.eqb wanted) accepted = true <-> In wanted accepted.
Proof.
  rewrite existsb_exists. split.
  - intros (status & Hin & Heq). apply String.eqb_eq in Heq. subst. exact Hin.
  - intros Hin. exists wanted. split; [exact Hin | apply String.eqb_refl].
Qed.

Lemma Spec_employmentEligible_iff (employment : EmploymentStatus)
    (accepted : list EmploymentStatus) :
  Spec.employmentEligible employment accepted = true
  <-> accepted = [] \/ In employment accepted.
Proof.
  unfold Spec.employmentEligible. destruct accepted as [|status rest].
  - split; [auto | reflexivity].
  - rewrite existsb_eqb_In.
    split; [auto | intros [H|H]; [discriminate H | exact H]].
Qed.

Lemma Stage1_passes_allFourFlags (user : User.t) (product : LoanProduct.t) :
  Stage1.passes user product = allFourFlags user product.
Proof.
  apply eq_true_iff_eq.
  unfold Stage1.passes, allFourFlags, incomeEligible, creditScoreEligible,
    ageEligible, Spec.incomeEligible, Spec.ageEligible.
  rewrite !andb_true_iff, Spec_employmentEligible_iff, employmentEligible_iff.
  rewrite !Z.geb_le, !Z.leb_le. tauto.
Qed.

Lemma Stage1_candidate_candidateOf (user : User.t) (product : LoanProduct.t) :
  allFourFlags user product = true ->
  candidateOf user product = Stage1.candidate user product.
Proof.
  unfold allFourFlags, candidateOf, Stage1.candidate. intros H.
  repeat (apply andb_prop in H as [H ?]).
  repeat match goal with Heq : _ = true |- _ => rewrite Heq; clear Heq end.
  reflexivity.
Qed.

Lemma sqlPrefilter_on_fields (users : list User.t)
    (products : list LoanProduct.t) :
  sqlPrefilter users products
  = map (fun row => Stage1.candidate (fst row) (snd row))
      (List.filter (fun row => Stage1.passes (fst row) (snd row))
         (list_prod users products)).
Proof.
  rewrite sqlPrefilter_filter.
  rewrite (filter_ext (fun row => Stage1.passes (fst row) (snd row))
             (fun row => allFourFlags (fst row) (snd row)))
    by (intros row; apply Stage1_passes_allFourFlags).
  apply map_ext_in. intros row Hin. apply filter_In in Hin as [_ Hflags].
  apply Stage1_candidate_candidateOf. exact Hflags.
Qed.

Lemma Stage1_passes_iff (user : User.t) (product : LoanProduct.t) :
  Stage1.passes user product = true
  <-> (User.MonthlyIncome user >=? LoanProduct.MinMonthlyIncome product)%f64
      = true
      /\ LoanProduct.MinCreditScore product <= User.CreditScore user
      /\ LoanProduct.MinAge product <= User.Age user
         <= LoanProduct.MaxAge product
      /\ (LoanProduct.AcceptedEmploymentStatus product = []
          \/ In (User.EmploymentStatus user)
               (LoanProduct.AcceptedEmploymentStatus product)).
Proof.
  unfold Stage1.passes, Spec.incomeEligible, Spec.ageEligible.
  rewrite !andb_true_iff, Spec_employmentEligible_iff, !Z.leb_le. tauto.
Qed.

Lemma In_sqlPrefilter_candidate (users : list User.t)
    (products : list LoanProduct.t) (user : User.t) (product : LoanProduct.t) :
  In user users -> In product products ->
  Stage1.passes user product = true ->
  In (Stage1.candidate user product) (sqlPrefilter users products).
Proof.
  intros Hu Hp Hpass. rewrite sqlPrefilter_on_fields.
  apply in_map_iff. exists (user, product). split; [reflexivity|].
  apply filter_In. split; [apply in_prod_iff; auto | exact Hpass].
Qed.

Lemma stage1Pass_passes (user : User.t) (product : LoanProduct.t) :
  Spec.stage1Pass user product = true -> Stage1.passes user product = true.
Proof.
  unfold Spec.stage1Pass, Stage1.passes, Spec.creditEligible.
  rewrite !andb_true_iff, Z.geb_le, Z.leb_le. tauto.
Qed.

(** C1: [sqlPrefilter] returns, in cross-product order, the candidates of
    exactly the (user, product) pairs that pass its four tests, which on
    the fields of the rows are: income at least the minimum income, credit
    score at least the minimum credit score, age within the age range, and
    an accepted list that is empty or holds the user's status (so that a
    product without restriction accepts a student).  Every pair whose four
    flags of the specification are true is in the output; but a pair whose
    credit score is above the product's maximum, for which the credit flag
    of the specification is false, is in the output too whenever it passes
    the four tests of the loop. *)
Theorem C1_stage1_pass_ignores_maximum_credit :
  forall (users : list User.t) (products : list LoanProduct.t),
    sqlPrefilter users products
    = map (fun row => Stage1.candidate (fst row) (snd row))
        (List.filter (fun row => Stage1.passes (fst row) (snd row))
           (list_prod users products))
    /\ (forall c,
          In c (sqlPrefilter users products)
          <-> exists user product,
                In user users /\ In product products
                /\ (User.MonthlyIncome user
                    >=? LoanProduct.MinMonthlyIncome product)%f64 = true
                /\ LoanProduct.MinCreditScore product <= User.CreditScore user
                /\ LoanProduct.MinAge product <= User.Age user
                   <= LoanProduct.MaxAge product
                /\ (LoanProduct.AcceptedEmploymentStatus product = []
                    \/ In (User.EmploymentStatus user)
                         (LoanProduct.AcceptedEmploymentStatus product))
                /\ c = MatchCandidate.mk (User.ID user)
                         (LoanProduct.ID product) F64.zero true true true
                         true false "" F64.zero)
    /\ (forall user product,
          In user users -> In product products ->
          Spec.stage1Pass user product = true ->
          In (Stage1.candidate user product) (sqlPrefilter users products))
    /\ (forall user product maxCredit,
          In user users -> In product products ->
          Stage1.passes user product = true ->
          LoanProduct.MaxCreditScore product = Some maxCredit ->
          maxCredit < User.CreditScore user ->
          Spec.creditEligible (User.CreditScore user)
            (LoanProduct.MinCreditScore product)
            (LoanProduct.MaxCreditScore product) = false
          /\ Spec.stage1Pass user product = false
          /\ In (Stage1.candidate user product)
               (sqlPrefilter users products))
    /\ (forall user product,
          User.EmploymentStatus user = EmploymentStatusStudent ->
          LoanProduct.AcceptedEmploymentStatus product = [] ->
          Spec.employmentEligible (User.EmploymentStatus user)
            (LoanProduct.AcceptedEmploymentStatus product) = true
          /\ (In user users -> In product products ->
              (User.MonthlyIncome user
               >=? LoanProduct.MinMonthlyIncome product)%f64 = true ->
              LoanProduct.MinCreditScore product <= User.CreditScore user ->
              LoanProduct.MinAge product <= User.Age user
              <= LoanProduct.MaxAge product ->
              In (Stage1.candidate user product)
                (sqlPrefilter users products))).
Proof.
  intros users products. split; [apply sqlPrefilter_on_fields|].
  split; [|split; [|split]].
  - intros c. rewrite sqlPrefilter_on_fields, in_map_iff. split.
    + intros ([user product] & <- & Hin).
      apply filter_In in Hin as [Hin Hpass].
      apply in_prod_iff in Hin as [Hu Hp]. cbn [fst snd] in *.
      apply Stage1_passes_iff in Hpass as (Hi & Hc & Ha & He).
      exists user, product. repeat split; auto; apply Ha.
    + intros (user & product & Hu & Hp & Hi & Hc & Ha & He & ->).
      exists (user, product). split; [reflexivity|].
      apply filter_In. split; [apply in_prod_iff; auto|].
      apply Stage1_passes_iff. auto.
  - intros user product Hu Hp Hpass.
    apply In_sqlPrefilter_candidate; auto using stage1Pass_passes.
  - intros user product maxCredit Hu Hp Hpass Hmax Habove.
    assert (Hcredit : Spec.creditEligible (User.CreditScore user)
                        (LoanProduct.MinCreditScore product)
                        (LoanProduct.MaxCreditScore product) = false).
    { unfold Spec.creditEligible. rewrite Hmax.
      destruct (Z.leb_spec (User.CreditScore user) maxCredit); [lia|].
      apply andb_false_r. }
    split; [exact Hcredit|]. split.
    + unfold Spec.stage1Pass. rewrite Hcredit, andb_false_r. reflexivity.
    + apply In_sqlPrefilter_candidate; auto.
  - intros user product Hstudent Hempty. split.
    + apply Spec_employmentEligible_iff. auto.
    + intros Hu Hp Hi Hc Ha. apply In_sqlPrefilter_candidate; auto.
      apply Stage1_passes_iff. auto.
Qed.

(** The theorem at the sample rows: the student passes the unrestricted
    product and not the one restricted to employed and self-employed; the
    user with a credit score of 800 passes the product accepting 700 to
    750, against the credit flag of the specification. *)
Lemma C1_stage1_witness :
  In (Stage1.candidate Samples.student Samples.openToAll)
     (sqlPrefilter [Samples.alice; Samples.student]
        [Samples.hdfc; Samples.openToAll])
  /\ ~ In (Stage1.candidate Samples.student Samples.hdfc)
         (sqlPrefilter [Samples.alice; Samples.student]
            [Samples.hdfc; Samples.openToAll])
  /\ Spec.stage1Pass Samples.prime Samples.subprime = false
  /\ In (Stage1.candidate Samples.prime Samples.subprime)
       (sqlPrefilter [Samples.prime] [Samples.subprime]).
Proof.
  pose proof (C1_stage1_pass_ignores_maximum_credit
                [Samples.alice; Samples.student]
                [Samples.hdfc; Samples.openToAll])
    as (_ & Hiff & _ & _ & Hstudent).
  pose proof (C1_stage1_pass_ignores_maximum_credit
                [Samples.prime] [Samples.subprime])
    as (_ & _ & _ & Habove & _).
  split; [|split].
  - apply (Hstudent Samples.student Samples.openToAll);
      try reflexivity; simpl; auto; vm_compute; try reflexivity;
      try (split; discriminate); discriminate.
  - intros Hin.
    apply Hiff in Hin as (user & product & Hu & Hp & _ & _ & _ & He & Heq).
    injection Heq as Huser Hproduct.
    simpl in Hu, Hp.
    destruct Hu as [<-|[<-|[]]]; [discriminate Huser|].
    destruct Hp as [<-|[<-|[]]]; [|discriminate Hproduct].
    destruct He as [He|He]; [discriminate He|].
    simpl in He. destruct He as [He|[He|[]]]; discriminate He.
  - destruct (Habove Samples.prime Samples.subprime 750)
      as (_ & Hspec & Hin);
      [left; reflexivity | left; reflexivity | vm_compute; reflexivity
      | reflexivity | vm_compute; reflexivity |].
    split; [exact Hspec | exact Hin].
Defined.

(** The pair of the user with a credit score of 800 and the product
    accepting 700 to 750 is in the output without passing the four flags
    of the specification. *)
Lemma C1_counterexample : ~ Stage1.claim_as_stated.
Proof.
  intros Hclaim.
  destruct (Hclaim [Samples.prime] [Samples.subprime] Samples.prime
              Samples.subprime) as [Honly _];
    [left; reflexivity | left; reflexivity |].
  assert (Hin : In (Stage1.candidate Samples.prime Samples.subprime)
                  (sqlPrefilter [Samples.prime] [Samples.subprime]))
    by (vm_compute; left; reflexivity).
  apply Honly in Hin. vm_compute in Hin. discriminate Hin.
Qed.

(** *** The credit flag *)

(** The two other Stage-1 paths check the maximum as the specification
    words it. *)
Lemma IsFullyEligible_credit (c : models.MatchCandidate.t) :
  IsFullyEligible c = true ->
  Spec.creditEligible (models.MatchCandidate.CreditScore c)
    (models.MatchCandidate.MinCreditScore c)
    (models.MatchCandidate.MaxCreditScore c) = true.
Proof.
  unfold IsFullyEligible, Spec.creditEligible.
  destruct (_ <? _)%f64; [discriminate|].
  destruct (Z.ltb_spec (models.MatchCandidate.CreditScore c)
              (models.MatchCandidate.MinCreditScore c)); [discriminate|].
  destruct (models.MatchCandidate.MaxCreditScore c) as [maxCredit|].
  - destruct (Z.gtb_spec (models.MatchCandidate.CreditScore c) maxCredit);
      [discriminate|].
    intros _. apply andb_true_intro. split; [apply Z.geb_le|apply Z.leb_le];
      lia.
  - intros _. rewrite andb_true_r. apply Z.geb_le. lia.
Qed.

Lemma prefilterWhere_credit batchID (u : User.t) (p : LoanProduct.t) :
  database.prefilterWhere batchID u p = true ->
  Spec.creditEligible (User.CreditScore u) (LoanProduct.MinCreditScore p)
    (LoanProduct.MaxCreditScore p) = true.
Proof.
  unfold database.prefilterWhere, Spec.creditEligible. intros H.
  repeat (apply andb_prop in H as [H ?]).
  apply andb_true_intro. split; assumption.
Qed.

(** C2: whenever a product has a maximum credit score and a user's score
    is above it, the specification's credit flag is false, and yet, if the
    user meets the minimum score and the other three criteria,
    [sqlPrefilter] sets the credit flag of the pair to true and puts the
    pair in its output; the SQL [WHERE] clause rejects the same pair. *)
Theorem C2_prefilter_credit_flag_ignores_maximum :
  forall (users : list User.t) (products : list LoanProduct.t)
         (user : User.t) (product : LoanProduct.t) (maxCredit : Z),
    In user users -> In product products ->
    LoanProduct.MaxCreditScore product = Some maxCredit ->
    maxCredit < User.CreditScore user ->
    allFourFlags user product = true ->
    Spec.creditEligible (User.CreditScore user)
      (LoanProduct.MinCreditScore product)
      (LoanProduct.MaxCreditScore product) = false
    /\ creditScoreEligible user product = true
    /\ In (candidateOf user product) (sqlPrefilter users products)
    /\ MatchCandidate.CreditScoreEligible (candidateOf user product) = true
    /\ (forall batchID, database.prefilterWhere batchID user product = false).
Proof.
  intros users products user product maxCredit Hu Hp Hmax Habove Hflags.
  assert (Hcredit : creditScoreEligible user product = true).
  { unfold allFourFlags in Hflags.
    repeat (apply andb_prop in Hflags as [Hflags ?]). assumption. }
  assert (Hspec : Spec.creditEligible (User.CreditScore user)
                    (LoanProduct.MinCreditScore product)
                    (LoanProduct.MaxCreditScore product) = false).
  { unfold Spec.creditEligible. rewrite Hmax.
    destruct (Z.leb_spec (User.CreditScore user) maxCredit); [lia|].
    apply andb_false_r. }
  split; [exact Hspec|]. split; [exact Hcredit|]. split; [|split].
  - apply In_sqlPrefilter. exists user, product. auto.
  - exact Hcredit.
  - intros batchID.
    destruct (database.prefilterWhere batchID user product) eqn:Hwhere;
      [|reflexivity].
    apply prefilterWhere_credit in Hwhere. congruence.
Qed.

(** The theorem at a credit score of 800 and a product accepting 700 to
    750; [IsFullyEligible] rejects the scanned row. *)
Lemma C2_prefilter_credit_flag_witness :
  sqlPrefilter [Samples.prime] [Samples.subprime]
  = [candidateOf Samples.prime Samples.subprime]
  /\ MatchCandidate.CreditScoreEligible
       (candidateOf Samples.prime Samples.subprime) = true
  /\ Spec.creditEligible 800 700 (Some 750) = false
  /\ IsFullyEligible
       (database.scanCandidate (Samples.prime, Samples.subprime) []) = false.
Proof.
  destruct (C2_prefilter_credit_flag_ignores_maximum
              [Samples.prime] [Samples.subprime] Samples.prime
              Samples.subprime 750)
    as (Hspec & _ & _ & Hflag & _).
  - left. reflexivity.
  - left. reflexivity.
  - reflexivity.
  - vm_compute. reflexivity.
  - vm_compute. reflexivity.
  - split; [vm_compute; reflexivity|]. split; [exact Hflag|].
    split; [exact Hspec | vm_compute; reflexivity].
Defined.

(** What the scan loop returns: the error of the first row that cannot be
    scanned, or every row built. *)
Lemma scanLoop_Ok {A B : Type} (context : string)
    (scanErr : A -> option error) (build : A -> B) (rows : list A) :
  forall scanned : list B,
    (forall row, In row rows -> scanErr row = None) ->
    database.scanLoop context scanErr build rows scanned
    = Ok (scanned ++ map build rows).
Proof.
  induction rows as [|row rows IH]; intros scanned Hall.
  - cbn. rewrite app_nil_r. reflexivity.
  - cbn [database.scanLoop map]. rewrite (Hall row) by (left; reflexivity).
    rewrite IH by (intros r Hr; apply Hall; right; exact Hr).
    rewrite <- app_assoc. reflexivity.
Qed.

Lemma scanLoop_Ok_inv {A B : Type} (context : string)
    (scanErr : A -> option error) (build : A -> B) (rows : list A) :
  forall scanned found : list B,
    database.scanLoop context scanErr build rows scanned = Ok found ->
    found = scanned ++ map build rows
    /\ forall row, In row rows -> scanErr row = None.
Proof.
  induction rows as [|row rows IH]; intros scanned found.
  - cbn. intros [= <-]. rewrite app_nil_r. split; [reflexivity | tauto].
  - cbn [database.scanLoop map].
    destruct (scanErr row) eqn:Hrow; [discriminate|].
    intros Hloop. apply IH in Hloop as [-> Hall].
    rewrite <- app_assoc. split; [reflexivity|].
    intros r [<-|Hr]; [exact Hrow | apply Hall; exact Hr].
Qed.

(** C3: on one and the same pair of tables the in-memory double loop and
    the SQL query disagree.  With a user above the product's maximum
    credit score the loop, fed by [GetByIDs] and [GetAllActive], keeps the
    pair, while the query selects no row: whatever the connection does,
    [SQLPrefilterMatches] returns no candidate.  With a student and a
    product restricted to employed and self-employed applicants the loop
    drops the pair, while the query selects it: when the query succeeds
    and its row comes through, [SQLPrefilterMatches] returns the scan
    error or the candidate of that pair. *)
Theorem C3_prefilter_strategies_disagree :
  database.GetByIDs (healthyDB [Samples.prime] [Samples.subprime]) [3]
  = Ok [Samples.prime]
  /\ database.GetAllActive (healthyDB [Samples.prime] [Samples.subprime])
     = Ok [Samples.subprime]
  /\ map pairOf (sqlPrefilter [Samples.prime] [Samples.subprime]) = [(3, 3)]
  /\ (forall (d : database.DB) (batchID : string)
             (rows : list models.MatchCandidate.t),
        database.users d = [Samples.prime] ->
        database.loan_products d = [Samples.subprime] ->
        database.SQLPrefilterMatches d batchID = Ok rows -> rows = [])
  /\ database.SQLPrefilterMatches
       (healthyDB [Samples.prime] [Samples.subprime]) "" = Ok []
  /\ map pairOf (sqlPrefilter [Samples.student] [Samples.hdfc]) = []
  /\ (forall d : database.DB,
        database.users d = [Samples.student] ->
        database.loan_products d = [Samples.hdfc] ->
        database.queryErr (database.prefilterCursor d) = None ->
        database.delivered (database.prefilterCursor d) <> Some 0%nat ->
        database.SQLPrefilterMatches d ""
        = match database.scanErr (database.prefilterCursor d)
                  (Samples.student, Samples.hdfc) with
          | Some err => Err (wrapError "failed to scan candidate" err)
          | None =>
              Ok [models.MatchCandidate.mk
                    2 (User.UserID Samples.student)
                    (User.Email Samples.student)
                    (User.MonthlyIncome Samples.student)
                    (User.CreditScore Samples.student)
                    EmploymentStatusStudent (User.Age Samples.student)
                    1 (LoanProduct.ProductName Samples.hdfc)
                    (LoanProduct.ProviderName Samples.hdfc)
                    (LoanProduct.MinMonthlyIncome Samples.hdfc)
                    (LoanProduct.MinCreditScore Samples.hdfc)
                    (LoanProduct.MaxCreditScore Samples.hdfc)
                    (LoanProduct.MinAge Samples.hdfc)
                    (LoanProduct.MaxAge Samples.hdfc)
                    (database.prefilterAccepted d
                       (Samples.student, Samples.hdfc))
                    (LoanProduct.InterestRateMin Samples.hdfc)
                    (LoanProduct.InterestRateMax Samples.hdfc)]
          end)
  /\ (exists rows,
        database.SQLPrefilterMatches
          (healthyDB [Samples.student] [Samples.hdfc]) "" = Ok rows
        /\ map (fun c =>
                  (models.MatchCandidate.UserDBID c,
                   models.MatchCandidate.ProductID c,
                   models.MatchCandidate.EmploymentStatus c,
                   models.MatchCandidate.AcceptedEmploymentStatus c))
             rows
           = [(2, 1, EmploymentStatusStudent, [])]).
Proof.
  split; [vm_compute; reflexivity|]. split; [vm_compute; reflexivity|].
  split; [vm_compute; reflexivity|]. split.
  { intros d batchID rows Husers Hproducts.
    unfold database.SQLPrefilterMatches. rewrite Husers, Hproducts.
    destruct (database.queryErr (database.prefilterCursor d));
      [discriminate|].
    assert (Hnone :
      List.filter
        (fun row => database.prefilterWhere batchID (fst row) (snd row))
        (list_prod [Samples.prime] [Samples.subprime]) = [])
      by (vm_compute; reflexivity).
    rewrite Hnone. cbn [database.orderBy fold_right].
    destruct (database.delivered (database.prefilterCursor d)) as [n|];
      [destruct n|]; cbn; intros [= <-]; reflexivity. }
  split; [vm_compute; reflexivity|]. split; [vm_compute; reflexivity|].
  split.
  { intros d Husers Hproducts Hquery Hdelivered.
    unfold database.SQLPrefilterMatches. rewrite Husers, Hproducts, Hquery.
    assert (Hone :
      database.orderBy database.prefilterOrder
        (List.filter
           (fun row => database.prefilterWhere "" (fst row) (snd row))
           (list_prod [Samples.student] [Samples.hdfc]))
      = [(Samples.student, Samples.hdfc)])
      by (vm_compute; reflexivity).
    rewrite Hone.
    assert (Hthrough :
      database.deliver (database.delivered (database.prefilterCursor d))
        [(Samples.student, Samples.hdfc)]
      = [(Samples.student, Samples.hdfc)]).
    { destruct (database.delivered (database.prefilterCursor d)) as [n|];
        [|reflexivity].
      destruct n; [congruence|].
      cbn [database.deliver firstn]. rewrite firstn_nil. reflexivity. }
    rewrite Hthrough. cbn [database.scanLoop].
    destruct (database.scanErr _ _); reflexivity. }
  eexists. split; vm_compute; reflexivity.
Qed.

(** *** The two scores *)

Lemma add_nan_l (x : F64.float64) : (F64.nan + x)%f64 = F64.nan.
Proof. reflexivity. Qed.

Lemma gtb_nan_l (x : F64.float64) : (F64.nan >? x)%f64 = false.
Proof. destruct x; reflexivity. Qed.

(** C5: for every row in which the applicant's income and the product's
    minimum income are both zero, [CalculateMatchScore] divides zero by
    zero: whatever the other fields, the score is NaN, which is neither at
    least 0 nor at most 100. *)
Theorem C5_match_score_nan_at_zero_income :
  forall c : models.MatchCandidate.t,
    (models.MatchCandidate.MonthlyIncome c ==? F64.zero)%f64 = true ->
    (models.MatchCandidate.MinMonthlyIncome c ==? F64.zero)%f64 = true ->
    CalculateMatchScore c = F64.nan
    /\ Spec.scoreInRange (CalculateMatchScore c) = false.
Proof.
  intros c Hincome Hfloor.
  assert (Hnan : CalculateMatchScore c = F64.nan).
  { unfold CalculateMatchScore.
    destruct (models.MatchCandidate.MonthlyIncome c) as [s1|s1| |s1 m1 e1];
      try (destruct s1; discriminate Hincome); try discriminate Hincome.
    destruct (models.MatchCandidate.MinMonthlyIncome c)
      as [s2|s2| |s2 m2 e2];
      try (destruct s2; discriminate Hfloor); try discriminate Hfloor.
    change (S754_zero s1 >=? S754_zero s2)%f64 with true.
    change (S754_zero s1 / S754_zero s2)%f64 with F64.nan.
    cbv iota. rewrite gtb_nan_l.
    change (F64.zero + F64.of_int 15 * F64.nan)%f64 with F64.nan.
    destruct (models.MatchCandidate.CreditScore c
              >=? models.MatchCandidate.MinCreditScore c);
      destruct ((models.MatchCandidate.Age c
                 >=? models.MatchCandidate.MinAge c)
                && (models.MatchCandidate.Age c
                    <=? models.MatchCandidate.MaxAge c));
      destruct (0 <? length (models.MatchCandidate.AcceptedEmploymentStatus c))%nat;
      destruct (statusListed (models.MatchCandidate.AcceptedEmploymentStatus c)
                  (models.MatchCandidate.EmploymentStatus c));
      rewrite ?add_nan_l, gtb_nan_l; reflexivity. }
  split; [exact Hnan|]. rewrite Hnan. reflexivity.
Qed.

(** The theorem at an applicant with no income and a product with no
    income floor, a row that passes [IsFullyEligible]; on the same pair the
    matcher's [calculateEligibilityScore], which guards its divisions,
    stays in range. *)
Lemma C5_match_score_nan_witness :
  CalculateMatchScore (database.scanCandidate (noIncome, noFloor) [])
  = F64.nan
  /\ IsFullyEligible (database.scanCandidate (noIncome, noFloor) []) = true
  /\ Spec.scoreInRange (calculateEligibilityScore noIncome noFloor) = true.
Proof.
  split; [|split; vm_compute; reflexivity].
  apply (C5_match_score_nan_at_zero_income
           (database.scanCandidate (noIncome, noFloor) []));
    vm_compute; reflexivity.
Defined.

(* ===================================================================== *)
(** ** Stage 2: affordability *)
(* ===================================================================== *)

Lemma powLoop_step (n : nat) (base : F64.float64) : forall result,
  powLoop n base (result * base)%f64 = (powLoop n base result * base)%f64.
Proof.
  induction n as [|n IH]; intros result; cbn [powLoop]; [reflexivity|].
  apply IH.
Qed.

Lemma powLoop_power (n : nat) (base : F64.float64) :
  powLoop n base F64.one = Affordability.power base n.
Proof.
  induction n as [|n IH]; cbn [powLoop Affordability.power]; [reflexivity|].
  rewrite powLoop_step, IH. reflexivity.
Qed.

(** The exponent [pow] receives and the number of turns of its loop. *)
Lemma pow_tenure (base : F64.float64) (product : LoanProduct.t) :
  - 2 ^ 53 < LoanProduct.TenureMaxMonths product < 2 ^ 53 ->
  pow base
    (if (F64.of_int (LoanProduct.TenureMaxMonths product) ==? F64.zero)%f64
     then F64.of_int 60
     else F64.of_int (LoanProduct.TenureMaxMonths product))
  = Affordability.power base
      (Z.to_nat (Affordability.effectiveTenure product)).
Proof.
  intros Hrange. unfold pow, Affordability.effectiveTenure.
  destruct (of_int_round_trip _ Hrange) as [Htrip ->].
  destruct (LoanProduct.TenureMaxMonths product =? 0).
  - rewrite <- powLoop_power. reflexivity.
  - rewrite Htrip. apply powLoop_power.
Qed.

Lemma eqb_zero_not_gtb (x : F64.float64) :
  (x ==? F64.zero)%f64 = true -> (x >? F64.zero)%f64 = false.
Proof. destruct x as [s|s| |s m e]; try destruct s; cbv; congruence. Qed.

(** C4: for a product whose maximum tenure converts to float64 exactly
    (below 2^53 in magnitude) and whose monthly rate is positive,
    [passesBusinessRules] rejects exactly when the installment
    [P × r × (1+r)^n / ((1+r)^n − 1)] exceeds [income × 0.5 × 2], with [P]
    the minimum loan amount, [r] the maximum rate per month and [n] the
    maximum tenure in months, or 60 when that tenure is 0; with a monthly
    rate that is not positive, zero included, the candidate is kept. *)
Theorem C4_affordability_rule :
  forall (user : User.t) (product : LoanProduct.t),
    - 2 ^ 53 < LoanProduct.TenureMaxMonths product < 2 ^ 53 ->
    ((Affordability.monthlyRate product >? F64.zero)%f64 = true ->
     (passesBusinessRules user product = false
      <-> (Affordability.installment (LoanProduct.LoanAmountMin product)
             (Affordability.monthlyRate product)
             (Affordability.effectiveTenure product)
           >? Affordability.ceiling user)%f64 = true))
    /\ ((Affordability.monthlyRate product >? F64.zero)%f64 = false ->
        passesBusinessRules user product = true)
    /\ ((Affordability.monthlyRate product ==? F64.zero)%f64 = true ->
        passesBusinessRules user product = true).
Proof.
  intros user product Hrange.
  assert (Hkept : (Affordability.monthlyRate product >? F64.zero)%f64 = false
                  -> passesBusinessRules user product = true).
  { unfold passesBusinessRules, Affordability.monthlyRate.
    intros ->. reflexivity. }
  split; [|split].
  - unfold passesBusinessRules. fold (Affordability.monthlyRate product).
    intros ->. rewrite (pow_tenure _ product Hrange).
    unfold Affordability.installment, Affordability.ceiling.
    match goal with
    | |- context [if ?b then false else true] => destruct b
    end; split; intros H; congruence.
  - exact Hkept.
  - intros Hzero. apply Hkept, eqb_zero_not_gtb, Hzero.
Qed.

(** The theorem at a sample pair: a 21 percent loan over 60 months is
    affordable on an income of 60000. *)
Lemma C4_affordability_witness :
  passesBusinessRules Samples.alice Samples.hdfc = true.
Proof.
  destruct (C4_affordability_rule Samples.alice Samples.hdfc) as (Hiff & _).
  - vm_compute. split; reflexivity.
  - destruct (passesBusinessRules Samples.alice Samples.hdfc) eqn:E;
      [reflexivity|].
    exfalso.
    assert (Hrej : (Affordability.installment
                      (LoanProduct.LoanAmountMin Samples.hdfc)
                      (Affordability.monthlyRate Samples.hdfc)
                      (Affordability.effectiveTenure Samples.hdfc)
                    >? Affordability.ceiling Samples.alice)%f64 = true).
    { apply Hiff; [vm_compute; reflexivity | reflexivity]. }
    vm_compute in Hrej. discriminate Hrej.
Defined.

(** With a maximum tenure of 0 the formula of the claim divides by zero and
    its installment is infinite, while the code computes with 60 months and
    keeps the candidate. *)
Lemma C4_counterexample : ~ Affordability.claim_as_stated.
Proof.
  intros Hclaim.
  destruct (Hclaim Samples.alice Samples.noTenure) as [Hiff _].
  assert (Hcode : passesBusinessRules Samples.alice Samples.noTenure = false).
  { apply Hiff; vm_compute; reflexivity. }
  vm_compute in Hcode. discriminate Hcode.
Qed.

(* ===================================================================== *)
(** ** The ranker *)
(* ===================================================================== *)

(** *** The indexed loop is the pass along the list *)

Lemma swapIfLess_nil (j : nat) : swapIfLess [] j = [].
Proof. reflexivity. Qed.

Lemma swapIfLess_cons (x : MatchCandidate.t) (l : list MatchCandidate.t)
    (j : nat) :
  swapIfLess (x :: l) (S j) = x :: swapIfLess l j.
Proof.
  unfold swapIfLess. cbn [lookup list_lookup Nat.add].
  destruct (l !! j) as [a|]; [|reflexivity].
  destruct (l !! (j + 1)%nat) as [b|]; [|reflexivity].
  destruct (_ <? _)%f64; reflexivity.
Qed.

Lemma fold_swapIfLess_nil (js : list nat) : fold_left swapIfLess js [] = [].
Proof. induction js as [|j js IH]; simpl; [reflexivity | exact IH]. Qed.

Lemma fold_swapIfLess_cons (x : MatchCandidate.t) (k : nat) :
  forall (s : nat) (l : list MatchCandidate.t),
    fold_left swapIfLess (seq (S s) k) (x :: l)
    = x :: fold_left swapIfLess (seq s k) l.
Proof.
  induction k as [|k IH]; intros s l; [reflexivity|].
  cbn [seq fold_left]. rewrite swapIfLess_cons. apply IH.
Qed.

Lemma fold_swapIfLess_bubblePass (k : nat) :
  forall l : list MatchCandidate.t,
    fold_left swapIfLess (seq 0 k) l = Ranker.bubblePass k l.
Proof.
  induction k as [|k IH]; intros l; [destruct l; reflexivity|].
  cbn [seq fold_left].
  destruct l as [|a [|b rest]].
  - rewrite swapIfLess_nil. apply fold_swapIfLess_nil.
  - change (swapIfLess [a] 0) with [a].
    rewrite fold_swapIfLess_cons, fold_swapIfLess_nil. reflexivity.
  - unfold swapIfLess. cbn [lookup list_lookup Nat.add Ranker.bubblePass].
    unfold Ranker.score.
    destruct (_ <? _)%f64; cbn [insert list_insert];
      rewrite fold_swapIfLess_cons, IH; reflexivity.
Qed.

Lemma bubbleInner_bubblePass (l : list MatchCandidate.t) (i : nat) :
  bubbleInner l i = Ranker.bubblePass (length l - i - 1) l.
Proof. apply fold_swapIfLess_bubblePass. Qed.

(** *** What one pass preserves *)

Lemma bubblePass_perm (k : nat) : forall l : list MatchCandidate.t,
  Permutation l (Ranker.bubblePass k l).
Proof.
  induction k as [|k IH]; intros l; [destruct l; reflexivity|].
  destruct l as [|a [|b rest]]; [reflexivity..|].
  cbn [Ranker.bubblePass]. destruct (_ <? _)%f64.
  - rewrite perm_swap. apply perm_skip, IH.
  - apply perm_skip, IH.
Qed.

Lemma bubblePass_length (k : nat) (l : list MatchCandidate.t) :
  length (Ranker.bubblePass k l) = length l.
Proof. symmetry. apply Permutation_length, bubblePass_perm. Qed.

Lemma bubblePass_stable (k : nat) : forall l : list MatchCandidate.t,
  Ranker.stable l (Ranker.bubblePass k l).
Proof.
  induction k as [|k IH]; intros l s; [destruct l; reflexivity|].
  destruct l as [|a [|b rest]]; [reflexivity..|].
  cbn [Ranker.bubblePass]. destruct (_ <? _)%f64 eqn:Hlt.
  - cbn [List.filter]. rewrite (IH (a :: rest) s). cbn [List.filter].
    destruct (Ranker.sameScore s a) eqn:Ha, (Ranker.sameScore s b) eqn:Hb;
      try reflexivity.
    unfold Ranker.sameScore in Ha, Hb.
    rewrite (eqb_not_ltb _ _ _ Ha Hb) in Hlt. discriminate Hlt.
  - cbn [List.filter]. rewrite (IH (b :: rest) s). reflexivity.
Qed.

Lemma bubblePass_app (k : nat) :
  forall front back : list MatchCandidate.t,
    (k < length front)%nat ->
    Ranker.bubblePass k (front ++ back) = Ranker.bubblePass k front ++ back.
Proof.
  induction k as [|k IH]; intros front back Hk.
  - destruct front, back; reflexivity.
  - destruct front as [|a [|b rest]]; simpl in Hk; [lia..|].
    cbn [app Ranker.bubblePass].
    destruct (_ <? _)%f64; cbn [app]; f_equal.
    + apply (IH (a :: rest) back). simpl. lia.
    + apply (IH (b :: rest) back). simpl. lia.
Qed.

(** A full pass leaves a candidate of least score in the last slot. *)
Lemma bubblePass_least (rest : list MatchCandidate.t) :
  forall a : MatchCandidate.t,
    Ranker.numbered (a :: rest) ->
    exists front least,
      Ranker.bubblePass (length rest) (a :: rest) = front ++ [least]
      /\ (forall x, In x (a :: rest) -> Ranker.notBelow x least).
Proof.
  induction rest as [|b rest IH]; intros a Hnum.
  - exists [], a. split; [reflexivity|].
    intros x [<-|[]]. apply ltb_irrefl.
  - cbn [length Ranker.bubblePass].
    assert (Hb : F64.is_nan (Ranker.score b) = false).
    { apply Forall_cons_1 in Hnum as [_ Hnum].
      apply Forall_cons_1 in Hnum as [Hb _]. exact Hb. }
    destruct (_ <? _)%f64 eqn:Hlt.
    + destruct (IH a) as (front & least & -> & Hleast).
      { apply Forall_cons_1 in Hnum as [Ha Hnum].
        apply Forall_cons_1 in Hnum as [_ Hnum]. constructor; assumption. }
      exists (b :: front), least. split; [reflexivity|].
      intros x [<-|[<-|Hx]].
      * apply Hleast. left. reflexivity.
      * unfold Ranker.notBelow.
        destruct (Ranker.score b <? Ranker.score least)%f64 eqn:Hbl;
          [|reflexivity].
        pose proof (ltb_trans _ _ _ Hlt Hbl) as Hal.
        rewrite (Hleast a) in Hal by (left; reflexivity). discriminate Hal.
      * apply Hleast. right. exact Hx.
    + destruct (IH b) as (front & least & -> & Hleast).
      { apply Forall_cons_1 in Hnum as [_ Hnum]. exact Hnum. }
      exists (a :: front), least. split; [reflexivity|].
      intros x [<-|Hx].
      * apply (ltb_false_trans _ (Ranker.score b)); [exact Hb | exact Hlt|].
        apply Hleast. left. reflexivity.
      * apply Hleast. exact Hx.
Qed.

(** *** All the passes *)

Lemma stable_trans (l1 l2 l3 : list MatchCandidate.t) :
  Ranker.stable l1 l2 -> Ranker.stable l2 l3 -> Ranker.stable l1 l3.
Proof. intros H12 H23 s. rewrite H23. apply H12. Qed.

Lemma passes_perm_stable (js : list nat) :
  forall l : list MatchCandidate.t,
    Permutation l (fold_left bubbleInner js l)
    /\ Ranker.stable l (fold_left bubbleInner js l).
Proof.
  induction js as [|j js IH]; intros l; cbn [fold_left].
  - split; [reflexivity | intros s; reflexivity].
  - destruct (IH (bubbleInner l j)) as [Hperm Hstable].
    rewrite bubbleInner_bubblePass in *. split.
    + etransitivity; [apply bubblePass_perm | exact Hperm].
    + eapply stable_trans; [apply bubblePass_stable | exact Hstable].
Qed.

Lemma numbered_perm (l l' : list MatchCandidate.t) :
  Permutation l l' -> Ranker.numbered l -> Ranker.numbered l'.
Proof. intros Hperm. apply Permutation_Forall, Hperm. Qed.

Lemma pass_settled (i : nat) (l : list MatchCandidate.t) :
  Ranker.numbered l -> Ranker.settled i l -> (i + 2 <= length l)%nat ->
  Ranker.settled (S i) (Ranker.bubblePass (length l - i - 1) l).
Proof.
  intros Hnum (front & back & -> & Hlen & Hsorted & Hcross) Hi.
  rewrite length_app in *.
  replace (length front + length back - i - 1)%nat
    with (length front - 1)%nat by lia.
  rewrite bubblePass_app by lia.
  destruct front as [|a rest]; [simpl in Hi; lia|].
  replace (length (a :: rest) - 1)%nat with (length rest) by (simpl; lia).
  destruct (bubblePass_least rest a) as (front' & least & Heq & Hleast).
  { apply Forall_app in Hnum as [Hnum _]. exact Hnum. }
  assert (Hperm : Permutation (front' ++ [least]) (a :: rest)).
  { rewrite <- Heq. symmetry. apply bubblePass_perm. }
  assert (Hin : forall x, In x (front' ++ [least]) -> In x (a :: rest)).
  { intros x. apply Permutation_in, Hperm. }
  rewrite Heq. exists front', (least :: back).
  split; [rewrite <- app_assoc; reflexivity|].
  split; [simpl; lia|]. split.
  - constructor; [exact Hsorted|].
    apply List.Forall_forall. intros y Hy. apply Hcross; [|exact Hy].
    apply Hin, in_or_app. right. left. reflexivity.
  - intros x y Hx [<-|Hy].
    + apply Hleast, Hin, in_or_app. left. exact Hx.
    + apply Hcross; [|exact Hy]. apply Hin, in_or_app. left. exact Hx.
Qed.

Lemma passes_settled (t : nat) :
  forall (i : nat) (l : list MatchCandidate.t),
    Ranker.numbered l -> Ranker.settled i l ->
    (t = 0 \/ i + t + 1 <= length l)%nat ->
    Ranker.settled (i + t) (fold_left bubbleInner (seq i t) l).
Proof.
  induction t as [|t IH]; intros i l Hnum Hset Ht; cbn [seq fold_left].
  - rewrite Nat.add_0_r. exact Hset.
  - destruct Ht as [Ht|Ht]; [discriminate|].
    rewrite bubbleInner_bubblePass.
    replace (i + S t)%nat with (S i + t)%nat by lia.
    apply IH.
    + eapply numbered_perm; [apply bubblePass_perm | exact Hnum].
    + apply pass_settled; [exact Hnum | exact Hset | lia].
    + right. rewrite bubblePass_length. lia.
Qed.

Lemma notBelow_descending (l : list MatchCandidate.t) :
  Ranker.numbered l -> StronglySorted Ranker.notBelow l ->
  Ranker.descending l.
Proof.
  intros Hnum Hsorted.
  induction Hsorted as [|a rest Hrest IH Hall]; [constructor|].
  apply Forall_cons_1 in Hnum as [Ha Hnum].
  constructor; [apply IH, Hnum|].
  rewrite List.Forall_forall in *. intros y Hy.
  apply ltb_false_geb; [exact Ha | apply Hnum, Hy | apply Hall, Hy].
Qed.

Lemma bubbleSort_descending (l : list MatchCandidate.t) :
  Ranker.numbered l -> Ranker.descending (bubbleSort l).
Proof.
  intros Hnum.
  destruct (passes_perm_stable (seq 0 (length l - 1)) l) as [Hperm _].
  fold (bubbleSort l) in Hperm.
  apply notBelow_descending; [eapply numbered_perm; eassumption|].
  assert (Hset : Ranker.settled (0 + (length l - 1)) (bubbleSort l)).
  { apply passes_settled; [exact Hnum | | lia].
    exists l, []. rewrite app_nil_r.
    repeat split; [constructor | intros x y _ []]. }
  destruct Hset as (front & back & Heq & Hlen & Hsorted & Hcross).
  apply Permutation_length in Hperm.
  rewrite Heq, length_app in Hperm. rewrite Heq.
  destruct front as [|x [|x' front]]; simpl in Hperm.
  - exact Hsorted.
  - constructor; [exact Hsorted|].
    apply List.Forall_forall. intros y Hy. apply Hcross; [left; reflexivity|].
    exact Hy.
  - lia.
Qed.

Lemma firstn_In {A : Type} (x : A) (l : list A) :
  forall n : nat, In x (firstn n l) -> In x l.
Proof.
  induction l as [|y l IH]; intros [|n]; simpl; try tauto.
  intros [<-|Hx]; [left; reflexivity | right; eapply IH, Hx].
Qed.

Lemma descending_firstn (n : nat) (l : list MatchCandidate.t) :
  Ranker.descending l -> Ranker.descending (firstn n l).
Proof.
  intros Hsorted. revert n.
  induction Hsorted as [|a rest Hrest IH Hall]; intros [|n];
    cbn [firstn]; try constructor.
  - apply IH.
  - rewrite List.Forall_forall in *. intros y Hy. apply Hall.
    eapply firstn_In, Hy.
Qed.

(** C6: with at most 100 survivors the ranker returns them as they are,
    unsorted; with more than 100, all with a number for a score, it returns
    the first 100 of a permutation of the survivors that is sorted by score
    descending and keeps candidates of equal score in their original
    order; the result never has more than 100 candidates. *)
Theorem C6_ranker_sorts_only_beyond_budget :
  forall survivors : list MatchCandidate.t,
    ((length survivors <= 100)%nat ->
     selectTopCandidates survivors 100 = survivors)
    /\ ((100 < length survivors)%nat -> Ranker.numbered survivors ->
        exists sorted,
          Permutation survivors sorted /\ Ranker.descending sorted
          /\ Ranker.stable survivors sorted
          /\ selectTopCandidates survivors 100 = firstn 100 sorted
          /\ Ranker.descending (selectTopCandidates survivors 100)
          /\ length (selectTopCandidates survivors 100) = 100%nat)
    /\ (length (selectTopCandidates survivors 100) <= 100)%nat.
Proof.
  intros survivors. unfold selectTopCandidates.
  destruct (Nat.leb_spec (length survivors) 100) as [Hle|Hgt].
  - split; [reflexivity|]. split; [lia | exact Hle].
  - destruct (passes_perm_stable (seq 0 (length survivors - 1)) survivors)
      as [Hperm Hstable].
    fold (bubbleSort survivors) in Hperm, Hstable.
    assert (Hlen : length (firstn 100 (bubbleSort survivors)) = 100%nat).
    { apply firstn_length_le.
      rewrite <- (Permutation_length Hperm). lia. }
    split; [lia|]. split; [|lia].
    intros _ Hnum. exists (bubbleSort survivors).
    pose proof (bubbleSort_descending survivors Hnum) as Hdesc.
    repeat split;
      [exact Hperm | exact Hdesc | exact Hstable
      | apply descending_firstn, Hdesc | exact Hlen].
Qed.

(** The theorem at 120 survivors and at two. *)
Lemma C6_ranker_witness :
  Ranker.descending (selectTopCandidates Ranker.crowd 100)
  /\ length (selectTopCandidates Ranker.crowd 100) = 100%nat
  /\ selectTopCandidates risingPair 100 = risingPair.
Proof.
  destruct (C6_ranker_sorts_only_beyond_budget Ranker.crowd)
    as (_ & Hlong & _).
  destruct (C6_ranker_sorts_only_beyond_budget risingPair)
    as (Hshort & _ & _).
  destruct Hlong as (sorted & _ & _ & _ & _ & Hdesc & Hlen).
  - vm_compute. lia.
  - apply List.Forall_forall. intros c Hc.
    assert (Hall : forallb (fun c => negb (F64.is_nan (Ranker.score c)))
                     Ranker.crowd = true) by (vm_compute; reflexivity).
    rewrite forallb_forall in Hall. apply negb_true_iff, Hall, Hc.
  - split; [exact Hdesc|]. split; [exact Hlen|].
    apply Hshort. vm_compute. lia.
Defined.

(** Two survivors in rising order come back in rising order. *)
Lemma C6_counterexample : ~ Ranker.claim_as_stated.
Proof.
  intros Hclaim.
  destruct (Hclaim risingPair) as (sorted & Hperm & Hdesc & _ & Heq).
  apply Permutation_length in Hperm.
  rewrite firstn_all2 in Heq by (rewrite <- Hperm; vm_compute; lia).
  change (selectTopCandidates risingPair 100) with risingPair in Heq.
  subst sorted. unfold risingPair in Hdesc.
  apply StronglySorted_inv in Hdesc as [_ Hall].
  apply Forall_cons_1 in Hall as [Hge _].
  vm_compute in Hge. discriminate Hge.
Qed.

(* ===================================================================== *)
(** ** Stage 3: errors and missing credentials *)
(* ===================================================================== *)

Lemma eqb_geb (x y : F64.float64) :
  (x ==? y)%f64 = true -> (x >=? y)%f64 = true.
Proof.
  destruct x as [sx|sx| |sx mx ex], y as [sy|sy| |sy my ey];
    try destruct sx; try destruct sy;
    unfold F64.eqb, F64.geb, SFeqb, SFleb, SFcompare;
    try discriminate; try reflexivity;
    change (Pos.compare_cont Eq mx my) with (Pos.compare mx my);
    change (Pos.compare_cont Eq my mx) with (Pos.compare my mx);
    rewrite (Z.compare_antisym ex ey), (Pos.compare_antisym mx my);
    destruct (ex ?= ey); destruct (mx ?= my)%positive; cbn;
    intros H'; try discriminate; reflexivity.
Qed.

Lemma sameUpToAssessment_verdict (c : MatchCandidate.t) (passed : bool)
    (reasoning : string) (confidence : F64.float64) :
  Pipeline.sameUpToAssessment c
    (MatchCandidate.setLLMConfidence
       (MatchCandidate.setLLMReasoning
          (MatchCandidate.setLLMCheckPassed c passed) reasoning) confidence).
Proof. repeat split. Qed.

Lemma sameUpToAssessment_fallback (c : MatchCandidate.t) (passed : bool)
    (reasoning : string) :
  Pipeline.sameUpToAssessment c
    (MatchCandidate.setLLMReasoning
       (MatchCandidate.setLLMCheckPassed c passed) reasoning).
Proof. repeat split. Qed.

Lemma Returns_inj {A : Type} (a b : A) : Returns a = Returns b -> a = b.
Proof. congruence. Qed.

(** What the loop of [llmCheck] appends to [passed], when it returns. *)
Lemma llmCheckLoop_shape (llm : LLMClient) (userMap : gmap Z User.t)
    (productMap : gmap Z LoanProduct.t) (candidates : list MatchCandidate.t) :
  forall (passed : list MatchCandidate.t) (lastErr : option error)
         (evaluation : nat)
         (result : list MatchCandidate.t * option error),
    llmCheckLoop llm userMap productMap candidates passed lastErr evaluation
    = Returns result ->
    exists out,
      fst result = passed ++ out
      /\ sublist (map pairOf out) (map pairOf candidates)
      /\ Forall
           (fun c' =>
              MatchCandidate.LLMCheckPassed c' = true
              /\ exists c, In c candidates /\ Pipeline.sameUpToAssessment c c')
           out.
Proof.
  induction candidates as [|c rest IH];
    intros passed lastErr evaluation result.
  - cbn [llmCheckLoop]. intros [= <-]. exists []. cbn [fst].
    rewrite app_nil_r. repeat split; constructor.
  - assert (Hskip : forall passed' lastErr' evaluation',
      llmCheckLoop llm userMap productMap rest passed' lastErr' evaluation'
      = Returns result ->
      exists out,
        fst result = passed' ++ out
        /\ sublist (map pairOf out) (map pairOf (c :: rest))
        /\ Forall
             (fun c' =>
                MatchCandidate.LLMCheckPassed c' = true
                /\ exists c0, In c0 (c :: rest)
                              /\ Pipeline.sameUpToAssessment c0 c') out).
    { intros passed' lastErr' evaluation' Hrun.
      destruct (IH passed' lastErr' evaluation' result Hrun)
        as (out & Hout & Hsub & Hall).
      exists out. split; [exact Hout|]. split.
      - cbn [map]. apply sublist_cons, Hsub.
      - eapply Forall_impl; [exact Hall|].
        intros c' (Hp & c0 & Hin & Hsame). split; [exact Hp|].
        exists c0. split; [right; exact Hin | exact Hsame]. }
    assert (Hkeep : forall c1 passed' lastErr' evaluation',
      MatchCandidate.LLMCheckPassed c1 = true ->
      Pipeline.sameUpToAssessment c c1 ->
      llmCheckLoop llm userMap productMap rest (passed' ++ [c1]) lastErr'
        evaluation' = Returns result ->
      exists out,
        fst result = passed' ++ out
        /\ sublist (map pairOf out) (map pairOf (c :: rest))
        /\ Forall
             (fun c' =>
                MatchCandidate.LLMCheckPassed c' = true
                /\ exists c0, In c0 (c :: rest)
                              /\ Pipeline.sameUpToAssessment c0 c') out).
    { intros c1 passed' lastErr' evaluation' Hmark Hsame Hrun.
      destruct (IH (passed' ++ [c1]) lastErr' evaluation' result Hrun)
        as (out & Hout & Hsub & Hall).
      exists (c1 :: out). split; [rewrite Hout, <- app_assoc; reflexivity|].
      split.
      - cbn [map]. replace (pairOf c1) with (pairOf c).
        + apply sublist_skip, Hsub.
        + destruct Hsame as (Hu & Hp & _). unfold pairOf.
          rewrite Hu, Hp. reflexivity.
      - constructor.
        + split; [exact Hmark|]. exists c. split; [left; reflexivity|].
          exact Hsame.
        + eapply Forall_impl; [exact Hall|].
          intros c' (Hp & c0 & Hin & Hs). split; [exact Hp|].
          exists c0. split; [right; exact Hin | exact Hs]. }
    cbn [llmCheckLoop].
    destruct (userMap !! _) as [user|]; [|apply Hskip].
    destruct (productMap !! _) as [product|]; [|apply Hskip].
    destruct (EvaluateMatch llm evaluation user product)
      as [[response|err]|p]; [| |discriminate].
    + destruct (Qualified response) eqn:Hq; [|apply Hskip].
      apply Hkeep; [reflexivity|].
      apply sameUpToAssessment_verdict.
    + destruct (_ >=? _)%f64; [|apply Hskip].
      apply Hkeep; [reflexivity|].
      apply sameUpToAssessment_fallback.
Qed.

Lemma llmCheck_pairs_sublist (llm : LLMClient)
    (candidates : list MatchCandidate.t) (users : list User.t)
    (products : list LoanProduct.t)
    (result : list MatchCandidate.t * option error) :
  llmCheck llm candidates users products = Returns result ->
  sublist (map pairOf (fst result)) (map pairOf candidates)
  /\ (length (fst result) <= length candidates)%nat.
Proof.
  unfold llmCheck. intros Hrun.
  destruct (llmCheckLoop_shape llm (buildUserMap users)
              (buildProductMap products) candidates [] None 0 result Hrun)
    as (out & -> & Hsub & _).
  cbn [app]. split; [exact Hsub|].
  apply sublist_length in Hsub. rewrite !length_map in Hsub. exact Hsub.
Qed.

(** *** The loop, piece by piece *)

(** The two accumulators only collect: the loop started on any [passed]
    and [lastErr] panics if it does when started empty, and otherwise
    returns [passed] followed by what it returns when started empty, and
    the last error met, or [lastErr] if it meets none. *)
Lemma llmCheckLoop_accumulates (llm : LLMClient) (userMap : gmap Z User.t)
    (productMap : gmap Z LoanProduct.t) (candidates : list MatchCandidate.t) :
  forall (passed : list MatchCandidate.t) (lastErr : option error)
         (evaluation : nat),
    llmCheckLoop llm userMap productMap candidates passed lastErr evaluation
    = match llmCheckLoop llm userMap productMap candidates [] None
              evaluation with
      | Panics p => Panics p
      | Returns (out, err) =>
          Returns (passed ++ out,
                   match err with
                   | Some err => Some err
                   | None => lastErr
                   end)
      end.
Proof.
  induction candidates as [|c rest IH]; intros passed lastErr evaluation.
  - cbn [llmCheckLoop]. rewrite app_nil_r. reflexivity.
  - cbn [llmCheckLoop].
    destruct (userMap !! _) as [user|]; [|apply IH].
    destruct (productMap !! _) as [product|]; [|apply IH].
    destruct (EvaluateMatch llm evaluation user product)
      as [[response|err]|p]; [| |reflexivity].
    + destruct (Qualified response); [|apply IH].
      cbn [app].
      match goal with
      | |- context [passed ++ [?kept]] =>
          rewrite (IH (passed ++ [kept])), (IH [kept])
      end.
      destruct (llmCheckLoop llm userMap productMap rest [] None
                  (S evaluation)) as [[out later]|p]; [|reflexivity].
      rewrite <- app_assoc. cbn [app]. destruct later; reflexivity.
    + destruct (_ >=? _)%f64.
      * cbn [app].
        match goal with
        | |- context [passed ++ [?kept]] =>
            rewrite (IH (passed ++ [kept])), (IH [kept])
        end.
        destruct (llmCheckLoop llm userMap productMap rest [] None
                    (S evaluation)) as [[out later]|p]; [|reflexivity].
        rewrite <- app_assoc. cbn [app]. destruct later; reflexivity.
      * rewrite (IH passed (Some err)), (IH [] (Some err)).
        destruct (llmCheckLoop llm userMap productMap rest [] None
                    (S evaluation)) as [[out later]|p]; [|reflexivity].
        cbn [app]. destruct later; reflexivity.
Qed.

(** The loop on a list in two pieces, when every candidate of the first
    piece is looked up and so evaluated. *)
Lemma llmCheckLoop_app (llm : LLMClient) (userMap : gmap Z User.t)
    (productMap : gmap Z LoanProduct.t) (front back : list MatchCandidate.t) :
  Forall (fun c => is_Some (userMap !! MatchCandidate.UserID c)
                   /\ is_Some (productMap !! MatchCandidate.ProductID c))
    front ->
  forall (passed : list MatchCandidate.t) (lastErr : option error)
         (evaluation : nat),
    llmCheckLoop llm userMap productMap (front ++ back) passed lastErr
      evaluation
    = match llmCheckLoop llm userMap productMap front passed lastErr
              evaluation with
      | Panics p => Panics p
      | Returns (passed', lastErr') =>
          llmCheckLoop llm userMap productMap back passed' lastErr'
            (evaluation + length front)
      end.
Proof.
  induction front as [|c rest IH]; intros Hres passed lastErr evaluation.
  - cbn [app llmCheckLoop length]. rewrite Nat.add_0_r. reflexivity.
  - apply Forall_cons_1 in Hres as [[[user Hu] [product Hp]] Hres].
    cbn [app llmCheckLoop length]. rewrite Hu, Hp.
    replace (evaluation + S (length rest))%nat
      with (S evaluation + length rest)%nat by lia.
    destruct (EvaluateMatch llm evaluation user product)
      as [[response|err]|p]; [| |reflexivity].
    + destruct (Qualified response); apply IH, Hres.
    + destruct (_ >=? _)%f64; apply IH, Hres.
Qed.

Lemma EvaluateMatch_later (llm : LLMClient) (made evaluation : nat)
    (user : User.t) (product : LoanProduct.t) :
  EvaluateMatch (Assessor.later llm made) evaluation user product
  = EvaluateMatch llm (made + evaluation) user product.
Proof. reflexivity. Qed.

Lemma llmCheckLoop_later (llm : LLMClient) (made : nat)
    (userMap : gmap Z User.t) (productMap : gmap Z LoanProduct.t)
    (candidates : list MatchCandidate.t) :
  forall (passed : list MatchCandidate.t) (lastErr : option error)
         (evaluation : nat),
    llmCheckLoop (Assessor.later llm made) userMap productMap candidates
      passed lastErr evaluation
    = llmCheckLoop llm userMap productMap candidates passed lastErr
        (made + evaluation).
Proof.
  induction candidates as [|c rest IH]; intros passed lastErr evaluation.
  - reflexivity.
  - cbn [llmCheckLoop].
    replace (S (made + evaluation)) with (made + S evaluation)%nat by lia.
    destruct (userMap !! _) as [user|]; [|apply IH].
    destruct (productMap !! _) as [product|]; [|apply IH].
    rewrite EvaluateMatch_later.
    destruct (EvaluateMatch llm (made + evaluation) user product)
      as [[response|err]|p]; [| |reflexivity].
    + destruct (Qualified response); apply IH.
    + destruct (_ >=? _)%f64; apply IH.
Qed.

(** The candidate the error branch appends, field by field. *)
Lemma fallback_assessed (c : MatchCandidate.t) :
  MatchCandidate.setLLMReasoning (MatchCandidate.setLLMCheckPassed c true)
    apiErrorNote
  = Assessor.assessed c true
      "LLM check skipped due to API error, high score approved"
      (MatchCandidate.LLMConfidence c).
Proof. reflexivity. Qed.

(** The candidate appended after a verdict, field by field. *)
Lemma verdict_assessed (c : MatchCandidate.t) (response : LLMResponse) :
  MatchCandidate.setLLMConfidence
    (MatchCandidate.setLLMReasoning
       (MatchCandidate.setLLMCheckPassed c (Qualified response))
       (Reasoning response))
    (Confidence response)
  = Assessor.assessed c (Qualified response) (Reasoning response)
      (Confidence response).
Proof. reflexivity. Qed.

(** What [llmCheck] does with a list in which the evaluation of one
    candidate returns an error. *)
Lemma llmCheck_around_error (kept : MatchCandidate.t -> bool) :
  (forall c,
     kept c = (MatchCandidate.EligibilityScore c >=? F64.of_int 60)%f64) ->
  Assessor.fallbackRule kept.
Proof.
  intros Hkept llm before c after users products user product err Hres Hu Hp
    Herr.
  unfold llmCheck. rewrite llmCheckLoop_app by exact Hres.
  destruct (llmCheckLoop llm (buildUserMap users) (buildProductMap products)
              before [] None 0) as [[passedBefore errBefore]|p];
    [|reflexivity].
  cbn [llmCheckLoop Nat.add]. rewrite Hu, Hp, Herr, Hkept.
  rewrite (llmCheckLoop_later llm (S (length before))), Nat.add_0_r,
    fallback_assessed.
  destruct (_ >=? _)%f64; rewrite llmCheckLoop_accumulates;
    destruct (llmCheckLoop llm (buildUserMap users)
                (buildProductMap products) after [] None (S (length before)))
      as [[passedAfter errAfter]|p]; try reflexivity;
    rewrite <- ?app_assoc; destruct errAfter; reflexivity.
Qed.

(** C7: take any list of candidates in which the evaluation of one
    candidate returns an error (the candidates before it being looked up,
    as the candidates of the pipeline are).  [llmCheck] panics on the list
    if it does on the candidates before or on those after; otherwise it
    returns what it returns for the candidates before, then that candidate
    exactly when its Stage-2 score is at least 60, then what it returns
    for the candidates after, together with the last error met.  The
    accepted candidate keeps its IDs, score, flags and confidence, is
    marked as passed and carries the fallback note; a candidate scored
    exactly 60 is accepted; a candidate scored below 60 is dropped, so
    that no candidate of the result has its pair when the pairs of the
    list are distinct; and the call reports an error. *)
Theorem C7_error_fallback_at_least_60 :
  forall (llm : LLMClient) (before : list MatchCandidate.t)
         (c : MatchCandidate.t) (after : list MatchCandidate.t)
         (users : list User.t) (products : list LoanProduct.t)
         (user : User.t) (product : LoanProduct.t) (err : error),
    Forall (Assessor.resolves users products) before ->
    buildUserMap users !! MatchCandidate.UserID c = Some user ->
    buildProductMap products !! MatchCandidate.ProductID c = Some product ->
    EvaluateMatch llm (length before) user product = Returns (Err err) ->
    let accepted :=
      MatchCandidate.mk (MatchCandidate.UserID c) (MatchCandidate.ProductID c)
        (MatchCandidate.EligibilityScore c) (MatchCandidate.IncomeEligible c)
        (MatchCandidate.CreditScoreEligible c) (MatchCandidate.AgeEligible c)
        (MatchCandidate.EmploymentEligible c) true
        "LLM check skipped due to API error, high score approved"
        (MatchCandidate.LLMConfidence c) in
    llmCheck llm (before ++ c :: after) users products
    = match llmCheck llm before users products with
      | Panics p => Panics p
      | Returns (passedBefore, _) =>
          match llmCheck (Assessor.later llm (S (length before))) after users
                  products with
          | Panics p => Panics p
          | Returns (passedAfter, errAfter) =>
              Returns
                (passedBefore
                 ++ (if (MatchCandidate.EligibilityScore c
                         >=? F64.of_int 60)%f64
                     then [accepted] else [])
                 ++ passedAfter,
                 Some match errAfter with
                      | Some errLater => errLater
                      | None => err
                      end)
          end
      end
    /\ (forall result,
          llmCheck llm (before ++ c :: after) users products = Returns result ->
          ((MatchCandidate.EligibilityScore c >=? F64.of_int 60)%f64 = true ->
           In accepted (fst result))
          /\ ((MatchCandidate.EligibilityScore c ==? F64.of_int 60)%f64 = true ->
              In accepted (fst result))
          /\ ((MatchCandidate.EligibilityScore c >=? F64.of_int 60)%f64
              = false ->
              NoDup (map pairOf (before ++ c :: after)) ->
              forall c', In c' (fst result) -> pairOf c' <> pairOf c)
          /\ snd result <> None).
Proof.
  intros llm before c after users products user product err Hres Hu Hp Herr.
  cbn zeta.
  pose proof (llmCheck_around_error
                (fun c => (MatchCandidate.EligibilityScore c
                           >=? F64.of_int 60)%f64)
                (fun _ => eq_refl) llm before c after users products user
                product err Hres Hu Hp Herr) as Hrun.
  unfold Assessor.assessed in Hrun. lazy beta in Hrun.
  split; [exact Hrun|].
  intros result Hresult. rewrite Hrun in Hresult. clear Hrun.
  destruct (llmCheck llm before users products)
    as [[passedBefore errBefore]|p] eqn:Hbefore; [|discriminate Hresult].
  destruct (llmCheck (Assessor.later llm (S (length before))) after users
              products) as [[passedAfter errAfter]|p] eqn:Hafter;
    [|discriminate Hresult].
  apply Returns_inj in Hresult. subst result. cbn [fst snd].
  assert (Hin : (MatchCandidate.EligibilityScore c >=? F64.of_int 60)%f64
                = true ->
                In (MatchCandidate.mk (MatchCandidate.UserID c)
                      (MatchCandidate.ProductID c)
                      (MatchCandidate.EligibilityScore c)
                      (MatchCandidate.IncomeEligible c)
                      (MatchCandidate.CreditScoreEligible c)
                      (MatchCandidate.AgeEligible c)
                      (MatchCandidate.EmploymentEligible c) true
                      "LLM check skipped due to API error, high score approved"
                      (MatchCandidate.LLMConfidence c))
                  (passedBefore
                   ++ (if (MatchCandidate.EligibilityScore c
                           >=? F64.of_int 60)%f64
                       then [MatchCandidate.mk (MatchCandidate.UserID c)
                               (MatchCandidate.ProductID c)
                               (MatchCandidate.EligibilityScore c)
                               (MatchCandidate.IncomeEligible c)
                               (MatchCandidate.CreditScoreEligible c)
                               (MatchCandidate.AgeEligible c)
                               (MatchCandidate.EmploymentEligible c) true
                               "LLM check skipped due to API error, high score approved"
                               (MatchCandidate.LLMConfidence c)]
                       else [])
                   ++ passedAfter)).
  { intros ->. apply in_or_app. right. left. reflexivity. }
  split; [exact Hin|].
  split; [intros Heq; apply Hin, eqb_geb, Heq|]. split.
  - intros -> Hdistinct c' Hc' Hpair. cbn [app] in Hc'.
    rewrite map_app in Hdistinct. cbn [map] in Hdistinct.
    apply NoDup_app in Hdistinct as (_ & Hfront & Hback).
    apply NoDup_cons in Hback as [Hback _].
    apply in_app_or in Hc' as [Hc'|Hc'].
    + apply (Hfront (pairOf c')).
      * destruct (llmCheck_pairs_sublist llm before users products _ Hbefore)
          as [Hsub _].
        eapply elem_of_sublist; [|exact Hsub].
        apply list_elem_of_In, in_map, Hc'.
      * rewrite Hpair. left.
    + apply Hback. rewrite <- Hpair.
      destruct (llmCheck_pairs_sublist
                  (Assessor.later llm (S (length before))) after users
                  products _ Hafter) as [Hsub _].
      eapply elem_of_sublist; [|exact Hsub].
      apply list_elem_of_In, in_map, Hc'.
  - discriminate.
Qed.

(** The theorem at a candidate scored exactly 60 while the service is down:
    the candidate is accepted. *)
Lemma C7_error_fallback_witness :
  llmCheck Assessor.unreachable [Assessor.borderline] [Samples.alice]
    [Samples.hdfc]
  = Returns
      ([MatchCandidate.mk 1 1 (F64.of_int 60) true true true true true
          "LLM check skipped due to API error, high score approved" F64.zero],
       Some "API request failed: connection refused")
  /\ In (MatchCandidate.mk 1 1 (F64.of_int 60) true true true true true
           "LLM check skipped due to API error, high score approved"
           F64.zero)
       (fst ([MatchCandidate.mk 1 1 (F64.of_int 60) true true true true true
                "LLM check skipped due to API error, high score approved"
                F64.zero],
             Some "API request failed: connection refused"%string)).
Proof.
  destruct (C7_error_fallback_at_least_60 Assessor.unreachable []
              Assessor.borderline [] [Samples.alice] [Samples.hdfc]
              Samples.alice Samples.hdfc
              "API request failed: connection refused")
    as (Hrun & Hreturned).
  - constructor.
  - vm_compute. reflexivity.
  - vm_compute. reflexivity.
  - vm_compute. reflexivity.
  - cbn [app length] in Hrun, Hreturned.
    split; [rewrite Hrun; vm_compute; reflexivity|].
    match goal with
    | |- In _ (fst ?result) =>
        destruct (Hreturned result) as (_ & Hsixty & _);
          [vm_compute; reflexivity|]
    end.
    apply Hsixty. vm_compute. reflexivity.
Defined.

(** A candidate scored exactly 60 does not exceed 60, yet it is accepted. *)
Lemma C7_counterexample : ~ Assessor.claim_as_stated.
Proof.
  intros Hclaim.
  pose proof (Hclaim Assessor.unreachable [] Assessor.borderline []
                [Samples.alice] [Samples.hdfc] Samples.alice Samples.hdfc
                "API request failed: connection refused") as Hrule.
  cbn [app length] in Hrule.
  assert (Hcode :
    llmCheck Assessor.unreachable [Assessor.borderline] [Samples.alice]
      [Samples.hdfc]
    = Returns ([], Some "API request failed: connection refused"%string)).
  { rewrite Hrule; [vm_compute; reflexivity | constructor
                   | vm_compute; reflexivity | vm_compute; reflexivity
                   | vm_compute; reflexivity]. }
  vm_compute in Hcode. discriminate Hcode.
Qed.

(** *** No API key *)

Lemma EvaluateMatch_keyless (llm : LLMClient) (evaluation : nat)
    (user : User.t) (product : LoanProduct.t) :
  apiKey llm = "" ->
  EvaluateMatch llm evaluation user product = Returns (Ok noAPIKeyResponse).
Proof. unfold EvaluateMatch. intros ->. reflexivity. Qed.

Lemma llmCheckLoop_keyless (llm : LLMClient) (userMap : gmap Z User.t)
    (productMap : gmap Z LoanProduct.t) :
  apiKey llm = "" ->
  forall (candidates passed : list MatchCandidate.t)
         (lastErr : option error) (evaluation : nat),
    Forall (fun c => is_Some (userMap !! MatchCandidate.UserID c)
                     /\ is_Some (productMap !! MatchCandidate.ProductID c))
      candidates ->
    llmCheckLoop llm userMap productMap candidates passed lastErr evaluation
    = Returns (passed ++ map Assessor.keyless candidates, lastErr).
Proof.
  intros Hkey candidates.
  induction candidates as [|c rest IH]; intros passed lastErr evaluation Hres.
  - cbn [llmCheckLoop map]. rewrite app_nil_r. reflexivity.
  - apply Forall_cons_1 in Hres as [[[user Hu] [product Hp]] Hres].
    cbn [llmCheckLoop]. rewrite Hu, Hp, (EvaluateMatch_keyless _ _ _ _ Hkey).
    cbn [Qualified noAPIKeyResponse Reasoning Confidence].
    rewrite IH by exact Hres.
    cbn [map]. rewrite <- app_assoc. reflexivity.
Qed.

Lemma logicFilterStep_resolves (users : list User.t)
    (products : list LoanProduct.t) (filtered : list MatchCandidate.t)
    (c : MatchCandidate.t) :
  Forall (Assessor.resolves users products) filtered ->
  Forall (Assessor.resolves users products)
    (logicFilterStep (buildUserMap users) (buildProductMap products)
       filtered c).
Proof.
  intros Hall. unfold logicFilterStep.
  destruct (buildUserMap users !! MatchCandidate.UserID c) as [user|] eqn:Hu;
    [|exact Hall].
  destruct (buildProductMap products !! MatchCandidate.ProductID c)
    as [product|] eqn:Hp; [|exact Hall].
  destruct (negb _); [exact Hall|].
  apply Forall_app. split; [exact Hall|].
  constructor; [|constructor].
  unfold Assessor.resolves. cbn. rewrite Hu, Hp. split; eexists; reflexivity.
Qed.

Lemma logicFilter_resolves (candidates : list MatchCandidate.t)
    (users : list User.t) (products : list LoanProduct.t) :
  Forall (Assessor.resolves users products)
    (logicFilter candidates users products).
Proof.
  unfold logicFilter.
  assert (Hgen : forall filtered,
             Forall (Assessor.resolves users products) filtered ->
             Forall (Assessor.resolves users products)
               (fold_left
                  (logicFilterStep (buildUserMap users)
                     (buildProductMap products)) candidates filtered)).
  { induction candidates as [|c rest IH]; intros filtered Hall;
      cbn [fold_left]; [exact Hall|].
    apply IH, logicFilterStep_resolves, Hall. }
  apply Hgen. constructor.
Qed.

Lemma selectTopCandidates_In (c : MatchCandidate.t)
    (candidates : list MatchCandidate.t) (limit : nat) :
  In c (selectTopCandidates candidates limit) -> In c candidates.
Proof.
  unfold selectTopCandidates.
  destruct (_ <=? _)%nat; [tauto|].
  intros Hin. apply firstn_In in Hin.
  destruct (passes_perm_stable (seq 0 (length candidates - 1)) candidates)
    as [Hperm _].
  eapply Permutation_in; [symmetry; exact Hperm | exact Hin].
Qed.

Lemma pipeline_candidates_resolve (candidates : list MatchCandidate.t)
    (users : list User.t) (products : list LoanProduct.t) :
  Forall (Assessor.resolves users products)
    (selectTopCandidates (logicFilter candidates users products) 100).
Proof.
  apply List.Forall_forall. intros c Hc.
  apply selectTopCandidates_In in Hc.
  pose proof (logicFilter_resolves candidates users products) as Hres.
  rewrite List.Forall_forall in Hres. apply Hres, Hc.
Qed.

(** C8: without an API key [EvaluateMatch] answers every call with
    "qualified", confidence 0.7 and the note that the check was skipped,
    and never with an error or a panic.  [llmCheck] then returns, in their
    order and with no error, every candidate whose IDs it can look up: one
    result candidate for each, with the candidate's IDs, score and four
    flags, marked as passed, with confidence 0.7 and that note; so the
    result is as long as the input and is not empty unless the input is.
    The candidates the pipeline hands it (the top candidates of
    [logicFilter]) can always be looked up. *)
Theorem C8_no_api_key_accepts_all :
  forall llm : LLMClient,
    apiKey llm = "" ->
    (forall evaluation user product,
       EvaluateMatch llm evaluation user product
       = Returns
           (Ok (mkLLMResponse true (F64.lit 7 10)
                  "LLM check skipped - no API key configured" [])))
    /\ (forall candidates users products,
          Forall (Assessor.resolves users products) candidates ->
          llmCheck llm candidates users products
          = Returns
              (map (fun c =>
                      MatchCandidate.mk (MatchCandidate.UserID c)
                        (MatchCandidate.ProductID c)
                        (MatchCandidate.EligibilityScore c)
                        (MatchCandidate.IncomeEligible c)
                        (MatchCandidate.CreditScoreEligible c)
                        (MatchCandidate.AgeEligible c)
                        (MatchCandidate.EmploymentEligible c) true
                        "LLM check skipped - no API key configured"
                        (F64.lit 7 10))
                 candidates,
               None)
          /\ exists accepted,
               llmCheck llm candidates users products
               = Returns (accepted, None)
               /\ Forall2
                    (fun c c' =>
                       MatchCandidate.UserID c' = MatchCandidate.UserID c
                       /\ MatchCandidate.ProductID c'
                          = MatchCandidate.ProductID c
                       /\ MatchCandidate.EligibilityScore c'
                          = MatchCandidate.EligibilityScore c
                       /\ MatchCandidate.LLMCheckPassed c' = true
                       /\ MatchCandidate.LLMConfidence c' = F64.lit 7 10
                       /\ MatchCandidate.LLMReasoning c'
                          = "LLM check skipped - no API key configured"%string)
                    candidates accepted
               /\ length accepted = length candidates
               /\ (candidates <> [] -> accepted <> []))
    /\ (forall candidates users products,
          llmCheck llm
            (selectTopCandidates (logicFilter candidates users products) 100)
            users products
          = Returns
              (map (fun c =>
                      MatchCandidate.mk (MatchCandidate.UserID c)
                        (MatchCandidate.ProductID c)
                        (MatchCandidate.EligibilityScore c)
                        (MatchCandidate.IncomeEligible c)
                        (MatchCandidate.CreditScoreEligible c)
                        (MatchCandidate.AgeEligible c)
                        (MatchCandidate.EmploymentEligible c) true
                        "LLM check skipped - no API key configured"
                        (F64.lit 7 10))
                 (selectTopCandidates (logicFilter candidates users products)
                    100),
               None)).
Proof.
  intros llm Hkey.
  assert (Hall : forall candidates users products,
             Forall (Assessor.resolves users products) candidates ->
             llmCheck llm candidates users products
             = Returns
                 (map (fun c =>
                         Assessor.assessed c true
                           "LLM check skipped - no API key configured"
                           (F64.lit 7 10)) candidates, None)).
  { intros candidates users products Hres. unfold llmCheck.
    rewrite llmCheckLoop_keyless; [|exact Hkey | exact Hres].
    reflexivity. }
  unfold Assessor.assessed in Hall.
  split; [|split].
  - intros evaluation user product. apply EvaluateMatch_keyless, Hkey.
  - intros candidates users products Hres.
    split; [apply Hall, Hres|].
    eexists. split; [apply Hall, Hres|]. split; [|split].
    + clear Hres. induction candidates as [|c rest IH]; cbn [map];
        constructor; [repeat split | exact IH].
    + apply length_map.
    + destruct candidates; [congruence | discriminate].
  - intros candidates users products.
    apply Hall, pipeline_candidates_resolve.
Qed.

(** The theorem at a client without a key whose service is down: the
    three Stage-2 survivors of the sample rows all come back, with
    confidence 0.7 and the note. *)
Lemma C8_no_api_key_witness :
  exists accepted,
    llmCheck Assessor.offline
      (selectTopCandidates
         (logicFilter
            (sqlPrefilter [Samples.alice; Samples.student]
               [Samples.hdfc; Samples.openToAll])
            [Samples.alice; Samples.student]
            [Samples.hdfc; Samples.openToAll])
         100)
      [Samples.alice; Samples.student]
      [Samples.hdfc; Samples.openToAll]
    = Returns (accepted, None)
    /\ map (fun c' =>
              (MatchCandidate.UserID c', MatchCandidate.ProductID c',
               MatchCandidate.LLMCheckPassed c',
               MatchCandidate.LLMConfidence c',
               MatchCandidate.LLMReasoning c'))
         accepted
       = [(1, 1, true, F64.lit 7 10,
           "LLM check skipped - no API key configured"%string);
          (1, 2, true, F64.lit 7 10,
           "LLM check skipped - no API key configured"%string);
          (2, 2, true, F64.lit 7 10,
           "LLM check skipped - no API key configured"%string)].
Proof.
  destruct (C8_no_api_key_accepts_all Assessor.offline eq_refl)
    as (_ & _ & Hpipeline).
  eexists. split; [apply Hpipeline|]. vm_compute. reflexivity.
Defined.

(* ===================================================================== *)
(** ** Match records *)
(* ===================================================================== *)

Lemma createMatches_fill (candidates : list MatchCandidate.t) :
  forall written : list (option MatchCreate.t),
    fold_left
      (fun matches (ic : nat * MatchCandidate.t) =>
         <[fst ic := Some (matchOf (snd ic))]> matches)
      (combine (seq (length written) (length candidates)) candidates)
      (written ++ replicate (length candidates) None)
    = written ++ map (fun c => Some (matchOf c)) candidates.
Proof.
  induction candidates as [|c rest IH]; intros written; [reflexivity|].
  cbn [length seq combine fold_left fst snd replicate map].
  replace (length written) with (length written + 0)%nat at 2 by lia.
  rewrite insert_app_r. cbn [insert list_insert].
  specialize (IH (written ++ [Some (matchOf c)])).
  rewrite length_app, <- !app_assoc in IH. cbn [length app] in IH.
  rewrite Nat.add_1_r in IH. exact IH.
Qed.

Lemma createMatches_map (candidates : list MatchCandidate.t) :
  createMatches candidates = map (fun c => Some (matchOf c)) candidates.
Proof. apply (createMatches_fill candidates []). Qed.

(** C10: [createMatches] fills every slot: slot [i] holds the record of
    candidate [i], so there is exactly one match per candidate, with the
    candidate's IDs, status "eligible" and source "llm_check"; the record
    of a candidate accepted by the error fallback or without an API key
    carries the same status and source. *)
Theorem C10_one_eligible_llm_check_match_per_candidate :
  forall candidates : list MatchCandidate.t,
    createMatches candidates = map (fun c => Some (matchOf c)) candidates
    /\ length (createMatches candidates) = length candidates
    /\ Forall2
         (fun c slot =>
            exists m,
              slot = Some m
              /\ MatchCreate.UserID m = MatchCandidate.UserID c
              /\ MatchCreate.ProductID m = MatchCandidate.ProductID c
              /\ MatchCreate.Status m = MatchStatusEligible
              /\ MatchCreate.MatchSource m = MatchSourceLLMCheck
              /\ MatchStatus_string (MatchCreate.Status m) = "eligible"
              /\ MatchSource_string (MatchCreate.MatchSource m)
                 = "llm_check")
         candidates (createMatches candidates)
    /\ (forall c,
          MatchCreate.MatchSource (matchOf (Assessor.fallback c))
          = MatchSourceLLMCheck
          /\ MatchCreate.MatchSource (matchOf (Assessor.keyless c))
             = MatchSourceLLMCheck
          /\ MatchCreate.Status (matchOf (Assessor.fallback c))
             = MatchStatusEligible
          /\ MatchCreate.Status (matchOf (Assessor.keyless c))
             = MatchStatusEligible).
Proof.
  intros candidates. rewrite createMatches_map.
  split; [reflexivity|]. split; [apply length_map|]. split.
  - induction candidates as [|c rest IH]; cbn [map]; constructor;
      [|exact IH].
    exists (matchOf c). repeat split.
  - intros c. repeat split.
Qed.

(* ===================================================================== *)
(** ** The orchestrator *)
(* ===================================================================== *)

Lemma BulkInsert_error (d : database.DB)
    (matches : list (option MatchCreate.t)) :
  snd (database.BulkInsert d matches)
  = match database.txBegin (database.tx d),
          database.txCommit (database.tx d) with
    | Some err, _ => Some (wrapError "failed to begin transaction" err)
    | None, Some err => Some (wrapError "failed to commit transaction" err)
    | None, None => None
    end.
Proof.
  unfold database.BulkInsert, database.WithTransaction.
  destruct (database.txBegin (database.tx d)); [reflexivity|].
  destruct (fold_left _ matches (0, 0)) as [inserted failed].
  destruct (database.txCommit (database.tx d)); reflexivity.
Qed.

(** C9: a batch run that cannot read the users or the active products
    returns no summary, only the wrapped error.  When both are read, the
    run panics if Stage 3 does (an evaluation whose reply lacks the
    expected shape) and returns nothing; otherwise, when the transaction
    of the persist step cannot begin or commit, it returns no summary,
    only the wrapped error; and otherwise it returns the summary and no
    error: the numbers of users and products read, their product, the
    number of candidates leaving each of the three stages, the number of
    matches built, the elapsed time, and an error list that holds the
    last error Stage 3 met, or nothing if it met none.  So a run that
    returns never returns both a summary and an error, and never
    neither. *)
Theorem C9_fatal_error_returns_no_summary :
  forall (m : MatcherService) (userIDs : list Z) (elapsed : Z),
    (forall err,
       database.GetByIDs (db m) userIDs = Err err ->
       ProcessNewUsers m userIDs elapsed
       = Returns (None, Some (wrapError "failed to get users" err)))
    /\ (forall users err,
          database.GetByIDs (db m) userIDs = Ok users ->
          database.GetAllActive (db m) = Err err ->
          ProcessNewUsers m userIDs elapsed
          = Returns (None, Some (wrapError "failed to get products" err)))
    /\ (forall users products,
          database.GetByIDs (db m) userIDs = Ok users ->
          database.GetAllActive (db m) = Ok products ->
          let stage1 := sqlPrefilter users products in
          let stage2 := logicFilter stage1 users products in
          ProcessNewUsers m userIDs elapsed
          = match llmCheck (llmClient m) (selectTopCandidates stage2 100)
                    users products with
            | Panics p => Panics p
            | Returns (stage3, stage3Err) =>
                match database.txBegin (database.tx (db m)),
                      database.txCommit (database.tx (db m)) with
                | Some err, _ =>
                    Returns
                      (None,
                       Some (wrapError "failed to save matches"
                               (wrapError "failed to begin transaction" err)))
                | None, Some err =>
                    Returns
                      (None,
                       Some (wrapError "failed to save matches"
                               (wrapError "failed to commit transaction" err)))
                | None, None =>
                    Returns
                      (Some
                         (mkMatchingResult (len users) (len products)
                            (Int64.mul (len users) (len products))
                            (len stage1) (len stage2) (len stage3)
                            (len stage3) elapsed
                            match stage3Err with
                            | Some err => [err]
                            | None => []
                            end),
                       None)
                end
            end)
    /\ (forall summary err,
          ProcessNewUsers m userIDs elapsed = Returns (Some summary, err) ->
          err = None /\ Orchestrator.fatalError m userIDs = None)
    /\ (forall summary err,
          ProcessNewUsers m userIDs elapsed = Returns (summary, Some err) ->
          summary = None /\ Orchestrator.fatalError m userIDs = Some err)
    /\ ProcessNewUsers m userIDs elapsed <> Returns (None, None).
Proof.
  intros m userIDs elapsed.
  unfold Orchestrator.fatalError, ProcessNewUsers.
  destruct (database.GetByIDs (db m) userIDs) as [users|e1].
  2: { repeat split; try discriminate; congruence. }
  destruct (database.GetAllActive (db m)) as [products|e2].
  2: { repeat split; try discriminate; congruence. }
  destruct (llmCheck (llmClient m)
              (selectTopCandidates
                 (logicFilter (sqlPrefilter users products) users products)
                 100) users products) as [[finalCandidates llmErr]|p] eqn:Hllm.
  2: { split; [discriminate|]. split; [discriminate|]. split.
       - intros users' products' [= <-] [= <-]. cbn zeta. rewrite Hllm.
         reflexivity.
       - repeat split; discriminate. }
  pose proof (BulkInsert_error (db m) (createMatches finalCandidates)) as Hins.
  destruct (database.BulkInsert (db m) (createMatches finalCandidates))
    as [[inserted failed] insErr].
  cbn [snd] in Hins. subst insErr.
  split; [discriminate|]. split; [discriminate|].
  destruct (database.txBegin (database.tx (db m))) as [e3|].
  { split.
    - intros users' products' [= <-] [= <-]. cbn zeta. rewrite Hllm.
      reflexivity.
    - repeat split; try discriminate; congruence. }
  destruct (database.txCommit (database.tx (db m))) as [e4|].
  { split.
    - intros users' products' [= <-] [= <-]. cbn zeta. rewrite Hllm.
      reflexivity.
    - repeat split; try discriminate; congruence. }
  split.
  - intros users' products' [= <-] [= <-]. cbn zeta. rewrite Hllm.
    unfold len. rewrite createMatches_map, length_map. reflexivity.
  - repeat split; try discriminate; congruence.
Qed.

(** The theorem at a database that refuses the query for the users, at one
    that cannot commit, at a healthy one, at a healthy one whose reasoning
    service is down (the error of Stage 3 is then in the error list of the
    summary), and at a healthy one whose reasoning service replies without
    content (the run panics). *)
Lemma C9_fatal_error_witness :
  ProcessNewUsers Orchestrator.usersDown [1] 5
  = Returns
      (None,
       Some "failed to get users: failed to query users: connection refused")
  /\ ProcessNewUsers Orchestrator.commitDown [1] 5
     = Returns
         (None,
          Some
            "failed to save matches: failed to commit transaction: connection reset")
  /\ ProcessNewUsers Orchestrator.healthy [1] 5
     = Returns (Some (mkMatchingResult 1 1 1 1 1 1 1 5 []), None)
  /\ ProcessNewUsers Orchestrator.degraded [1] 5
     = Returns
         (Some
            (mkMatchingResult 1 1 1 1 1 1 1 5
               ["API request failed: connection refused"%string]),
          None)
  /\ ProcessNewUsers Orchestrator.derailed [1] 5 = Panics InterfaceConversion.
Proof.
  split; [|split; [|split; [|split]]].
  - destruct (C9_fatal_error_returns_no_summary Orchestrator.usersDown [1] 5)
      as (Hrun & _).
    rewrite (Hrun "failed to query users: connection refused"%string);
      reflexivity.
  - destruct (C9_fatal_error_returns_no_summary Orchestrator.commitDown [1] 5)
      as (_ & _ & Hrun & _).
    rewrite (Hrun [Samples.alice] [Samples.hdfc]);
      vm_compute; reflexivity.
  - destruct (C9_fatal_error_returns_no_summary Orchestrator.healthy [1] 5)
      as (_ & _ & Hrun & _).
    rewrite (Hrun [Samples.alice] [Samples.hdfc]);
      vm_compute; reflexivity.
  - destruct (C9_fatal_error_returns_no_summary Orchestrator.degraded [1] 5)
      as (_ & _ & Hrun & _).
    rewrite (Hrun [Samples.alice] [Samples.hdfc]);
      vm_compute; reflexivity.
  - destruct (C9_fatal_error_returns_no_summary Orchestrator.derailed [1] 5)
      as (_ & _ & Hrun & _).
    rewrite (Hrun [Samples.alice] [Samples.hdfc]);
      vm_compute; reflexivity.
Defined.

(** A run that cannot read its users returns the error and no summary. *)
Lemma C9_counterexample : ~ Orchestrator.claim_as_stated.
Proof.
  intros Hclaim.
  apply (Hclaim Orchestrator.usersDown [1] 5 None
           "failed to get users: failed to query users: connection refused");
    reflexivity.
Qed.

(* ===================================================================== *)
(** ** The lookup maps of Stages 2 and 3 *)
(* ===================================================================== *)

Lemma find_snoc {A : Type} (f : A -> bool) (l : list A) (x : A) :
  List.find f (l ++ [x])
  = match List.find f l with
    | Some y => Some y
    | None => if f x then Some x else None
    end.
Proof.
  induction l as [|y l IH]; cbn [app List.find]; [reflexivity|].
  destruct (f y); [reflexivity | exact IH].
Qed.

Lemma fold_insert_lookup {V : Type} (key : V -> Z) (rows : list V) :
  forall (m : gmap Z V) (id : Z),
    fold_left (fun acc v => <[key v := v]> acc) rows m !! id
    = match List.find (fun v => key v =? id) (rev rows) with
      | Some v => Some v
      | None => m !! id
      end.
Proof.
  induction rows as [|v rows IH]; intros m id; cbn [fold_left rev];
    [reflexivity|].
  rewrite IH, find_snoc.
  destruct (List.find _ (rev rows)); [reflexivity|].
  destruct (Z.eqb_spec (key v) id) as [->|Hne].
  - apply lookup_insert_eq.
  - apply lookup_insert_ne, Hne.
Qed.

Lemma find_rev_NoDup {V : Type} (key : V -> Z) (rows : list V) (v : V) :
  NoDup (map key rows) -> In v rows ->
  List.find (fun w => key w =? key v) (rev rows) = Some v.
Proof.
  induction rows as [|w rows IH]; intros Hnd Hin; [destruct Hin|].
  cbn [rev map] in *. rewrite find_snoc.
  apply NoDup_cons in Hnd as [Hw Hnd].
  destruct Hin as [->|Hin].
  - destruct (List.find _ (rev rows)) as [y|] eqn:Hy.
    + exfalso. apply find_some in Hy as [Hy Hk].
      apply Z.eqb_eq in Hk. apply Hw. rewrite <- Hk.
      apply list_elem_of_In, in_map, in_rev, Hy.
    + rewrite Z.eqb_refl. reflexivity.
  - rewrite (IH Hnd Hin). reflexivity.
Qed.

Lemma buildUserMap_find (users : list User.t) (id : Z) :
  buildUserMap users !! id = List.find (fun u => User.ID u =? id) (rev users).
Proof.
  unfold buildUserMap. rewrite fold_insert_lookup.
  destruct (List.find _ _); [reflexivity | apply lookup_empty].
Qed.

Lemma buildProductMap_find (products : list LoanProduct.t) (id : Z) :
  buildProductMap products !! id
  = List.find (fun p => LoanProduct.ID p =? id) (rev products).
Proof.
  unfold buildProductMap. rewrite fold_insert_lookup.
  destruct (List.find _ _); [reflexivity | apply lookup_empty].
Qed.

Lemma buildUserMap_found (users : list User.t) (u : User.t) :
  NoDup (map User.ID users) -> In u users ->
  buildUserMap users !! User.ID u = Some u.
Proof.
  intros Hnd Hin. rewrite buildUserMap_find.
  apply find_rev_NoDup; assumption.
Qed.

Lemma buildProductMap_found (products : list LoanProduct.t)
    (p : LoanProduct.t) :
  NoDup (map LoanProduct.ID products) -> In p products ->
  buildProductMap products !! LoanProduct.ID p = Some p.
Proof.
  intros Hnd Hin. rewrite buildProductMap_find.
  apply find_rev_NoDup; assumption.
Qed.

(** X1: a lookup in the map built from a list returns the last row of the
    list that carries the ID, and nothing when no row carries it; so every
    row that is found has the ID asked for and comes from the list, and
    when the IDs of the list are distinct every row of the list is found
    under its own ID.  The same holds for users and for products. *)
Theorem X1_lookup_maps_last_row_wins :
  forall (users : list User.t) (products : list LoanProduct.t) (id : Z),
    buildUserMap users !! id
    = List.find (fun u => User.ID u =? id) (rev users)
    /\ buildProductMap products !! id
       = List.find (fun p => LoanProduct.ID p =? id) (rev products)
    /\ (buildUserMap users !! id = None <-> ~ In id (map User.ID users))
    /\ (buildProductMap products !! id = None
        <-> ~ In id (map LoanProduct.ID products))
    /\ (forall u, buildUserMap users !! id = Some u ->
                  In u users /\ User.ID u = id)
    /\ (forall p, buildProductMap products !! id = Some p ->
                  In p products /\ LoanProduct.ID p = id)
    /\ (NoDup (map User.ID users) ->
        forall u, In u users -> buildUserMap users !! User.ID u = Some u)
    /\ (NoDup (map LoanProduct.ID products) ->
        forall p, In p products ->
                  buildProductMap products !! LoanProduct.ID p = Some p).
Proof.
  intros users products id.
  pose proof (buildUserMap_find users) as Hu.
  pose proof (buildProductMap_find products) as Hp.
  assert (Hnone : forall (V : Type) (key : V -> Z) (rows : list V),
             List.find (fun v => key v =? id) (rev rows) = None
             <-> ~ In id (map key rows)).
  { intros V key rows. split.
    - intros Hfind Hin. apply in_map_iff in Hin as (v & Hk & Hv).
      apply in_rev in Hv.
      pose proof (find_none _ _ Hfind v Hv) as Hne. cbn in Hne.
      apply Z.eqb_neq in Hne. congruence.
    - intros Hnot. destruct (List.find _ _) as [v|] eqn:Hfind;
        [|reflexivity].
      exfalso. apply find_some in Hfind as [Hv Hk]. apply Z.eqb_eq in Hk.
      apply Hnot. rewrite <- Hk. apply in_map, in_rev, Hv. }
  assert (Hsome : forall (V : Type) (key : V -> Z) (rows : list V) (v : V),
             List.find (fun w => key w =? id) (rev rows) = Some v ->
             In v rows /\ key v = id).
  { intros V key rows v Hfind. apply find_some in Hfind as [Hv Hk].
    split; [apply in_rev, Hv | apply Z.eqb_eq, Hk]. }
  rewrite Hu, Hp.
  split; [reflexivity|]. split; [reflexivity|].
  split; [apply Hnone|]. split; [apply Hnone|].
  split; [apply Hsome|]. split; [apply Hsome|]. split.
  - intros Hnd u Hin. apply buildUserMap_found; assumption.
  - intros Hnd p Hin. apply buildProductMap_found; assumption.
Qed.

(** The theorem at the sample users: Alice is found under her ID, and
    nobody under an ID that is not in the list. *)
Lemma X1_lookup_maps_witness :
  buildUserMap [Samples.alice; Samples.student] !! 1 = Some Samples.alice
  /\ buildUserMap [Samples.alice; Samples.student] !! 9 = None.
Proof.
  split.
  - destruct (X1_lookup_maps_last_row_wins
                [Samples.alice; Samples.student] [] 1)
      as (_ & _ & _ & _ & _ & _ & Hfound & _).
    apply (Hfound ltac:(apply NoDup_ListNoDup; vm_compute;
                        repeat constructor; simpl; intuition lia)
                  Samples.alice).
    left. reflexivity.
  - destruct (X1_lookup_maps_last_row_wins
                [Samples.alice; Samples.student] [] 9)
      as (_ & _ & Hnone & _).
    apply Hnone. vm_compute. intuition lia.
Defined.

(* ===================================================================== *)
(** ** Stage 2 as a whole *)
(* ===================================================================== *)

Lemma logicFilterStep_scoredSurvivor (userMap : gmap Z User.t)
    (productMap : gmap Z LoanProduct.t) (filtered : list MatchCandidate.t)
    (c : MatchCandidate.t) :
  logicFilterStep userMap productMap filtered c
  = filtered
    ++ match Pipeline.scoredSurvivor userMap productMap c with
       | Some c' => [c']
       | None => []
       end.
Proof.
  unfold logicFilterStep, Pipeline.scoredSurvivor.
  destruct (userMap !! _) as [user|]; [|symmetry; apply app_nil_r].
  destruct (productMap !! _) as [product|]; [|symmetry; apply app_nil_r].
  destruct (passesBusinessRules user product); cbn [negb];
    [reflexivity | symmetry; apply app_nil_r].
Qed.

Lemma logicFilter_omap (candidates : list MatchCandidate.t)
    (users : list User.t) (products : list LoanProduct.t) :
  logicFilter candidates users products
  = omap (Pipeline.scoredSurvivor (buildUserMap users)
            (buildProductMap products)) candidates.
Proof.
  unfold logicFilter.
  assert (Hgen : forall filtered,
    fold_left (logicFilterStep (buildUserMap users) (buildProductMap products))
      candidates filtered
    = filtered ++ omap (Pipeline.scoredSurvivor (buildUserMap users)
                          (buildProductMap products)) candidates).
  { induction candidates as [|c rest IH]; intros filtered;
      cbn [fold_left omap list_omap].
    - symmetry. apply app_nil_r.
    - rewrite IH, logicFilterStep_scoredSurvivor, <- app_assoc.
      destruct (Pipeline.scoredSurvivor _ _ c); reflexivity. }
  apply (Hgen []).
Qed.

Lemma scoredSurvivor_pair (userMap : gmap Z User.t)
    (productMap : gmap Z LoanProduct.t) (c c' : MatchCandidate.t) :
  Pipeline.scoredSurvivor userMap productMap c = Some c' ->
  pairOf c' = pairOf c.
Proof.
  unfold Pipeline.scoredSurvivor.
  destruct (userMap !! _) as [user|]; [|discriminate].
  destruct (productMap !! _) as [product|]; [|discriminate].
  destruct (passesBusinessRules user product); [|discriminate].
  intros [= <-]. reflexivity.
Qed.

Lemma omap_pairs_sublist (f : MatchCandidate.t -> option MatchCandidate.t)
    (l : list MatchCandidate.t) :
  (forall c c', f c = Some c' -> pairOf c' = pairOf c) ->
  sublist (map pairOf (omap f l)) (map pairOf l).
Proof.
  intros Hpair. induction l as [|c l IH]; cbn [omap list_omap map].
  - constructor.
  - destruct (f c) as [c'|] eqn:Hc; cbn [map].
    + rewrite (Hpair _ _ Hc). apply sublist_skip, IH.
    + apply sublist_cons, IH.
Qed.

(** X2: [logicFilter] keeps the order of its input and changes nothing but
    the score.  A candidate is in the output exactly when it is an input
    candidate whose user and product are found in the maps and pass
    [passesBusinessRules], with its IDs, flags and assessment fields as
    they were and, for its score, the score [calculateEligibilityScore]
    gives that user and product; the (user, product) pairs of the output
    are a subsequence of the pairs of the input, so the output is never
    longer than the input. *)
Theorem X2_logicFilter_keeps_order_sets_score :
  forall (candidates : list MatchCandidate.t) (users : list User.t)
         (products : list LoanProduct.t),
    (forall c',
       In c' (logicFilter candidates users products)
       <-> exists c user product,
             In c candidates
             /\ buildUserMap users !! MatchCandidate.UserID c = Some user
             /\ buildProductMap products !! MatchCandidate.ProductID c
                = Some product
             /\ passesBusinessRules user product = true
             /\ c' = MatchCandidate.mk (MatchCandidate.UserID c)
                       (MatchCandidate.ProductID c)
                       (calculateEligibilityScore user product)
                       (MatchCandidate.IncomeEligible c)
                       (MatchCandidate.CreditScoreEligible c)
                       (MatchCandidate.AgeEligible c)
                       (MatchCandidate.EmploymentEligible c)
                       (MatchCandidate.LLMCheckPassed c)
                       (MatchCandidate.LLMReasoning c)
                       (MatchCandidate.LLMConfidence c))
    /\ sublist (map pairOf (logicFilter candidates users products))
         (map pairOf candidates)
    /\ (length (logicFilter candidates users products)
        <= length candidates)%nat.
Proof.
  intros candidates users products. rewrite logicFilter_omap.
  assert (Hsub : sublist
            (map pairOf
               (omap (Pipeline.scoredSurvivor (buildUserMap users)
                        (buildProductMap products)) candidates))
            (map pairOf candidates)).
  { apply omap_pairs_sublist. intros c c'. apply scoredSurvivor_pair. }
  split; [|split; [exact Hsub|]].
  - intros c'. rewrite <- list_elem_of_In, list_elem_of_omap. split.
    + intros (c & Hc & Hkeep). apply list_elem_of_In in Hc.
      unfold Pipeline.scoredSurvivor in Hkeep.
      destruct (buildUserMap users !! _) as [user|] eqn:Hu; [|discriminate].
      destruct (buildProductMap products !! _) as [product|] eqn:Hp;
        [|discriminate].
      destruct (passesBusinessRules user product) eqn:Hpass; [|discriminate].
      injection Hkeep as <-. exists c, user, product.
      repeat split; assumption.
    + intros (c & user & product & Hc & Hu & Hp & Hpass & ->).
      exists c. split; [apply list_elem_of_In, Hc|].
      unfold Pipeline.scoredSurvivor. rewrite Hu, Hp, Hpass. reflexivity.
  - apply sublist_length in Hsub. rewrite !length_map in Hsub. exact Hsub.
Qed.

Lemma omap_stage2 (users : list User.t) (products : list LoanProduct.t)
    (rows : list (User.t * LoanProduct.t)) :
  (forall row, In row rows ->
     buildUserMap users !! User.ID (fst row) = Some (fst row)
     /\ buildProductMap products !! LoanProduct.ID (snd row)
        = Some (snd row)) ->
  omap (Pipeline.scoredSurvivor (buildUserMap users)
          (buildProductMap products))
    (map (fun row => candidateOf (fst row) (snd row))
       (List.filter (fun row => allFourFlags (fst row) (snd row)) rows))
  = map Pipeline.stage2Candidate
      (List.filter
         (fun row => allFourFlags (fst row) (snd row)
                     && passesBusinessRules (fst row) (snd row)) rows).
Proof.
  induction rows as [|row rows IH]; intros Hfound; [reflexivity|].
  cbn [List.filter].
  destruct (Hfound row (or_introl eq_refl)) as [Hu Hp].
  assert (IH' := IH (fun r Hr => Hfound r (or_intror Hr))).
  destruct (allFourFlags (fst row) (snd row)); cbn [andb]; [|exact IH'].
  cbn [map omap list_omap]. unfold Pipeline.scoredSurvivor at 1.
  cbn [candidateOf MatchCandidate.UserID MatchCandidate.ProductID].
  rewrite Hu, Hp.
  destruct (passesBusinessRules (fst row) (snd row)); cbn [map];
    [f_equal|]; exact IH'.
Qed.

Lemma stage2Candidate_survivor (row : User.t * LoanProduct.t) :
  allFourFlags (fst row) (snd row) = true ->
  Pipeline.stage2Candidate row = Pipeline.survivor row.
Proof.
  intros Hflags. unfold Pipeline.stage2Candidate.
  rewrite (Stage1_candidate_candidateOf _ _ Hflags). reflexivity.
Qed.

(** X3: when the users have distinct IDs and the products have distinct
    IDs, Stage 2 after Stage 1 returns, in cross-product order, exactly the
    pairs that pass the four tests of Stage 1 on their fields and
    [passesBusinessRules]: for each, the candidate with the two IDs, the
    score [calculateEligibilityScore] gives the pair, the four flags true
    and no assessment yet. *)
Theorem X3_stage2_after_stage1 :
  forall (users : list User.t) (products : list LoanProduct.t),
    NoDup (map User.ID users) -> NoDup (map LoanProduct.ID products) ->
    logicFilter (sqlPrefilter users products) users products
    = map (fun row =>
             MatchCandidate.mk (User.ID (fst row)) (LoanProduct.ID (snd row))
               (calculateEligibilityScore (fst row) (snd row))
               true true true true false "" F64.zero)
        (List.filter
           (fun row => Stage1.passes (fst row) (snd row)
                       && passesBusinessRules (fst row) (snd row))
           (list_prod users products)).
Proof.
  intros users products Hu Hp.
  rewrite logicFilter_omap, sqlPrefilter_filter.
  rewrite omap_stage2.
  - rewrite (filter_ext
               (fun row => Stage1.passes (fst row) (snd row)
                           && passesBusinessRules (fst row) (snd row))
               (fun row => allFourFlags (fst row) (snd row)
                           && passesBusinessRules (fst row) (snd row)))
      by (intros row; rewrite Stage1_passes_allFourFlags; reflexivity).
    apply map_ext_in. intros row Hin. apply filter_In in Hin as [_ Hkeep].
    apply andb_prop in Hkeep as [Hflags _].
    apply (stage2Candidate_survivor row Hflags).
  - intros [u p] Hrow.
    apply in_prod_iff in Hrow as [Hin_u Hin_p]. cbn [fst snd].
    split; [apply buildUserMap_found | apply buildProductMap_found];
      assumption.
Qed.

(** The theorem at three users and three products: eight of the nine pairs
    survive both stages, the pair of the student and the product for the
    employed and self-employed being the one that does not. *)
Lemma X3_stage2_after_stage1_witness :
  map pairOf
    (logicFilter (sqlPrefilter sampleUsers sampleProducts) sampleUsers
       sampleProducts)
  = [(1, 1); (1, 2); (1, 3); (2, 2); (2, 3); (3, 1); (3, 2); (3, 3)]
  /\ hd_error
       (logicFilter (sqlPrefilter sampleUsers sampleProducts) sampleUsers
          sampleProducts)
     = Some (MatchCandidate.mk 1 1
               (calculateEligibilityScore Samples.alice Samples.hdfc)
               true true true true false "" F64.zero).
Proof.
  rewrite X3_stage2_after_stage1
    by (apply NoDup_ListNoDup; vm_compute; repeat constructor; simpl;
        intuition lia).
  split; vm_compute; reflexivity.
Defined.

(* ===================================================================== *)
(** ** Stage 3 as a whole *)
(* ===================================================================== *)

(** Every evaluation of the client returns. *)
Lemma llmCheckLoop_returns (llm : LLMClient) (userMap : gmap Z User.t)
    (productMap : gmap Z LoanProduct.t) :
  (forall evaluation user product,
     exists reply, EvaluateMatch llm evaluation user product = Returns reply) ->
  forall (candidates passed : list MatchCandidate.t)
         (lastErr : option error) (evaluation : nat),
    exists result,
      llmCheckLoop llm userMap productMap candidates passed lastErr evaluation
      = Returns result.
Proof.
  intros Hreturns candidates.
  induction candidates as [|c rest IH]; intros passed lastErr evaluation.
  - eexists. reflexivity.
  - cbn [llmCheckLoop].
    destruct (userMap !! _) as [user|]; [|apply IH].
    destruct (productMap !! _) as [product|]; [|apply IH].
    destruct (Hreturns evaluation user product) as [[response|err] ->].
    + destruct (Qualified response); apply IH.
    + destruct (_ >=? _)%f64; apply IH.
Qed.

(** X4: [llmCheck] returns whenever every evaluation does.  Every
    candidate it returns is marked as passed and is one of the candidates
    it was given, with the same IDs, score and eligibility flags; the
    (user, product) pairs of the result are a subsequence of the pairs of
    the input, so candidates come back in the order they went in and the
    result is never longer than the input, whatever the service
    answers. *)
Theorem X4_llmCheck_returns_marked_input_candidates :
  forall (llm : LLMClient) (candidates : list MatchCandidate.t)
         (users : list User.t) (products : list LoanProduct.t),
    ((forall evaluation user product,
        exists reply,
          EvaluateMatch llm evaluation user product = Returns reply) ->
     exists result, llmCheck llm candidates users products = Returns result)
    /\ forall result,
         llmCheck llm candidates users products = Returns result ->
         Forall
           (fun c' =>
              MatchCandidate.LLMCheckPassed c' = true
              /\ exists c, In c candidates /\ Pipeline.sameUpToAssessment c c')
           (fst result)
         /\ sublist (map pairOf (fst result)) (map pairOf candidates)
         /\ (length (fst result) <= length candidates)%nat.
Proof.
  intros llm candidates users products. unfold llmCheck. split.
  - intros Hreturns. apply llmCheckLoop_returns, Hreturns.
  - intros result Hrun.
    destruct (llmCheckLoop_shape llm (buildUserMap users)
                (buildProductMap products) candidates [] None 0 result Hrun)
      as (out & -> & Hsub & Hall).
    cbn [app]. split; [exact Hall|]. split; [exact Hsub|].
    apply sublist_length in Hsub. rewrite !length_map in Hsub. exact Hsub.
Qed.

(** The theorem at a candidate scored exactly 60 while the service is
    down: the call returns one candidate, marked as passed. *)
Lemma X4_llmCheck_returns_witness :
  exists result,
    llmCheck Assessor.unreachable [Assessor.borderline] [Samples.alice]
      [Samples.hdfc] = Returns result
    /\ map pairOf (fst result) = [(1, 1)]
    /\ Forall (fun c' => MatchCandidate.LLMCheckPassed c' = true) (fst result).
Proof.
  destruct (X4_llmCheck_returns_marked_input_candidates Assessor.unreachable
              [Assessor.borderline] [Samples.alice] [Samples.hdfc])
    as [_ Hshape].
  eexists. split; [vm_compute; reflexivity|].
  split; [vm_compute; reflexivity|].
  match goal with
  | |- Forall _ (fst ?result) =>
      destruct (Hshape result) as (Hall & _); [vm_compute; reflexivity|]
  end.
  eapply Forall_impl; [exact Hall|]. intros c' [Hpassed _]. exact Hpassed.
Defined.

(* ===================================================================== *)
(** ** No pair twice *)
(* ===================================================================== *)

Lemma map_filter_sublist {A B : Type} (f : A -> B) (h : A -> bool)
    (l : list A) :
  sublist (map f (List.filter h l)) (map f l).
Proof.
  induction l as [|x l IH]; cbn [List.filter map]; [constructor|].
  destruct (h x); cbn [map]; [apply sublist_skip | apply sublist_cons];
    exact IH.
Qed.

Lemma NoDup_idPairs (users : list User.t) (products : list LoanProduct.t) :
  NoDup (map User.ID users) -> NoDup (map LoanProduct.ID products) ->
  NoDup (map idPair (list_prod users products)).
Proof.
  intros Hu Hp. induction users as [|u users IH]; [constructor|].
  cbn [list_prod map] in *. rewrite map_app, map_map.
  apply NoDup_cons in Hu as [Hfresh Hu].
  apply NoDup_app. split; [|split; [|apply IH, Hu]].
  - change (map (fun p => idPair (u, p)) products)
      with (map (fun p => (User.ID u, LoanProduct.ID p)) products).
    rewrite <- (map_map LoanProduct.ID (pair (User.ID u))).
    apply NoDup_fmap_2; [|exact Hp]. intros x y [= ->]. reflexivity.
  - intros key Hkey Hkey'.
    apply list_elem_of_In, in_map_iff in Hkey as (p & <- & _).
    apply list_elem_of_In, in_map_iff in Hkey' as ([u' p'] & Heq & Hin).
    apply in_prod_iff in Hin as [Hu' _].
    injection Heq as Hid _. apply Hfresh. rewrite <- Hid.
    apply list_elem_of_In, in_map, Hu'.
Qed.

Lemma map_pairOf_sqlPrefilter (users : list User.t)
    (products : list LoanProduct.t) :
  map pairOf (sqlPrefilter users products)
  = map idPair
      (List.filter (fun row => allFourFlags (fst row) (snd row))
         (list_prod users products)).
Proof. rewrite sqlPrefilter_filter, map_map. reflexivity. Qed.

Lemma selectTopCandidates_pairs_NoDup (candidates : list MatchCandidate.t)
    (limit : nat) :
  NoDup (map pairOf candidates) ->
  NoDup (map pairOf (selectTopCandidates candidates limit)).
Proof.
  intros Hnd. unfold selectTopCandidates.
  destruct (_ <=? _)%nat; [exact Hnd|].
  destruct (passes_perm_stable (seq 0 (length candidates - 1)) candidates)
    as [Hperm _].
  fold (bubbleSort candidates) in Hperm.
  eapply sublist_NoDup.
  - eapply NoDup_Permutation_proper; [|exact Hnd].
    symmetry. apply Permutation_map, Hperm.
  - apply (fmap_sublist pairOf), sublist_take.
Qed.

(** X5: when the users have distinct IDs and the products have distinct
    IDs, no (user, product) pair reaches the persist step twice: whatever
    the service answers, the candidates Stage 3 returns have pairwise
    distinct pairs, and two slots of the slice [createMatches] builds from
    them never hold records with the same user and product. *)
Theorem X5_pipeline_never_repeats_a_pair :
  forall (llm : LLMClient) (users : list User.t)
         (products : list LoanProduct.t)
         (result : list MatchCandidate.t * option error),
    NoDup (map User.ID users) -> NoDup (map LoanProduct.ID products) ->
    llmCheck llm
      (selectTopCandidates
         (logicFilter (sqlPrefilter users products) users products) 100)
      users products = Returns result ->
    NoDup (map pairOf (fst result))
    /\ (forall (i j : nat) (mi mj : MatchCreate.t),
          createMatches (fst result) !! i = Some (Some mi) ->
          createMatches (fst result) !! j = Some (Some mj) ->
          matchKey mi = matchKey mj -> i = j).
Proof.
  intros llm users products result Hu Hp Hrun.
  assert (Hnd : NoDup (map pairOf (fst result))).
  { destruct (llmCheck_pairs_sublist llm
                (selectTopCandidates
                   (logicFilter (sqlPrefilter users products) users products)
                   100) users products result Hrun) as [Hsub _].
    eapply sublist_NoDup; [|exact Hsub].
    apply selectTopCandidates_pairs_NoDup.
    rewrite logicFilter_omap.
    eapply sublist_NoDup;
      [|apply omap_pairs_sublist; intros c c'; apply scoredSurvivor_pair].
    rewrite map_pairOf_sqlPrefilter.
    eapply sublist_NoDup; [|apply map_filter_sublist].
    apply NoDup_idPairs; assumption. }
  split; [exact Hnd|].
  intros i j mi mj Hi Hj Hkey.
  rewrite createMatches_map in Hi, Hj.
  rewrite list_lookup_fmap in Hi, Hj.
  destruct (_ !! i) as [ci|] eqn:Hci; [|discriminate].
  destruct (_ !! j) as [cj|] eqn:Hcj; [|discriminate].
  cbn in Hi, Hj. injection Hi as <-. injection Hj as <-.
  eapply (NoDup_lookup _ i j (pairOf ci)); [exact Hnd | |].
  - rewrite list_lookup_fmap, Hci. reflexivity.
  - rewrite list_lookup_fmap, Hcj. cbn. f_equal. symmetry. exact Hkey.
Qed.

(** The theorem at the sample rows with the service down. *)
Lemma X5_pipeline_never_repeats_witness :
  exists result,
    llmCheck Assessor.unreachable
      (selectTopCandidates
         (logicFilter (sqlPrefilter sampleUsers sampleProducts)
            sampleUsers sampleProducts) 100)
      sampleUsers sampleProducts = Returns result
    /\ NoDup (map pairOf (fst result)).
Proof.
  eexists. split; [vm_compute; reflexivity|].
  match goal with
  | |- NoDup (map pairOf (fst ?result)) =>
      apply (X5_pipeline_never_repeats_a_pair Assessor.unreachable
               sampleUsers sampleProducts result)
  end;
    [apply NoDup_ListNoDup; vm_compute; repeat constructor; simpl;
       intuition lia
    |apply NoDup_ListNoDup; vm_compute; repeat constructor; simpl;
       intuition lia
    |vm_compute; reflexivity].
Defined.

(* ===================================================================== *)
(** ** The counts of the summary *)
(* ===================================================================== *)

Lemma selectTopCandidates_length (candidates : list MatchCandidate.t)
    (limit : nat) :
  length (selectTopCandidates candidates limit)
  = Nat.min limit (length candidates).
Proof.
  unfold selectTopCandidates.
  destruct (Nat.leb_spec (length candidates) limit) as [Hle|Hgt]; [lia|].
  destruct (passes_perm_stable (seq 0 (length candidates - 1)) candidates)
    as [Hperm _].
  fold (bubbleSort candidates) in Hperm.
  rewrite length_firstn, <- (Permutation_length Hperm). reflexivity.
Qed.

Lemma sqlPrefilter_length (users : list User.t)
    (products : list LoanProduct.t) :
  (length (sqlPrefilter users products)
   <= length users * length products)%nat.
Proof.
  rewrite sqlPrefilter_filter, length_map, <- length_prod.
  apply filter_length_le.
Qed.

Lemma logicFilter_length (candidates : list MatchCandidate.t)
    (users : list User.t) (products : list LoanProduct.t) :
  (length (logicFilter candidates users products) <= length candidates)%nat.
Proof.
  rewrite logicFilter_omap.
  pose proof (omap_pairs_sublist
                (Pipeline.scoredSurvivor (buildUserMap users)
                   (buildProductMap products)) candidates
                (fun c c' => scoredSurvivor_pair _ _ c c')) as Hsub.
  apply sublist_length in Hsub. rewrite !length_map in Hsub. exact Hsub.
Qed.

(** X6: in every summary [ProcessNewUsers] returns the counts shrink from
    stage to stage: the Stage-1 count is at most users times products, the
    Stage-2 count at most the Stage-1 count, the Stage-3 count at most the
    Stage-2 count and at most 100, and the number of final matches is the
    Stage-3 count; the error list holds at most one error (the last one
    Stage 3 met) and the processing time is the elapsed time. *)
Theorem X6_summary_counts_shrink :
  forall (m : MatcherService) (userIDs : list Z) (elapsed : Z)
         (summary : MatchingResult) (err : option error),
    ProcessNewUsers m userIDs elapsed = Returns (Some summary, err) ->
    0 <= SQLPrefilterPassed summary
         <= TotalUsers summary * TotalProducts summary
    /\ 0 <= LogicFilterPassed summary <= SQLPrefilterPassed summary
    /\ 0 <= LLMCheckPassed_count summary <= LogicFilterPassed summary
    /\ LLMCheckPassed_count summary <= 100
    /\ FinalMatches summary = LLMCheckPassed_count summary
    /\ (length (Errors summary) <= 1)%nat
    /\ ProcessingTime summary = elapsed.
Proof.
  intros m userIDs elapsed summary err. unfold ProcessNewUsers.
  destruct (database.GetByIDs (db m) userIDs) as [users|e1]; [|discriminate].
  destruct (database.GetAllActive (db m)) as [products|e2]; [|discriminate].
  pose proof (llmCheck_pairs_sublist (llmClient m)
                (selectTopCandidates
                   (logicFilter (sqlPrefilter users products) users products)
                   100) users products) as Hllm.
  destruct (llmCheck _ _ _ _) as [[finalCandidates llmErr]|p];
    [|discriminate].
  destruct (Hllm _ eq_refl) as [_ Hlen]. clear Hllm. cbn [fst] in Hlen.
  destruct (database.BulkInsert _ _) as [[inserted failed] [e3|]];
    [discriminate|].
  intros Hrun. apply Returns_inj in Hrun. injection Hrun as <- _.
  cbn [SQLPrefilterPassed TotalUsers TotalProducts LogicFilterPassed
       LLMCheckPassed_count FinalMatches Errors ProcessingTime].
  pose proof (sqlPrefilter_length users products) as H1.
  pose proof (logicFilter_length (sqlPrefilter users products) users products)
    as H2.
  rewrite selectTopCandidates_length in Hlen.
  unfold len. rewrite createMatches_map, length_map.
  assert (Hprod : Z.of_nat (length (sqlPrefilter users products))
                  <= Z.of_nat (length users) * Z.of_nat (length products))
    by (rewrite <- Nat2Z.inj_mul; lia).
  assert (Herrs : (length match llmErr with
                          | Some e => [e]
                          | None => []
                          end <= 1)%nat)
    by (destruct llmErr; simpl; lia).
  repeat split; try lia; assumption.
Qed.

(** The theorem at a healthy run over one user and one product. *)
Lemma X6_summary_counts_witness :
  exists summary,
    ProcessNewUsers Orchestrator.healthy [1] 5 = Returns (Some summary, None)
    /\ FinalMatches summary <= 100.
Proof.
  eexists. split; [vm_compute; reflexivity|].
  match goal with
  | |- FinalMatches ?s <= 100 =>
      destruct (X6_summary_counts_shrink Orchestrator.healthy [1] 5 s None)
        as (_ & _ & _ & Hle & Heq & _); [vm_compute; reflexivity|];
      rewrite Heq; exact Hle
  end.
Defined.

(** X7: with an empty list of user IDs [ProcessNewUsers] does not query
    the users at all, so a failing users query does no harm; when the
    products can be read and the transaction begins and commits it returns
    a summary with the number of active products and every other count 0,
    and no error. *)
Theorem X7_empty_batch_returns_zero_summary :
  forall (m : MatcherService) (elapsed : Z) (products : list LoanProduct.t),
    database.GetAllActive (db m) = Ok products ->
    database.txBegin (database.tx (db m)) = None ->
    database.txCommit (database.tx (db m)) = None ->
    ProcessNewUsers m [] elapsed
    = Returns
        (Some (mkMatchingResult 0 (len products) 0 0 0 0 0 elapsed []), None).
Proof.
  intros m elapsed products Hproducts Hbegin Hcommit.
  unfold ProcessNewUsers. cbn [database.GetByIDs length Nat.eqb].
  rewrite Hproducts.
  change (sqlPrefilter [] products) with (@nil MatchCandidate.t).
  change (logicFilter [] [] products) with (@nil MatchCandidate.t).
  change (selectTopCandidates [] 100) with (@nil MatchCandidate.t).
  change (llmCheck (llmClient m) [] [] products)
    with (Returns (@nil MatchCandidate.t, @None error)).
  cbv iota beta.
  change (createMatches []) with (@nil (option MatchCreate.t)).
  unfold database.BulkInsert, database.WithTransaction.
  rewrite Hbegin, Hcommit. cbn [fold_left].
  unfold len, Int64.mul. cbn [length Z.of_nat]. rewrite Z.mul_0_l.
  reflexivity.
Qed.

(** The theorem at a database on which the users query fails. *)
Lemma X7_empty_batch_witness :
  ProcessNewUsers Orchestrator.usersDown [] 5
  = Returns (Some (mkMatchingResult 0 1 0 0 0 0 0 5 []), None).
Proof.
  apply (X7_empty_batch_returns_zero_summary Orchestrator.usersDown 5
           [Samples.hdfc]); reflexivity.
Defined.

(* ===================================================================== *)
(** ** Stage 3: a service that always fails, a service that never does *)
(* ===================================================================== *)

Lemma llmCheckLoop_all_errors (llm : LLMClient) (userMap : gmap Z User.t)
    (productMap : gmap Z LoanProduct.t) (err : error) :
  (forall evaluation user product,
     EvaluateMatch llm evaluation user product = Returns (Err err)) ->
  forall (candidates passed : list MatchCandidate.t)
         (lastErr : option error) (evaluation : nat),
    Forall (fun c => is_Some (userMap !! MatchCandidate.UserID c)
                     /\ is_Some (productMap !! MatchCandidate.ProductID c))
      candidates ->
    llmCheckLoop llm userMap productMap candidates passed lastErr evaluation
    = Returns
        (passed ++ map Assessor.fallback (List.filter highScore candidates),
         match candidates with [] => lastErr | _ :: _ => Some err end).
Proof.
  intros Herr candidates.
  induction candidates as [|c rest IH]; intros passed lastErr evaluation Hres.
  - cbn [llmCheckLoop List.filter map]. rewrite app_nil_r. reflexivity.
  - apply Forall_cons_1 in Hres as [[[user Hu] [product Hp]] Hres].
    cbn [llmCheckLoop List.filter]. rewrite Hu, Hp, Herr.
    fold (highScore c). destruct (highScore c).
    + rewrite IH by exact Hres. cbn [map]. rewrite <- app_assoc.
      destruct rest; reflexivity.
    + rewrite IH by exact Hres. destruct rest; reflexivity.
Qed.

(** X8: when every evaluation returns the same error, [llmCheck]
    returns, in their order, exactly the candidates whose Stage-2 score is
    at least 60, each with its IDs, score, flags and confidence as they
    were, marked as passed and carrying the fallback note, and drops all
    the others; it reports the error unless it was given no candidate.
    (The candidates are those whose user and product the maps hold, as
    every candidate of the pipeline is.) *)
Theorem X8_failing_service_keeps_high_scores :
  forall (llm : LLMClient) (err : error)
         (candidates : list MatchCandidate.t) (users : list User.t)
         (products : list LoanProduct.t),
    (forall evaluation user product,
       EvaluateMatch llm evaluation user product = Returns (Err err)) ->
    Forall (Assessor.resolves users products) candidates ->
    llmCheck llm candidates users products
    = Returns
        (map (fun c =>
                MatchCandidate.mk (MatchCandidate.UserID c)
                  (MatchCandidate.ProductID c)
                  (MatchCandidate.EligibilityScore c)
                  (MatchCandidate.IncomeEligible c)
                  (MatchCandidate.CreditScoreEligible c)
                  (MatchCandidate.AgeEligible c)
                  (MatchCandidate.EmploymentEligible c) true
                  "LLM check skipped due to API error, high score approved"
                  (MatchCandidate.LLMConfidence c))
           (List.filter
              (fun c =>
                 (MatchCandidate.EligibilityScore c >=? F64.of_int 60)%f64)
              candidates),
         match candidates with [] => None | _ :: _ => Some err end).
Proof.
  intros llm err candidates users products Herr Hres. unfold llmCheck.
  rewrite (llmCheckLoop_all_errors llm _ _ err Herr); [reflexivity|].
  exact Hres.
Qed.

(** The theorem at the sample rows with the service down: of the eight
    Stage-2 survivors the six scored at least 60 come back, each with the
    note. *)
Lemma X8_failing_service_witness :
  exists passed,
    llmCheck Assessor.unreachable
      (logicFilter (sqlPrefilter sampleUsers sampleProducts)
         sampleUsers sampleProducts)
      sampleUsers sampleProducts
    = Returns (passed, Some "API request failed: connection refused"%string)
    /\ map (fun c' =>
              (MatchCandidate.UserID c', MatchCandidate.ProductID c',
               MatchCandidate.LLMCheckPassed c',
               MatchCandidate.LLMReasoning c'))
         passed
       = map (fun pair : Z * Z =>
                (fst pair, snd pair, true,
                 "LLM check skipped due to API error, high score approved"%string))
           [(1, 1); (1, 2); (1, 3); (3, 1); (3, 2); (3, 3)].
Proof.
  eexists. split.
  - rewrite (X8_failing_service_keeps_high_scores Assessor.unreachable
               "API request failed: connection refused").
    + vm_compute. reflexivity.
    + intros evaluation user product. reflexivity.
    + apply logicFilter_resolves.
  - vm_compute. reflexivity.
Defined.

Lemma llmCheckLoop_no_errors (llm : LLMClient) (userMap : gmap Z User.t)
    (productMap : gmap Z LoanProduct.t) :
  (forall evaluation user product,
     exists response,
       EvaluateMatch llm evaluation user product = Returns (Ok response)) ->
  forall (candidates passed : list MatchCandidate.t)
         (lastErr : option error) (evaluation : nat),
    exists out,
      llmCheckLoop llm userMap productMap candidates passed lastErr
        evaluation = Returns (passed ++ out, lastErr)
      /\ Forall
           (fun c' =>
              exists c evaluation' user product response,
                In c candidates
                /\ userMap !! MatchCandidate.UserID c = Some user
                /\ productMap !! MatchCandidate.ProductID c = Some product
                /\ EvaluateMatch llm evaluation' user product
                   = Returns (Ok response)
                /\ Qualified response = true
                /\ c' = withVerdict c response)
           out.
Proof.
  intros Hok candidates.
  induction candidates as [|c rest IH]; intros passed lastErr evaluation.
  - exists []. cbn [llmCheckLoop]. rewrite app_nil_r. split; constructor.
  - assert (Hweaken : forall out,
      Forall
        (fun c' =>
           exists c0 evaluation' user product response,
             In c0 rest
             /\ userMap !! MatchCandidate.UserID c0 = Some user
             /\ productMap !! MatchCandidate.ProductID c0 = Some product
             /\ EvaluateMatch llm evaluation' user product
                = Returns (Ok response)
             /\ Qualified response = true
             /\ c' = withVerdict c0 response) out ->
      Forall
        (fun c' =>
           exists c0 evaluation' user product response,
             In c0 (c :: rest)
             /\ userMap !! MatchCandidate.UserID c0 = Some user
             /\ productMap !! MatchCandidate.ProductID c0 = Some product
             /\ EvaluateMatch llm evaluation' user product
                = Returns (Ok response)
             /\ Qualified response = true
             /\ c' = withVerdict c0 response) out).
    { intros out Hout. eapply Forall_impl; [exact Hout|].
      intros c' (c0 & n & u & p & r & Hin & H).
      exists c0, n, u, p, r. split; [right; exact Hin | exact H]. }
    cbn [llmCheckLoop].
    destruct (userMap !! MatchCandidate.UserID c) as [user|] eqn:Hu.
    2: { destruct (IH passed lastErr evaluation) as (out & Hout & Hall).
         exists out. split; [exact Hout | apply Hweaken, Hall]. }
    destruct (productMap !! MatchCandidate.ProductID c) as [product|] eqn:Hp.
    2: { destruct (IH passed lastErr evaluation) as (out & Hout & Hall).
         exists out. split; [exact Hout | apply Hweaken, Hall]. }
    destruct (Hok evaluation user product) as [response Hresponse].
    rewrite Hresponse.
    destruct (Qualified response) eqn:Hq.
    + destruct (IH (passed ++ [withVerdict c response]) lastErr
                  (S evaluation)) as (out & Hout & Hall).
      exists (withVerdict c response :: out). split.
      * unfold withVerdict in *. rewrite Hq in Hout. rewrite Hout.
        rewrite <- app_assoc. rewrite Hq. reflexivity.
      * constructor; [|apply Hweaken, Hall].
        exists c, evaluation, user, product, response.
        repeat split; try assumption. left. reflexivity.
    + destruct (IH passed lastErr (S evaluation)) as (out & Hout & Hall).
      exists out. split; [exact Hout | apply Hweaken, Hall].
Qed.

(** X9: when every evaluation returns a verdict, [llmCheck] returns and
    reports no error, and every candidate it returns is an input candidate
    the service qualified: it has the IDs, score and flags of that
    candidate, is marked as passed, and carries the reasoning and the
    confidence of the verdict. *)
Theorem X9_answering_service_reports_no_error :
  forall (llm : LLMClient) (candidates : list MatchCandidate.t)
         (users : list User.t) (products : list LoanProduct.t),
    (forall evaluation user product,
       exists response,
         EvaluateMatch llm evaluation user product = Returns (Ok response)) ->
    exists passed,
      llmCheck llm candidates users products = Returns (passed, None)
      /\ Forall
           (fun c' =>
              exists c evaluation user product response,
                In c candidates
                /\ buildUserMap users !! MatchCandidate.UserID c = Some user
                /\ buildProductMap products !! MatchCandidate.ProductID c
                   = Some product
                /\ EvaluateMatch llm evaluation user product
                   = Returns (Ok response)
                /\ Qualified response = true
                /\ c' = MatchCandidate.mk (MatchCandidate.UserID c)
                          (MatchCandidate.ProductID c)
                          (MatchCandidate.EligibilityScore c)
                          (MatchCandidate.IncomeEligible c)
                          (MatchCandidate.CreditScoreEligible c)
                          (MatchCandidate.AgeEligible c)
                          (MatchCandidate.EmploymentEligible c) true
                          (Reasoning response) (Confidence response))
           passed.
Proof.
  intros llm candidates users products Hok. unfold llmCheck.
  destruct (llmCheckLoop_no_errors llm (buildUserMap users)
              (buildProductMap products) Hok candidates [] None 0)
    as (out & Hrun & Hall).
  exists out. split; [exact Hrun|].
  eapply Forall_impl; [exact Hall|].
  intros c' (c & evaluation & user & product & response & Hin & Hu & Hp
             & Hresponse & Hq & ->).
  exists c, evaluation, user, product, response.
  repeat split; try assumption.
  unfold withVerdict. rewrite Hq. reflexivity.
Qed.

(** The service that approves the products with an even ID answers every
    call with its verdict. *)
Lemma EvaluateMatch_evenProducts (evaluation : nat) (user : User.t)
    (product : LoanProduct.t) :
  EvaluateMatch evenProducts evaluation user product
  = Returns
      (Ok (mkLLMResponse (Z.even (LoanProduct.ID product)) (F64.lit 9 10)
             "verdict" [])).
Proof.
  unfold EvaluateMatch, evenProducts.
  cbn [apiKey apiURL client NewRequestWithContext Do].
  destruct (Z.even (LoanProduct.ID product)); vm_compute; reflexivity.
Qed.

(** The theorem at a service that approves the products with an even ID:
    of the eight Stage-2 survivors the three on product 2 come back, with
    the reasoning and the confidence of the service. *)
Lemma X9_answering_service_witness :
  exists passed,
    llmCheck evenProducts
      (logicFilter (sqlPrefilter sampleUsers sampleProducts) sampleUsers
         sampleProducts)
      sampleUsers sampleProducts = Returns (passed, None)
    /\ map (fun c' =>
              (MatchCandidate.UserID c', MatchCandidate.ProductID c',
               MatchCandidate.LLMCheckPassed c',
               MatchCandidate.LLMReasoning c',
               MatchCandidate.LLMConfidence c'))
         passed
       = map (fun pair : Z * Z =>
                (fst pair, snd pair, true, "verdict"%string, F64.lit 9 10))
           [(1, 2); (2, 2); (3, 2)].
Proof.
  destruct (X9_answering_service_reports_no_error evenProducts
              (logicFilter (sqlPrefilter sampleUsers sampleProducts)
                 sampleUsers sampleProducts)
              sampleUsers sampleProducts) as (passed & Hrun & _).
  - intros evaluation user product. eexists.
    apply EvaluateMatch_evenProducts.
  - exists passed. split; [exact Hrun|].
    vm_compute in Hrun. apply Returns_inj in Hrun.
    injection Hrun as <-. vm_compute. reflexivity.
Defined.

(* ===================================================================== *)
(** ** The ranker picks the top *)
(* ===================================================================== *)

Lemma descending_app_inv (l1 l2 : list MatchCandidate.t) :
  Ranker.descending (l1 ++ l2) ->
  forall x y, In x l1 -> In y l2 ->
              (Ranker.score x >=? Ranker.score y)%f64 = true.
Proof.
  induction l1 as [|a l1 IH]; intros Hsorted x y Hx Hy; [destruct Hx|].
  cbn [app] in Hsorted. apply StronglySorted_inv in Hsorted as [Hrest Hall].
  destruct Hx as [<-|Hx].
  - rewrite List.Forall_forall in Hall. apply Hall, in_or_app. right.
    exact Hy.
  - apply IH; assumption.
Qed.

(** X10: for any limit, [selectTopCandidates] returns min(limit, length)
    candidates, and they are candidates of the input: together with the
    ones it leaves out they are a rearrangement of the input.  When it has
    to leave some out and all scores are numbers, no candidate left out has
    a higher score than a candidate kept. *)
Theorem X10_ranker_keeps_the_top :
  forall (candidates : list MatchCandidate.t) (limit : nat),
    length (selectTopCandidates candidates limit)
    = Nat.min limit (length candidates)
    /\ exists dropped,
         Permutation candidates
           (selectTopCandidates candidates limit ++ dropped)
         /\ (Ranker.numbered candidates ->
             forall kept out,
               In kept (selectTopCandidates candidates limit) ->
               In out dropped ->
               (Ranker.score kept >=? Ranker.score out)%f64 = true).
Proof.
  intros candidates limit.
  split; [apply selectTopCandidates_length|].
  unfold selectTopCandidates.
  destruct (Nat.leb_spec (length candidates) limit) as [Hle|Hgt].
  - exists []. rewrite app_nil_r. split; [reflexivity|].
    intros _ kept out _ [].
  - exists (skipn limit (bubbleSort candidates)).
    rewrite firstn_skipn.
    destruct (passes_perm_stable (seq 0 (length candidates - 1)) candidates)
      as [Hperm _].
    fold (bubbleSort candidates) in Hperm.
    split; [exact Hperm|].
    intros Hnum kept out Hkept Hout.
    apply (descending_app_inv (firstn limit (bubbleSort candidates))
             (skipn limit (bubbleSort candidates))); [|assumption..].
    rewrite firstn_skipn. apply bubbleSort_descending, Hnum.
Qed.

(** The theorem at 120 survivors and a limit of 100: the lowest score kept
    is at least the highest score left out. *)
Lemma X10_ranker_keeps_the_top_witness :
  length (selectTopCandidates Ranker.crowd 100) = 100%nat
  /\ exists dropped,
       Permutation Ranker.crowd
         (selectTopCandidates Ranker.crowd 100 ++ dropped)
       /\ forall kept out,
            In kept (selectTopCandidates Ranker.crowd 100) ->
            In out dropped ->
            (Ranker.score kept >=? Ranker.score out)%f64 = true.
Proof.
  destruct (X10_ranker_keeps_the_top Ranker.crowd 100)
    as (Hlen & dropped & Hperm & Htop).
  split; [rewrite Hlen; vm_compute; reflexivity|].
  exists dropped. split; [exact Hperm|].
  apply Htop. apply List.Forall_forall. intros c Hc.
  assert (Hall : forallb (fun c => negb (F64.is_nan (Ranker.score c)))
                   Ranker.crowd = true) by (vm_compute; reflexivity).
  rewrite forallb_forall in Hall. apply negb_true_iff, Hall, Hc.
Defined.

(* ===================================================================== *)
(** ** The repositories *)
(* ===================================================================== *)

Lemma insertBy_perm {A : Type} (before : A -> A -> bool) (x : A)
    (rows : list A) :
  Permutation (database.insertBy before x rows) (x :: rows).
Proof.
  induction rows as [|y rows IH]; cbn [database.insertBy]; [reflexivity|].
  destruct (before x y); [reflexivity|].
  rewrite IH. apply perm_swap.
Qed.

Lemma orderBy_perm {A : Type} (before : A -> A -> bool) (rows : list A) :
  Permutation (database.orderBy before rows) rows.
Proof.
  induction rows as [|x rows IH]; cbn [database.orderBy fold_right];
    [reflexivity|].
  fold (database.orderBy before rows).
  rewrite insertBy_perm, IH. reflexivity.
Qed.

Lemma insertBy_sorted {A : Type} (before : A -> A -> bool) (x : A)
    (rows : list A) :
  (forall a b, before a b = false -> before b a = true) ->
  (forall a b c, before a b = true -> before b c = true ->
                 before a c = true) ->
  StronglySorted (fun a b => before a b = true) rows ->
  StronglySorted (fun a b => before a b = true)
    (database.insertBy before x rows).
Proof.
  intros Htotal Htrans Hsorted.
  induction Hsorted as [|y rows Hrows IH Hall]; cbn [database.insertBy].
  - repeat constructor.
  - destruct (before x y) eqn:Hxy.
    + constructor; [constructor; assumption|].
      constructor; [exact Hxy|].
      rewrite List.Forall_forall in *. intros z Hz.
      apply (Htrans x y z); [exact Hxy | apply Hall, Hz].
    + constructor; [exact IH|].
      rewrite List.Forall_forall in *. intros z Hz.
      apply (Permutation_in _ (insertBy_perm before x rows)) in Hz.
      destruct Hz as [<-|Hz]; [apply Htotal, Hxy | apply Hall, Hz].
Qed.

Lemma orderBy_sorted {A : Type} (before : A -> A -> bool) (rows : list A) :
  (forall a b, before a b = false -> before b a = true) ->
  (forall a b c, before a b = true -> before b c = true ->
                 before a c = true) ->
  StronglySorted (fun a b => before a b = true)
    (database.orderBy before rows).
Proof.
  intros Htotal Htrans.
  induction rows as [|x rows IH]; cbn [database.orderBy fold_right];
    [constructor|].
  apply insertBy_sorted; assumption.
Qed.

Lemma perm_In_iff {A : Type} (l l' : list A) (x : A) :
  Permutation l l' -> (In x l <-> In x l').
Proof.
  intros Hperm. split; apply Permutation_in;
    [exact Hperm | symmetry; exact Hperm].
Qed.

Lemma StronglySorted_impl {A : Type} (R S : A -> A -> Prop) (l : list A) :
  (forall a b, R a b -> S a b) -> StronglySorted R l -> StronglySorted S l.
Proof.
  intros Himpl Hsorted.
  induction Hsorted as [|x l Hl IH Hall]; constructor; [exact IH|].
  rewrite List.Forall_forall in *. intros y Hy. apply Himpl, Hall, Hy.
Qed.

(** The scan loop returns the error of the first row that cannot be
    scanned, and otherwise every row built. *)
Lemma scanLoop_firstScanError {A B : Type} (context : string)
    (scanErr : A -> option error) (build : A -> B) (rows : list A) :
  forall scanned : list B,
    database.scanLoop context scanErr build rows scanned
    = match firstScanError scanErr rows with
      | Some err => Err (wrapError context err)
      | None => Ok (scanned ++ map build rows)
      end.
Proof.
  induction rows as [|row rows IH]; intros scanned.
  - cbn. rewrite app_nil_r. reflexivity.
  - cbn [database.scanLoop firstScanError map].
    destruct (scanErr row); [reflexivity|].
    rewrite IH, <- app_assoc. reflexivity.
Qed.

Lemma deliver_In {A : Type} (delivered : option nat) (rows : list A)
    (row : A) :
  In row (database.deliver delivered rows) -> In row rows.
Proof.
  destruct delivered as [n|]; [apply firstn_In | tauto].
Qed.

Lemma deliver_prefix {A : Type} (delivered : option nat) (rows : list A) :
  exists lost, rows = database.deliver delivered rows ++ lost.
Proof.
  destruct delivered as [n|]; cbn [database.deliver].
  - exists (skipn n rows). symmetry. apply firstn_skipn.
  - exists []. symmetry. apply app_nil_r.
Qed.

Lemma StronglySorted_app_l {A : Type} (R : A -> A -> Prop)
    (front back : list A) :
  StronglySorted R (front ++ back) -> StronglySorted R front.
Proof.
  induction front as [|x front IH]; intros Hsorted; [constructor|].
  cbn [app] in Hsorted. apply StronglySorted_inv in Hsorted as [Hrest Hall].
  constructor; [apply IH, Hrest|].
  rewrite List.Forall_forall in *. intros y Hy. apply Hall.
  apply in_or_app. left. exact Hy.
Qed.

Lemma deliver_sorted {A : Type} (R : A -> A -> Prop) (delivered : option nat)
    (rows : list A) :
  StronglySorted R rows -> StronglySorted R (database.deliver delivered rows).
Proof.
  destruct (deliver_prefix delivered rows) as [lost Hrows].
  intros Hsorted. rewrite Hrows in Hsorted.
  eapply StronglySorted_app_l, Hsorted.
Qed.

Lemma requested_active_In (d : database.DB) (ids : list Z) (u : User.t) :
  In u (List.filter
          (fun u => existsb (Z.eqb (User.ID u)) ids && User.IsActive u)
          (database.users d))
  <-> In u (database.users d) /\ In (User.ID u) ids
      /\ User.IsActive u = true.
Proof.
  rewrite filter_In, andb_true_iff, existsb_exists. split.
  - intros (Hin & (x & Hx & Heq) & Hact). apply Z.eqb_eq in Heq.
    subst x. auto.
  - intros (Hin & Hid & Hact). split; [exact Hin|]. split; [|exact Hact].
    exists (User.ID u). split; [exact Hid | apply Z.eqb_refl].
Qed.

(** X11: [GetByIDs] with an empty list of IDs returns no user without
    querying.  Otherwise it returns the wrapped error when the query
    fails; and else the query selects the users of the table that are
    active and whose ID is in the list, each as often as the table holds
    it, in ascending order of ID, and the call returns the wrapped error
    of the first row that comes through and cannot be scanned, without
    the users scanned before it, or, when every such row is scanned, the
    rows that came through, in that order.  The users it returns are
    always active users of the table whose ID was asked for. *)
Theorem X11_GetByIDs_active_requested_sorted :
  forall (d : database.DB) (ids : list Z),
    (ids = [] -> database.GetByIDs d ids = Ok [])
    /\ (ids <> [] ->
        forall err,
          database.queryErr (database.usersCursor d) = Some err ->
          database.GetByIDs d ids
          = Err (wrapError "failed to query users" err))
    /\ (ids <> [] ->
        database.queryErr (database.usersCursor d) = None ->
        exists selected,
          Permutation selected
            (List.filter
               (fun u => existsb (Z.eqb (User.ID u)) ids && User.IsActive u)
               (database.users d))
          /\ StronglySorted (fun a b => User.ID a <= User.ID b) selected
          /\ database.GetByIDs d ids
             = match firstScanError (database.scanErr (database.usersCursor d))
                       (database.deliver
                          (database.delivered (database.usersCursor d))
                          selected) with
               | Some err => Err (wrapError "failed to scan user" err)
               | None =>
                   Ok (database.deliver
                         (database.delivered (database.usersCursor d))
                         selected)
               end)
    /\ (forall found,
          database.GetByIDs d ids = Ok found ->
          StronglySorted (fun a b => User.ID a <= User.ID b) found
          /\ forall u,
               In u found ->
               In u (database.users d) /\ In (User.ID u) ids
               /\ User.IsActive u = true).
Proof.
  intros d ids.
  assert (Hsorted :
    StronglySorted (fun a b => User.ID a <= User.ID b)
      (database.orderBy (fun u1 u2 => User.ID u1 <=? User.ID u2)
         (List.filter
            (fun u => existsb (Z.eqb (User.ID u)) ids && User.IsActive u)
            (database.users d)))).
  { eapply StronglySorted_impl; [|apply orderBy_sorted; intros; lia].
    intros a b H. apply Z.leb_le, H. }
  unfold database.GetByIDs. split; [|split; [|split]].
  - intros ->. reflexivity.
  - intros Hne err Herr. destruct ids; [congruence|].
    cbn [length Nat.eqb]. rewrite Herr. reflexivity.
  - intros Hne Hok. destruct ids as [|id ids]; [congruence|].
    cbn [length Nat.eqb]. rewrite Hok. eexists.
    split; [apply orderBy_perm|]. split; [exact Hsorted|].
    rewrite scanLoop_firstScanError, map_id. reflexivity.
  - intros found. destruct (length ids =? 0)%nat.
    { intros [= <-]. split; [constructor | intros u []]. }
    destruct (database.queryErr (database.usersCursor d)); [discriminate|].
    intros Hfound. apply scanLoop_Ok_inv in Hfound as [-> _].
    cbn [app]. rewrite map_id. split; [apply deliver_sorted, Hsorted|].
    intros u Hin. apply deliver_In in Hin.
    apply (Permutation_in _ (orderBy_perm _ _)) in Hin.
    apply requested_active_In, Hin.
Qed.

(** The theorem at a table listed out of order with an inactive user,
    asked for the IDs 3, 7 and 1: users 1 and 3 on a healthy connection,
    the scan error when the row of user 3 cannot be scanned, and user 1
    alone when the stream breaks after the first row. *)
Lemma X11_GetByIDs_witness :
  database.GetByIDs
    (healthyDB [Samples.prime; goneUser; Samples.student; Samples.alice] [])
    [3; 7; 1] = Ok [Samples.alice; Samples.prime]
  /\ database.GetByIDs
       (database.mkDB
          [Samples.prime; goneUser; Samples.student; Samples.alice] []
          nullBatchCursor healthyCursor healthyCursor bracesDecoded healthyTx)
       [3; 7; 1]
     = Err "failed to scan user: cannot scan NULL into *string"
  /\ database.GetByIDs
       (database.mkDB
          [Samples.prime; goneUser; Samples.student; Samples.alice] []
          brokenCursor healthyCursor healthyCursor bracesDecoded healthyTx)
       [3; 7; 1]
     = Ok [Samples.alice]
  /\ forall u,
       In u [Samples.alice; Samples.prime] -> In (User.ID u) [3; 7; 1].
Proof.
  split; [vm_compute; reflexivity|]. split; [vm_compute; reflexivity|].
  split; [vm_compute; reflexivity|].
  destruct (X11_GetByIDs_active_requested_sorted
              (healthyDB
                 [Samples.prime; goneUser; Samples.student; Samples.alice] [])
              [3; 7; 1]) as (_ & _ & _ & Hfound).
  intros u Hin.
  destruct (Hfound [Samples.alice; Samples.prime]) as [_ Hall];
    [vm_compute; reflexivity|].
  apply Hall, Hin.
Defined.

(** X12: [GetAllActive] returns the wrapped error when its query fails;
    and else the query selects the active products of the table, each as
    often as the table holds it, in ascending order of ID, and the call
    returns the wrapped error of the first row that comes through and
    cannot be scanned, or, when every such row is scanned, the rows that
    came through, in that order.  The products it returns are always
    active products of the table. *)
Theorem X12_GetAllActive_active_sorted :
  forall d : database.DB,
    (forall err,
       database.queryErr (database.productsCursor d) = Some err ->
       database.GetAllActive d
       = Err (wrapError "failed to query loan products" err))
    /\ (database.queryErr (database.productsCursor d) = None ->
        exists selected,
          Permutation selected
            (List.filter LoanProduct.IsActive (database.loan_products d))
          /\ StronglySorted
               (fun a b => LoanProduct.ID a <= LoanProduct.ID b) selected
          /\ database.GetAllActive d
             = match firstScanError
                       (database.scanErr (database.productsCursor d))
                       (database.deliver
                          (database.delivered (database.productsCursor d))
                          selected) with
               | Some err => Err (wrapError "failed to scan loan product" err)
               | None =>
                   Ok (database.deliver
                         (database.delivered (database.productsCursor d))
                         selected)
               end)
    /\ (forall found,
          database.GetAllActive d = Ok found ->
          StronglySorted (fun a b => LoanProduct.ID a <= LoanProduct.ID b)
            found
          /\ forall p,
               In p found ->
               In p (database.loan_products d)
               /\ LoanProduct.IsActive p = true).
Proof.
  intros d.
  assert (Hsorted :
    StronglySorted (fun a b => LoanProduct.ID a <= LoanProduct.ID b)
      (database.orderBy
         (fun p1 p2 => LoanProduct.ID p1 <=? LoanProduct.ID p2)
         (List.filter LoanProduct.IsActive (database.loan_products d)))).
  { eapply StronglySorted_impl; [|apply orderBy_sorted; intros; lia].
    intros a b H. apply Z.leb_le, H. }
  unfold database.GetAllActive. split; [|split].
  - intros err ->. reflexivity.
  - intros ->. eexists. split; [apply orderBy_perm|].
    split; [exact Hsorted|].
    rewrite scanLoop_firstScanError, map_id. reflexivity.
  - intros found.
    destruct (database.queryErr (database.productsCursor d));
      [discriminate|].
    intros Hfound. apply scanLoop_Ok_inv in Hfound as [-> _].
    cbn [app]. rewrite map_id. split; [apply deliver_sorted, Hsorted|].
    intros p Hin. apply deliver_In in Hin.
    apply (Permutation_in _ (orderBy_perm _ _)) in Hin.
    apply filter_In, Hin.
Qed.

(** The theorem at a table listed in descending order of ID, on a healthy
    connection and on one whose stream breaks after the first row. *)
Lemma X12_GetAllActive_witness :
  database.GetAllActive
    (healthyDB [] [Samples.subprime; Samples.openToAll; Samples.hdfc])
  = Ok [Samples.hdfc; Samples.openToAll; Samples.subprime]
  /\ database.GetAllActive
       (database.mkDB [] [Samples.subprime; Samples.openToAll; Samples.hdfc]
          healthyCursor brokenCursor healthyCursor bracesDecoded healthyTx)
     = Ok [Samples.hdfc]
  /\ forall p,
       In p [Samples.hdfc; Samples.openToAll; Samples.subprime] ->
       LoanProduct.IsActive p = true.
Proof.
  split; [vm_compute; reflexivity|]. split; [vm_compute; reflexivity|].
  destruct (X12_GetAllActive_active_sorted
              (healthyDB []
                 [Samples.subprime; Samples.openToAll; Samples.hdfc]))
    as (_ & _ & Hfound).
  intros p Hin.
  destruct (Hfound [Samples.hdfc; Samples.openToAll; Samples.subprime])
    as [_ Hall]; [vm_compute; reflexivity|].
  apply Hall, Hin.
Defined.







Lemma geb_not_ltb (a b : F64.float64) :
  (a >=? b)%f64 = true -> (a <? b)%f64 = false.
Proof.
  destruct a as [sa|sa| |sa ma ea], b as [sb|sb| |sb mb eb];
    try destruct sa; try destruct sb;
    unfold F64.ltb, F64.geb, SFltb, SFleb, SFcompare;
    try reflexivity; try discriminate;
    change (Pos.compare_cont Eq ma mb) with (Pos.compare ma mb);
    change (Pos.compare_cont Eq mb ma) with (Pos.compare mb ma);
    rewrite (Z.compare_antisym ea eb), (Pos.compare_antisym ma mb);
    destruct (ea ?= eb); destruct (ma ?= mb)%positive; cbn;
    intros H'; try discriminate; reflexivity.
Qed.

Lemma flags_true_iff (u : User.t) (p : LoanProduct.t) :
  allFourFlags u p && withinMaxCredit u p = true
  <-> (User.MonthlyIncome u >=? LoanProduct.MinMonthlyIncome p)%f64 = true
      /\ Spec.creditEligible (User.CreditScore u)
           (LoanProduct.MinCreditScore p) (LoanProduct.MaxCreditScore p)
         = true
      /\ (LoanProduct.MinAge p <= User.Age u <= LoanProduct.MaxAge p)
      /\ (LoanProduct.AcceptedEmploymentStatus p = []
          \/ In (User.EmploymentStatus u)
               (LoanProduct.AcceptedEmploymentStatus p)).
Proof.
  unfold allFourFlags, withinMaxCredit, Spec.creditEligible, incomeEligible,
    creditScoreEligible, ageEligible.
  destruct (LoanProduct.MaxCreditScore p) as [maxCredit|];
    rewrite !andb_true_iff, employmentEligible_iff, !Z.geb_le, !Z.leb_le;
    intuition lia.
Qed.

Lemma IsFullyEligible_scanned (u : User.t) (p : LoanProduct.t)
    (accepted : list EmploymentStatus) :
  IsFullyEligible (database.scanCandidate (u, p) accepted) = true
  <-> (User.MonthlyIncome u <? LoanProduct.MinMonthlyIncome p)%f64 = false
      /\ Spec.creditEligible (User.CreditScore u)
           (LoanProduct.MinCreditScore p) (LoanProduct.MaxCreditScore p)
         = true
      /\ (LoanProduct.MinAge p <= User.Age u <= LoanProduct.MaxAge p)
      /\ (accepted = [] \/ In (User.EmploymentStatus u) accepted).
Proof. rewrite IsFullyEligible_iff. reflexivity. Qed.

(** X14: take the candidate a row of the Stage-1 query becomes, whatever
    the decoding of the accepted statuses left in it.  When the two
    incomes are numbers, [IsFullyEligible] holds of it exactly when the
    four flags of the specification hold: income at least the minimum,
    credit score within minimum and maximum, age within the range, and
    the decoded list empty or holding the user's status.  On a row that
    satisfies the [WHERE] clause it comes down to the last of these, the
    one check the query lacks; so it holds of every row the query returns
    when the decoding left no status.  With the product's own list for
    the decoded one, it is the four tests of [sqlPrefilter] and the
    maximum credit score. *)
Theorem X14_IsFullyEligible_is_flags_and_max_credit :
  (forall (u : User.t) (p : LoanProduct.t)
          (accepted : list EmploymentStatus),
     F64.is_nan (User.MonthlyIncome u) = false ->
     F64.is_nan (LoanProduct.MinMonthlyIncome p) = false ->
     IsFullyEligible (database.scanCandidate (u, p) accepted)
     = Spec.incomeEligible (User.MonthlyIncome u)
         (LoanProduct.MinMonthlyIncome p)
       && Spec.creditEligible (User.CreditScore u)
            (LoanProduct.MinCreditScore p) (LoanProduct.MaxCreditScore p)
       && Spec.ageEligible (User.Age u) (LoanProduct.MinAge p)
            (LoanProduct.MaxAge p)
       && Spec.employmentEligible (User.EmploymentStatus u) accepted)
  /\ (forall (batchID : string) (u : User.t) (p : LoanProduct.t)
             (accepted : list EmploymentStatus),
        database.prefilterWhere batchID u p = true ->
        IsFullyEligible (database.scanCandidate (u, p) accepted)
        = Spec.employmentEligible (User.EmploymentStatus u) accepted
        /\ IsFullyEligible (database.scanCandidate (u, p) []) = true)
  /\ (forall (u : User.t) (p : LoanProduct.t),
        F64.is_nan (User.MonthlyIncome u) = false ->
        F64.is_nan (LoanProduct.MinMonthlyIncome p) = false ->
        IsFullyEligible
          (database.scanCandidate (u, p)
             (LoanProduct.AcceptedEmploymentStatus p))
        = Stage1.passes u p && withinMaxCredit u p).
Proof.
  assert (Hfour : forall (u : User.t) (p : LoanProduct.t)
                         (accepted : list EmploymentStatus),
    F64.is_nan (User.MonthlyIncome u) = false ->
    F64.is_nan (LoanProduct.MinMonthlyIncome p) = false ->
    IsFullyEligible (database.scanCandidate (u, p) accepted)
    = Spec.incomeEligible (User.MonthlyIncome u)
        (LoanProduct.MinMonthlyIncome p)
      && Spec.creditEligible (User.CreditScore u)
           (LoanProduct.MinCreditScore p) (LoanProduct.MaxCreditScore p)
      && Spec.ageEligible (User.Age u) (LoanProduct.MinAge p)
           (LoanProduct.MaxAge p)
      && Spec.employmentEligible (User.EmploymentStatus u) accepted).
  { intros u p accepted Hu Hp. apply eq_iff_eq_true.
    rewrite IsFullyEligible_scanned, !andb_true_iff,
      Spec_employmentEligible_iff.
    unfold Spec.incomeEligible, Spec.ageEligible.
    rewrite andb_true_iff, !Z.leb_le.
    assert (Hincome :
      (User.MonthlyIncome u <? LoanProduct.MinMonthlyIncome p)%f64 = false
      <-> (User.MonthlyIncome u >=? LoanProduct.MinMonthlyIncome p)%f64
          = true).
    { split; [apply ltb_false_geb; assumption | apply geb_not_ltb]. }
    rewrite Hincome. tauto. }
  assert (Hwhere : forall (batchID : string) (u : User.t) (p : LoanProduct.t)
                          (accepted : list EmploymentStatus),
    database.prefilterWhere batchID u p = true ->
    IsFullyEligible (database.scanCandidate (u, p) accepted)
    = Spec.employmentEligible (User.EmploymentStatus u) accepted).
  { intros batchID u p accepted Hwhere. apply eq_iff_eq_true.
    rewrite IsFullyEligible_scanned, Spec_employmentEligible_iff.
    pose proof (prefilterWhere_credit _ _ _ Hwhere) as Hcredit.
    unfold database.prefilterWhere in Hwhere.
    repeat (apply andb_prop in Hwhere as [Hwhere ?]).
    assert ((User.MonthlyIncome u <? LoanProduct.MinMonthlyIncome p)%f64
            = false) by (apply geb_not_ltb; assumption).
    assert (LoanProduct.MinAge p <= User.Age u <= LoanProduct.MaxAge p)
      by (split; [apply Z.geb_le | apply Z.leb_le]; assumption).
    tauto. }
  split; [exact Hfour|]. split.
  - intros batchID u p accepted Hrow.
    split; [apply (Hwhere batchID), Hrow|].
    rewrite (Hwhere batchID) by exact Hrow. reflexivity.
  - intros u p Hu Hp. rewrite Hfour by assumption.
    apply eq_iff_eq_true.
    unfold Stage1.passes, withinMaxCredit, Spec.creditEligible.
    rewrite !andb_true_iff, Z.geb_le, Z.leb_le. tauto.
Qed.

(** The theorem at the sample rows: the row of the user above the maximum
    fails; the row of the student and the product for the employed and
    self-employed, which the query returns, passes when the decoding left
    no status and fails on the product's own list. *)
Lemma X14_IsFullyEligible_witness :
  IsFullyEligible
    (database.scanCandidate (Samples.prime, Samples.subprime) []) = false
  /\ IsFullyEligible
       (database.scanCandidate (Samples.student, Samples.hdfc) []) = true
  /\ IsFullyEligible
       (database.scanCandidate (Samples.student, Samples.hdfc)
          (LoanProduct.AcceptedEmploymentStatus Samples.hdfc)) = false.
Proof.
  destruct X14_IsFullyEligible_is_flags_and_max_credit
    as (Hfour & Hwhere & _).
  split; [|split].
  - rewrite Hfour by reflexivity. vm_compute. reflexivity.
  - apply (Hwhere "" Samples.student Samples.hdfc []).
    vm_compute. reflexivity.
  - destruct (Hwhere "" Samples.student Samples.hdfc
                (LoanProduct.AcceptedEmploymentStatus Samples.hdfc))
      as [-> _]; vm_compute; reflexivity.
Defined.

(* ===================================================================== *)
(** ** Counting the rows of a bulk insert *)
(* ===================================================================== *)

Lemma wrap_small (z : Z) : - 2 ^ 63 <= z < 2 ^ 63 -> Int64.wrap z = z.
Proof.
  intros Hz. unfold Int64.wrap. rewrite Z.mod_small; lia.
Qed.

Lemma BulkInsert_fold (t : database.Tx)
    (matches : list (option MatchCreate.t)) :
  forall inserted failed : Z,
    0 <= inserted -> 0 <= failed ->
    inserted + failed + len matches < 2 ^ 63 ->
    fold_left
      (fun (counts : Z * Z) (m : option MatchCreate.t) =>
         let '(inserted, failed) := counts in
         match database.txExec t m with
         | Some _ => (inserted, Int64.add failed 1)
         | None => (Int64.add inserted 1, failed)
         end)
      matches (inserted, failed)
    = (inserted + len (List.filter (rowAccepted t) matches),
       failed + len (List.filter (fun m => negb (rowAccepted t m)) matches)).
Proof.
  unfold len.
  induction matches as [|m matches IH]; intros inserted failed Hi Hf Hsum.
  - cbn. f_equal; lia.
  - cbn [fold_left List.filter]. cbn [length] in Hsum.
    destruct (database.txExec t m) as [e|] eqn:Hexec.
    + assert (Hrow : rowAccepted t m = false)
        by (unfold rowAccepted; rewrite Hexec; reflexivity).
      rewrite Hrow. cbn [negb].
      unfold Int64.add. rewrite wrap_small by lia.
      rewrite IH by lia. cbn [length]. f_equal; lia.
    + assert (Hrow : rowAccepted t m = true)
        by (unfold rowAccepted; rewrite Hexec; reflexivity).
      rewrite Hrow. cbn [negb].
      unfold Int64.add. rewrite wrap_small by lia.
      rewrite IH by lia. cbn [length]. f_equal; lia.
Qed.

Lemma filter_partition_length {A : Type} (f : A -> bool) (l : list A) :
  (length (List.filter f l) + length (List.filter (fun x => negb (f x)) l)
   = length l)%nat.
Proof.
  induction l as [|x l IH]; cbn [List.filter]; [reflexivity|].
  destruct (f x); cbn [negb length]; lia.
Qed.

(** X15: [BulkInsert] counts every row exactly once.  When the transaction
    cannot begin no statement runs and both counts are 0; otherwise
    [inserted] is the number of rows whose statement succeeded, [failed]
    the number of rows whose statement failed, and the two add up to the
    number of rows, whether or not the commit then fails; a failed row
    never makes the call fail. *)
Theorem X15_BulkInsert_counts_every_row_once :
  forall (d : database.DB) (matches : list (option MatchCreate.t)),
    len matches < 2 ^ 63 ->
    (forall err,
       database.txBegin (database.tx d) = Some err ->
       database.BulkInsert d matches
       = (0, 0, Some (wrapError "failed to begin transaction" err)))
    /\ (database.txBegin (database.tx d) = None ->
        database.BulkInsert d matches
        = (len (List.filter (rowAccepted (database.tx d)) matches),
           len (List.filter
                  (fun m => negb (rowAccepted (database.tx d) m)) matches),
           match database.txCommit (database.tx d) with
           | Some err => Some (wrapError "failed to commit transaction" err)
           | None => None
           end)
        /\ len (List.filter (rowAccepted (database.tx d)) matches)
           + len (List.filter
                    (fun m => negb (rowAccepted (database.tx d) m)) matches)
           = len matches).
Proof.
  intros d matches Hlen.
  unfold database.BulkInsert, database.WithTransaction. split.
  - intros err ->. reflexivity.
  - intros ->. split.
    + rewrite BulkInsert_fold by (unfold len in *; lia).
      destruct (database.txCommit (database.tx d)); reflexivity.
    + unfold len. rewrite <- Nat2Z.inj_add, filter_partition_length.
      reflexivity.
Qed.

(** The theorem at three rows of which the one of user 2 is refused. *)
Lemma X15_BulkInsert_witness :
  database.BulkInsert
    (database.mkDB [] [] healthyCursor healthyCursor healthyCursor
       bracesDecoded pickyTx)
    (createMatches
       [Ranker.scored 1 1 70; Ranker.scored 2 1 65; Ranker.scored 3 1 80])
  = (2, 1, None).
Proof.
  destruct (X15_BulkInsert_counts_every_row_once
              (database.mkDB [] [] healthyCursor healthyCursor healthyCursor
       bracesDecoded pickyTx)
              (createMatches
                 [Ranker.scored 1 1 70; Ranker.scored 2 1 65;
                  Ranker.scored 3 1 80])) as (_ & Hcount).
  - vm_compute. reflexivity.
  - destruct Hcount as [-> _]; [reflexivity|]. vm_compute. reflexivity.
Defined.

(* ===================================================================== *)
(** ** The power loop *)
(* ===================================================================== *)

(** X16: for an exponent that is an integer below 2^53 in magnitude, [pow]
    returns 1 when the exponent is zero or negative (a negative exponent
    does not give a reciprocal), and for a non-negative exponent one more
    multiplies the result once more by the base. *)
Theorem X16_pow_counts_multiplications :
  forall (base : F64.float64) (n : Z),
    - 2 ^ 53 < n < 2 ^ 53 ->
    (n <= 0 -> pow base (F64.of_int n) = F64.one)
    /\ (0 <= n -> n + 1 < 2 ^ 53 ->
        pow base (F64.of_int (n + 1))
        = (pow base (F64.of_int n) * base)%f64).
Proof.
  intros base n Hn. unfold pow.
  destruct (of_int_round_trip n Hn) as [-> _]. split.
  - intros Hneg. destruct n; try lia; reflexivity.
  - intros Hpos Hnext.
    destruct (of_int_round_trip (n + 1)) as [-> _]; [lia|].
    replace (Z.to_nat (n + 1)) with (S (Z.to_nat n)) by lia.
    rewrite !powLoop_power. reflexivity.
Qed.

(** The theorem at 1.5 squared and at 1.5 to the power -3. *)
Lemma X16_pow_witness :
  pow (F64.lit 3 2) (F64.of_int 2) = F64.lit 9 4
  /\ pow (F64.lit 3 2) (F64.of_int (-3)) = F64.one.
Proof.
  split.
  - destruct (X16_pow_counts_multiplications (F64.lit 3 2) 1) as [_ Hstep];
      [vm_compute; split; reflexivity|].
    change (F64.of_int 2) with (F64.of_int (1 + 1)).
    rewrite Hstep by (vm_compute; congruence).
    vm_compute. reflexivity.
  - apply (X16_pow_counts_multiplications (F64.lit 3 2) (-3));
      vm_compute; [split; reflexivity | congruence].
Defined.

(* ===================================================================== *)
(** ** What reaches the persist step *)
(* ===================================================================== *)

Lemma GetByIDs_Ok_In (d : database.DB) (ids : list Z) (found : list User.t)
    (u : User.t) :
  database.GetByIDs d ids = Ok found -> In u found ->
  In u (database.users d) /\ In (User.ID u) ids /\ User.IsActive u = true.
Proof.
  unfold database.GetByIDs.
  destruct (length ids =? 0)%nat; [intros [= <-] []|].
  destruct (database.queryErr (database.usersCursor d)); [discriminate|].
  intros Hfound Hin. apply scanLoop_Ok_inv in Hfound as [-> _].
  cbn [app] in Hin. rewrite map_id in Hin. apply deliver_In in Hin.
  apply (Permutation_in _ (orderBy_perm _ _)) in Hin.
  apply requested_active_In, Hin.
Qed.

Lemma GetAllActive_Ok_In (d : database.DB) (found : list LoanProduct.t)
    (p : LoanProduct.t) :
  database.GetAllActive d = Ok found -> In p found ->
  In p (database.loan_products d) /\ LoanProduct.IsActive p = true.
Proof.
  unfold database.GetAllActive.
  destruct (database.queryErr (database.productsCursor d)); [discriminate|].
  intros Hfound Hin. apply scanLoop_Ok_inv in Hfound as [-> _].
  cbn [app] in Hin. rewrite map_id in Hin. apply deliver_In in Hin.
  apply (Permutation_in _ (orderBy_perm _ _)) in Hin.
  apply filter_In in Hin. exact Hin.
Qed.

Lemma logicFilter_In (candidates : list MatchCandidate.t)
    (users : list User.t) (products : list LoanProduct.t)
    (c' : MatchCandidate.t) :
  In c' (logicFilter candidates users products) ->
  exists c score,
    In c candidates /\ c' = MatchCandidate.setEligibilityScore c score.
Proof.
  rewrite logicFilter_omap, <- list_elem_of_In, list_elem_of_omap.
  intros (c & Hc & Hkeep). apply list_elem_of_In in Hc.
  unfold Pipeline.scoredSurvivor in Hkeep.
  destruct (buildUserMap users !! _) as [user|]; [|discriminate].
  destruct (buildProductMap products !! _) as [product|]; [|discriminate].
  destruct (passesBusinessRules user product); [|discriminate].
  injection Hkeep as <-. eauto.
Qed.

(** X17: every candidate that Stage 3 of a batch run returns, and so
    every match handed to the persist step, belongs to a user that was
    asked for and is active in the users table and to a product that is
    active in the products table; its four eligibility flags are all true
    and it is marked as passed, whatever the service answered. *)
Theorem X17_final_candidates_are_requested_active_eligible :
  forall (d : database.DB) (userIDs : list Z) (llm : LLMClient)
         (users : list User.t) (products : list LoanProduct.t)
         (result : list MatchCandidate.t * option error)
         (c' : MatchCandidate.t),
    database.GetByIDs d userIDs = Ok users ->
    database.GetAllActive d = Ok products ->
    llmCheck llm
      (selectTopCandidates
         (logicFilter (sqlPrefilter users products) users products) 100)
      users products = Returns result ->
    In c' (fst result) ->
    In (MatchCandidate.UserID c') userIDs
    /\ (exists u, In u (database.users d)
                  /\ User.ID u = MatchCandidate.UserID c'
                  /\ User.IsActive u = true)
    /\ (exists p, In p (database.loan_products d)
                  /\ LoanProduct.ID p = MatchCandidate.ProductID c'
                  /\ LoanProduct.IsActive p = true)
    /\ MatchCandidate.IncomeEligible c' = true
    /\ MatchCandidate.CreditScoreEligible c' = true
    /\ MatchCandidate.AgeEligible c' = true
    /\ MatchCandidate.EmploymentEligible c' = true
    /\ MatchCandidate.LLMCheckPassed c' = true.
Proof.
  intros d userIDs llm users products result c' Husers Hproducts Hrun Hin.
  unfold llmCheck in Hrun.
  destruct (llmCheckLoop_shape llm (buildUserMap users)
              (buildProductMap products)
              (selectTopCandidates
                 (logicFilter (sqlPrefilter users products) users products)
                 100) [] None 0 result Hrun) as (out & Hout & _ & Hall).
  rewrite Hout in Hin. cbn [app] in Hin.
  rewrite List.Forall_forall in Hall.
  destruct (Hall c' Hin) as (Hpassed & c2 & Hc2 & Hsame).
  apply selectTopCandidates_In, logicFilter_In in Hc2
    as (c1 & score & Hc1 & ->).
  apply In_sqlPrefilter in Hc1 as (u & p & Hu & Hp & Hflags & ->).
  destruct Hsame as (Hid_u & Hid_p & _ & Hf1 & Hf2 & Hf3 & Hf4).
  cbn in Hid_u, Hid_p, Hf1, Hf2, Hf3, Hf4.
  destruct (GetByIDs_Ok_In _ _ _ _ Husers Hu) as (Htable & Hasked & Hact).
  destruct (GetAllActive_Ok_In _ _ _ Hproducts Hp) as (Htable' & Hact').
  unfold allFourFlags in Hflags.
  repeat (apply andb_prop in Hflags as [Hflags ?]).
  rewrite Hid_u, Hid_p, Hf1, Hf2, Hf3, Hf4.
  split; [exact Hasked|].
  split; [exists u; auto|]. split; [exists p; auto|].
  auto.
Qed.

(** The theorem at a table with an inactive user, asked for users 1 and 7
    with the service down: the first candidate that comes through is a
    pair of user 1. *)
Lemma X17_final_candidates_witness :
  exists result c',
    llmCheck Assessor.unreachable
      (selectTopCandidates
         (logicFilter (sqlPrefilter [Samples.alice] sampleProducts)
            [Samples.alice] sampleProducts) 100)
      [Samples.alice] sampleProducts = Returns result
    /\ hd_error (fst result) = Some c'
    /\ MatchCandidate.UserID c' = 1
    /\ In (MatchCandidate.UserID c') [1; 7]
    /\ MatchCandidate.LLMCheckPassed c' = true.
Proof.
  eexists. eexists. split; [vm_compute; reflexivity|].
  match goal with
  | |- hd_error (fst ?r) = _ /\ _ => set (result := r)
  end.
  split; [reflexivity|]. split; [reflexivity|].
  match goal with
  | |- In (MatchCandidate.UserID ?c) _ /\ _ =>
      destruct (X17_final_candidates_are_requested_active_eligible
                  (healthyDB [Samples.prime; goneUser; Samples.alice]
                     sampleProducts)
                  [1; 7] Assessor.unreachable [Samples.alice] sampleProducts
                  result c)
        as (Hasked & _ & _ & _ & _ & _ & _ & Hpassed)
  end.
  - vm_compute. reflexivity.
  - vm_compute. reflexivity.
  - vm_compute. reflexivity.
  - left. reflexivity.
  - split; [exact Hasked | exact Hpassed].
Defined.

(* ===================================================================== *)
(** ** Validation of incoming users *)
(* ===================================================================== *)

Lemma byteLen_nonneg (s : string) : 0 <= gostrings.byteLen s.
Proof. unfold gostrings.byteLen. lia. Qed.

Lemma byteLen_String (c : ascii) (s : string) :
  gostrings.byteLen (String c s) = gostrings.byteLen s + 1.
Proof. unfold gostrings.byteLen. cbn [String.length]. lia. Qed.

Lemma append_String (c : ascii) (a b : string) :
  (String c a ++ b)%string = String c (a ++ b)%string.
Proof. reflexivity. Qed.

Lemma append_empty (b : string) : ("" ++ b)%string = b.
Proof. reflexivity. Qed.

Lemma append_assoc (a b c : string) :
  ((a ++ b) ++ c = a ++ (b ++ c))%string.
Proof.
  induction a as [|x a IH]; [reflexivity|].
  rewrite !append_String, IH. reflexivity.
Qed.

Lemma byteLen_app (a b : string) :
  gostrings.byteLen (a ++ b)%string
  = gostrings.byteLen a + gostrings.byteLen b.
Proof.
  induction a as [|c a IH]; [reflexivity|].
  rewrite append_String, !byteLen_String, IH. lia.
Qed.

Lemma byteLen_zero (s : string) : gostrings.byteLen s = 0 <-> s = ""%string.
Proof.
  destruct s; [tauto|]. rewrite byteLen_String.
  pose proof (byteLen_nonneg s). split; [lia | discriminate].
Qed.

Lemma append_String_assoc (a : string) (c : ascii) (b : string) :
  (a ++ String c b = (a ++ String c "") ++ b)%string.
Proof.
  induction a as [|x a IH]; [reflexivity|].
  rewrite !append_String, IH. reflexivity.
Qed.

Lemma hasByte_String (x c : ascii) (s : string) :
  hasByte (String x s) c <-> x = c \/ hasByte s c.
Proof. reflexivity. Qed.

Lemma Index_range (s : string) (c : ascii) :
  -1 <= gostrings.Index s c < gostrings.byteLen s.
Proof.
  induction s as [|x s IH]; [unfold gostrings.byteLen; simpl; lia|].
  rewrite byteLen_String. cbn [gostrings.Index].
  destruct (Ascii.eqb x c); [pose proof (byteLen_nonneg s); lia|].
  destruct (Z.ltb_spec (gostrings.Index s c) 0); lia.
Qed.

Lemma LastIndex_range (s : string) (c : ascii) :
  -1 <= gostrings.LastIndex s c < gostrings.byteLen s.
Proof.
  induction s as [|x s IH]; [unfold gostrings.byteLen; simpl; lia|].
  rewrite byteLen_String. cbn [gostrings.LastIndex].
  destruct (Z.leb_spec 0 (gostrings.LastIndex s c)); [lia|].
  pose proof (byteLen_nonneg s). destruct (Ascii.eqb x c); lia.
Qed.

Lemma Index_absent (s : string) (c : ascii) :
  gostrings.Index s c = -1 <-> ~ hasByte s c.
Proof.
  induction s as [|x s IH]; [unfold hasByte; simpl; tauto|].
  rewrite hasByte_String. cbn [gostrings.Index].
  pose proof (Index_range s c).
  destruct (Ascii.eqb_spec x c) as [->|Hne].
  - split; [lia | tauto].
  - destruct (Z.ltb_spec (gostrings.Index s c) 0).
    + assert (gostrings.Index s c = -1) by lia. tauto.
    + split; [lia|]. intros Hno. assert (gostrings.Index s c = -1) by tauto.
      lia.
Qed.

Lemma LastIndex_absent (s : string) (c : ascii) :
  gostrings.LastIndex s c = -1 <-> ~ hasByte s c.
Proof.
  induction s as [|x s IH]; [unfold hasByte; simpl; tauto|].
  rewrite hasByte_String. cbn [gostrings.LastIndex].
  pose proof (LastIndex_range s c).
  destruct (Z.leb_spec 0 (gostrings.LastIndex s c)).
  - split; [lia|]. intros Hno. assert (gostrings.LastIndex s c = -1) by tauto.
    lia.
  - assert (gostrings.LastIndex s c = -1) by lia.
    destruct (Ascii.eqb_spec x c) as [->|Hne]; [split; [lia | tauto]|].
    tauto.
Qed.

Lemma Index_app_absent (pre : string) (c : ascii) (post : string) :
  ~ hasByte pre c ->
  gostrings.Index (pre ++ String c post)%string c = gostrings.byteLen pre.
Proof.
  induction pre as [|x pre IH]; intros Hno.
  - rewrite append_empty. cbn [gostrings.Index].
    rewrite Ascii.eqb_refl. reflexivity.
  - rewrite hasByte_String in Hno. rewrite append_String.
    cbn [gostrings.Index].
    destruct (Ascii.eqb_spec x c) as [->|Hne]; [tauto|].
    rewrite IH by tauto. rewrite byteLen_String.
    pose proof (byteLen_nonneg pre).
    destruct (Z.ltb_spec (gostrings.byteLen pre) 0); lia.
Qed.

Lemma Index_split (s : string) (c : ascii) :
  0 <= gostrings.Index s c ->
  exists pre post,
    s = (pre ++ String c post)%string
    /\ gostrings.byteLen pre = gostrings.Index s c
    /\ ~ hasByte pre c.
Proof.
  induction s as [|x s IH]; [simpl; lia|].
  cbn [gostrings.Index].
  destruct (Ascii.eqb_spec x c) as [->|Hne].
  - intros _. exists ""%string, s. repeat split. unfold hasByte. simpl. tauto.
  - destruct (Z.ltb_spec (gostrings.Index s c) 0); [lia|]. intros _.
    destruct IH as (pre & post & -> & Hlen & Hno); [assumption|].
    exists (String x pre), post. rewrite byteLen_String, hasByte_String.
    repeat split; [lia | tauto].
Qed.

Lemma LastIndex_app (a b : string) (c : ascii) :
  gostrings.LastIndex (a ++ b)%string c
  = if 0 <=? gostrings.LastIndex b c
    then gostrings.byteLen a + gostrings.LastIndex b c
    else gostrings.LastIndex a c.
Proof.
  induction a as [|x a IH].
  - rewrite append_empty.
    pose proof (LastIndex_range b c).
    destruct (Z.leb_spec 0 (gostrings.LastIndex b c));
      [unfold gostrings.byteLen; simpl; lia | cbn [gostrings.LastIndex]; lia].
  - rewrite append_String. cbn [gostrings.LastIndex].
    rewrite IH, byteLen_String.
    pose proof (byteLen_nonneg a).
    destruct (Z.leb_spec 0 (gostrings.LastIndex b c)).
    + destruct (Z.leb_spec 0 (gostrings.byteLen a + gostrings.LastIndex b c));
        lia.
    + reflexivity.
Qed.

Lemma LastIndex_split (s : string) (c : ascii) :
  0 <= gostrings.LastIndex s c ->
  exists pre post,
    s = (pre ++ String c post)%string
    /\ gostrings.byteLen pre = gostrings.LastIndex s c
    /\ ~ hasByte post c.
Proof.
  induction s as [|x s IH]; [simpl; lia|].
  cbn [gostrings.LastIndex].
  destruct (Z.leb_spec 0 (gostrings.LastIndex s c)) as [Hin|Hout].
  - intros _. destruct IH as (pre & post & -> & Hlen & Hno); [assumption|].
    exists (String x pre), post. rewrite byteLen_String.
    repeat split; [lia | assumption].
  - destruct (Ascii.eqb_spec x c) as [->|Hne]; [|lia]. intros _.
    exists ""%string, s. repeat split.
    apply LastIndex_absent. pose proof (LastIndex_range s c). lia.
Qed.

Lemma LastIndex_app_absent (pre : string) (c : ascii) (post : string) :
  ~ hasByte post c ->
  gostrings.LastIndex (pre ++ String c post)%string c
  = gostrings.byteLen pre.
Proof.
  intros Hno. apply LastIndex_absent in Hno.
  rewrite LastIndex_app. cbn [gostrings.LastIndex]. rewrite Hno.
  cbn. rewrite Ascii.eqb_refl. cbn. lia.
Qed.

(** X18: [isValidEmail] accepts exactly the byte strings of the shape
    local @ domain . tld in which the local part is not empty and holds no
    at sign, the domain is not empty, and the last part is not empty and
    holds no dot.  Nothing else is asked: the domain may hold further at
    signs and dots, and any byte may stand in any part. *)
Theorem X18_isValidEmail_shape :
  forall email : string,
    intake.isValidEmail email = true
    <-> exists loc domain tld : string,
          email = (loc ++ String "@" (domain ++ String "." tld))%string
          /\ loc <> ""%string /\ ~ hasByte loc "@"
          /\ domain <> ""%string
          /\ tld <> ""%string /\ ~ hasByte tld ".".
Proof.
  intros email. unfold intake.isValidEmail. split.
  - destruct (String.eqb email ""); [discriminate|].
    destruct (Z.leb_spec (gostrings.Index email "@") 0) as [|Hat];
      [discriminate|].
    destruct (Z.eqb_spec (gostrings.Index email "@")
                (gostrings.byteLen email - 1)); [discriminate|].
    cbn [orb].
    destruct (Z.leb_spec (gostrings.LastIndex email ".")
                (gostrings.Index email "@" + 1)) as [|Hdot];
      [discriminate|].
    destruct (Z.eqb_spec (gostrings.LastIndex email ".")
                (gostrings.byteLen email - 1)) as [|Hlast];
      [discriminate|].
    intros _.
    destruct (Index_split email "@") as (loc & rest & Hemail & Hloc & Hno);
      [lia|].
    rewrite <- Hloc in Hdot. rewrite Hemail in Hdot, Hlast.
    rewrite append_String_assoc, LastIndex_app in Hdot, Hlast.
    rewrite !byteLen_app, !byteLen_String in Hlast.
    pose proof (LastIndex_range (loc ++ String "@" "")%string ".") as Hr.
    rewrite byteLen_app, byteLen_String in Hr, Hdot.
    change (gostrings.byteLen "") with 0 in Hr, Hdot, Hlast.
    destruct (Z.leb_spec 0 (gostrings.LastIndex rest ".")) as [Hin|]; [|lia].
    destruct (LastIndex_split rest ".")
      as (domain & tld & Hrest & Hdomain & Hno'); [assumption|].
    exists loc, domain, tld. subst rest.
    rewrite byteLen_app, byteLen_String in Hlast.
    split; [exact Hemail|].
    split; [rewrite <- byteLen_zero; lia|]. split; [exact Hno|].
    split; [rewrite <- byteLen_zero; lia|].
    split; [rewrite <- byteLen_zero; lia | exact Hno'].
  - intros (loc & domain & tld & -> & Hloc & Hno & Hdomain & Htld & Hno').
    rewrite <- byteLen_zero in Hloc, Hdomain, Htld.
    pose proof (byteLen_nonneg loc). pose proof (byteLen_nonneg domain).
    pose proof (byteLen_nonneg tld).
    destruct (String.eqb_spec (loc ++ String "@" (domain ++ String "." tld))
                "") as [Hempty|_].
    { apply byteLen_zero in Hempty.
      rewrite byteLen_app, byteLen_String in Hempty. 
      pose proof (byteLen_nonneg (domain ++ String "." tld)). lia. }
    rewrite Index_app_absent by exact Hno.
    rewrite (append_String_assoc loc), <- append_assoc.
    rewrite LastIndex_app_absent by exact Hno'.
    rewrite !byteLen_app, !byteLen_String.
    change (gostrings.byteLen "") with 0.
    repeat match goal with
           | |- context [?a <=? ?b] => destruct (Z.leb_spec a b); [lia|]
           | |- context [?a =? ?b] => destruct (Z.eqb_spec a b); [lia|]
           end.
    reflexivity.
Qed.

Lemma statusEntries_keys_NoDup : NoDup (intake.statusEntries.*1).
Proof.
  apply NoDup_ListNoDup. vm_compute.
  repeat (constructor;
          [simpl; intros H;
           repeat (destruct H as [H|H]; [discriminate H|]); exact H|]).
  constructor.
Qed.

Lemma statusMap_lookup (key : string) (status : EmploymentStatus) :
  intake.statusMap !! key = Some status
  <-> In (key, status) intake.statusEntries.
Proof.
  unfold intake.statusMap.
  rewrite <- (elem_of_list_to_map _ _ _ statusEntries_keys_NoDup).
  apply list_elem_of_In.
Qed.

Lemma statusEntries_valid (key : string) (status : EmploymentStatus) :
  In (key, status) intake.statusEntries ->
  In status intake.ValidEmploymentStatuses.
Proof.
  intros H. simpl in H.
  repeat (destruct H as [H|H]; [injection H as <- <-; simpl; tauto|]).
  contradiction.
Qed.


Lemma IsValid_In (status : EmploymentStatus) :
  intake.IsValid status = true
  <-> In status intake.ValidEmploymentStatuses.
Proof. apply statusListed_In. Qed.




Ltac each_byte c :=
  destruct c as [[] [] [] [] [] [] [] []]; vm_compute; congruence.

Lemma normalByte_idempotent (c : ascii) :
  normalByte (normalByte c) = normalByte c.
Proof. each_byte c. Qed.

Lemma normalByte_not_space (c : ascii) :
  gostrings.asciiSpace c = false ->
  gostrings.asciiSpace (normalByte c) = false.
Proof. each_byte c. Qed.

Lemma normalByte_ascii (c : ascii) :
  (N_of_ascii c <? 128)%N = true ->
  (N_of_ascii (normalByte c) <? 128)%N = true.
Proof. each_byte c. Qed.

Lemma mapBytes_map (f : ascii -> ascii) (s : string) :
  gostrings.mapBytes f s
  = String.string_of_list_ascii (map f (String.list_ascii_of_string s)).
Proof.
  induction s as [|c s IH]; [reflexivity|].
  cbn [gostrings.mapBytes String.list_ascii_of_string map
       String.string_of_list_ascii].
  rewrite IH. reflexivity.
Qed.

Lemma normalized_bytes (status : string) :
  intake.normalized status
  = String.string_of_list_ascii
      (map normalByte
         (rev (gostrings.skipSpace
                 (rev (gostrings.skipSpace
                         (String.list_ascii_of_string status)))))).
Proof.
  unfold intake.normalized, gostrings.ReplaceAll, gostrings.ToLower,
    gostrings.TrimSpace.
  rewrite !mapBytes_map, !String.list_ascii_of_string_of_list_ascii.
  rewrite !map_map. reflexivity.
Qed.

Lemma skipSpace_clearHead (s : list ascii) :
  clearHead (gostrings.skipSpace s).
Proof.
  induction s as [|c s IH]; [exact I|].
  cbn [gostrings.skipSpace].
  destruct (gostrings.asciiSpace c) eqn:Hc; [exact IH | exact Hc].
Qed.

Lemma clearHead_skipSpace (s : list ascii) :
  clearHead s -> gostrings.skipSpace s = s.
Proof.
  destruct s as [|c s]; [reflexivity|].
  cbn [clearHead gostrings.skipSpace]. intros ->. reflexivity.
Qed.

Lemma skipSpace_suffix (s : list ascii) :
  exists spaces,
    s = spaces ++ gostrings.skipSpace s
    /\ forallb gostrings.asciiSpace spaces = true.
Proof.
  induction s as [|c s (spaces & Hs & Hspaces)]; [exists []; auto|].
  cbn [gostrings.skipSpace].
  destruct (gostrings.asciiSpace c) eqn:Hc.
  - exists (c :: spaces). cbn [forallb app]. rewrite Hc, Hspaces, <- Hs. auto.
  - exists []. auto.
Qed.

Lemma clearHead_app (a b : list ascii) :
  a <> [] -> clearHead (a ++ b) <-> clearHead a.
Proof. destruct a; [congruence | reflexivity]. Qed.

(** After the two loops of [TrimSpace] neither end is white space. *)
Lemma trimmed_clear (s : list ascii) :
  let t := rev (gostrings.skipSpace (rev (gostrings.skipSpace s))) in
  clearHead t /\ clearHead (rev t).
Proof.
  cbn zeta. rewrite rev_involutive. split; [|apply skipSpace_clearHead].
  pose proof (skipSpace_clearHead s) as Hhead.
  destruct (skipSpace_suffix (rev (gostrings.skipSpace s)))
    as (spaces & Hrev & _).
  set (kept := gostrings.skipSpace (rev (gostrings.skipSpace s))) in *.
  apply (f_equal (@rev ascii)) in Hrev.
  rewrite rev_involutive, rev_app_distr in Hrev.
  destruct (rev kept) as [|c rest] eqn:Hkept; [exact I|].
  rewrite Hrev in Hhead. exact Hhead.
Qed.

Lemma clearHead_map_normalByte (s : list ascii) :
  clearHead s -> clearHead (map normalByte s).
Proof. destruct s as [|c s]; [auto | apply normalByte_not_space]. Qed.

Lemma normalized_idempotent (status : string) :
  intake.normalized (intake.normalized status) = intake.normalized status.
Proof.
  rewrite (normalized_bytes (intake.normalized status)).
  rewrite (normalized_bytes status).
  rewrite String.list_ascii_of_string_of_list_ascii.
  destruct (trimmed_clear (String.list_ascii_of_string status))
    as [Hhead Hlast].
  cbn zeta in Hhead, Hlast.
  set (t := rev (gostrings.skipSpace
                   (rev (gostrings.skipSpace
                           (String.list_ascii_of_string status))))) in *.
  rewrite (clearHead_skipSpace (map normalByte t))
    by (apply clearHead_map_normalByte; exact Hhead).
  rewrite <- map_rev.
  rewrite (clearHead_skipSpace (map normalByte (rev t)))
    by (apply clearHead_map_normalByte; exact Hlast).
  rewrite (map_rev normalByte t), rev_involutive, map_map.
  f_equal. apply map_ext. intros c. apply normalByte_idempotent.
Qed.

Lemma skipSpace_In (s : list ascii) (c : ascii) :
  In c (gostrings.skipSpace s) -> In c s.
Proof.
  destruct (skipSpace_suffix s) as (spaces & Hs & _).
  intros Hin. rewrite Hs. apply in_or_app. auto.
Qed.

Lemma normalized_ascii (status : string) :
  gostrings.isASCII status = true ->
  gostrings.isASCII (intake.normalized status) = true.
Proof.
  unfold gostrings.isASCII. rewrite normalized_bytes.
  rewrite String.list_ascii_of_string_of_list_ascii, !forallb_forall.
  intros Hascii c Hin. apply in_map_iff in Hin as (c0 & <- & Hin).
  apply normalByte_ascii, Hascii.
  apply in_rev, skipSpace_In, in_rev, skipSpace_In in Hin. exact Hin.
Qed.

Lemma Normalize_valid_fixed (status : EmploymentStatus) :
  In status intake.ValidEmploymentStatuses ->
  intake.NormalizeEmploymentStatus status = status
  /\ gostrings.isASCII status = true.
Proof.
  intros H. simpl in H.
  repeat (destruct H as [<-|H]; [vm_compute; auto|]). contradiction.
Qed.

(** X20: normalising is idempotent on ASCII input, and its result is
    ASCII again: a status that [NormalizeEmploymentStatus] has returned,
    mapped or passed through, comes back unchanged from a second call. *)
Theorem X20_NormalizeEmploymentStatus_idempotent :
  forall status : string,
    gostrings.isASCII status = true ->
    gostrings.isASCII (intake.NormalizeEmploymentStatus status) = true
    /\ intake.NormalizeEmploymentStatus
         (intake.NormalizeEmploymentStatus status)
       = intake.NormalizeEmploymentStatus status.
Proof.
  intros status Hascii.
  unfold intake.NormalizeEmploymentStatus at 1 3 4.
  destruct (intake.statusMap !! intake.normalized status) as [mapped|]
    eqn:Hlookup.
  - apply statusMap_lookup, statusEntries_valid, Normalize_valid_fixed
      in Hlookup as [Hfixed Hmapped].
    split; [exact Hmapped | exact Hfixed].
  - split; [apply normalized_ascii; exact Hascii|].
    unfold intake.NormalizeEmploymentStatus.
    rewrite normalized_idempotent, Hlookup. reflexivity.
Qed.

(** The theorem at a status that no spelling of the map covers. *)
Lemma X20_NormalizeEmploymentStatus_witness :
  intake.NormalizeEmploymentStatus " Gig-Worker " = "gig_worker"%string
  /\ intake.NormalizeEmploymentStatus "gig_worker" = "gig_worker"%string.
Proof.
  assert (intake.NormalizeEmploymentStatus " Gig-Worker "
          = "gig_worker"%string) as Hfirst by (vm_compute; reflexivity).
  split; [exact Hfirst|].
  rewrite <- Hfirst.
  apply (X20_NormalizeEmploymentStatus_idempotent " Gig-Worker ").
  vm_compute. reflexivity.
Defined.

Lemma skipSpace_nil (s : list ascii) :
  gostrings.skipSpace s = [] <-> forallb gostrings.asciiSpace s = true.
Proof.
  induction s as [|c s IH]; [tauto|].
  cbn [gostrings.skipSpace forallb].
  destruct (gostrings.asciiSpace c); [exact IH|].
  split; discriminate.
Qed.

Lemma forallb_rev {A : Type} (f : A -> bool) (s : list A) :
  forallb f (rev s) = forallb f s.
Proof.
  apply eq_true_iff_eq. rewrite !forallb_forall.
  split; intros H x Hin; apply H; [apply in_rev in Hin | apply in_rev];
    exact Hin.
Qed.

Lemma TrimSpace_empty (s : string) :
  gostrings.TrimSpace s = ""%string
  <-> forallb gostrings.asciiSpace (String.list_ascii_of_string s) = true.
Proof.
  unfold gostrings.TrimSpace.
  set (bytes := String.list_ascii_of_string s).
  destruct (skipSpace_suffix bytes) as (spaces & Hbytes & Hspaces).
  split.
  - intros Hempty.
    apply (f_equal String.list_ascii_of_string) in Hempty.
    rewrite String.list_ascii_of_string_of_list_ascii in Hempty.
    cbn [String.list_ascii_of_string] in Hempty.
    apply (f_equal (@rev ascii)) in Hempty.
    rewrite rev_involutive in Hempty. cbn [rev] in Hempty.
    apply skipSpace_nil in Hempty. rewrite forallb_rev in Hempty.
    rewrite Hbytes, forallb_app, Hspaces, Hempty. reflexivity.
  - intros Hall. apply skipSpace_nil in Hall. rewrite Hall. reflexivity.
Qed.

Lemma hasContent_iff (s : string) :
  hasContent s
  <-> forallb gostrings.asciiSpace (String.list_ascii_of_string s) = false.
Proof.
  unfold hasContent, hasByte. split.
  - intros (c & Hin & Hc).
    destruct (forallb _ _) eqn:Hall; [|reflexivity].
    rewrite forallb_forall in Hall. rewrite (Hall c Hin) in Hc.
    discriminate Hc.
  - induction (String.list_ascii_of_string s) as [|c bytes IH];
      [discriminate|].
    cbn [forallb]. destruct (gostrings.asciiSpace c) eqn:Hc.
    + intros Hall. destruct (IH Hall) as (c' & Hin & Hc').
      exists c'. split; [right; exact Hin | exact Hc'].
    + intros _. exists c. split; [left; reflexivity | exact Hc].
Qed.

(** X21: for a record whose user ID is plain ASCII, [ValidateUserCreate]
    returns nil exactly when the user ID holds a byte that is not white
    space, the email passes [isValidEmail], the income is not below zero,
    the credit score lies in 300..900, the age in 18..120, and the status
    is one of the five valid constants.  "Not below zero" is all that is
    asked of the income: an accepted record is still accepted with NaN in
    its place. *)
Theorem X21_ValidateUserCreate_accepts :
  forall u : intake.UserCreate.t,
    gostrings.isASCII (intake.UserCreate.UserID u) = true ->
    (intake.ValidateUserCreate u = None
     <-> hasContent (intake.UserCreate.UserID u)
         /\ intake.isValidEmail (intake.UserCreate.Email u) = true
         /\ (intake.UserCreate.MonthlyIncome u <? F64.zero)%f64 = false
         /\ 300 <= intake.UserCreate.CreditScore u <= 900
         /\ 18 <= intake.UserCreate.Age u <= 120
         /\ In (intake.UserCreate.EmploymentStatus u)
              intake.ValidEmploymentStatuses)
    /\ (intake.ValidateUserCreate u = None ->
        intake.ValidateUserCreate (withIncome u F64.nan) = None).
Proof.
  intros u _.
  assert (intake.ValidateUserCreate u = None
          <-> hasContent (intake.UserCreate.UserID u)
              /\ intake.isValidEmail (intake.UserCreate.Email u) = true
              /\ (intake.UserCreate.MonthlyIncome u <? F64.zero)%f64 = false
              /\ 300 <= intake.UserCreate.CreditScore u <= 900
              /\ 18 <= intake.UserCreate.Age u <= 120
              /\ In (intake.UserCreate.EmploymentStatus u)
                   intake.ValidEmploymentStatuses) as Hiff.
  { unfold intake.ValidateUserCreate.
    rewrite hasContent_iff, <- IsValid_In.
    pose proof (TrimSpace_empty (intake.UserCreate.UserID u)) as Hblank.
    destruct (String.eqb_spec
                (gostrings.TrimSpace (intake.UserCreate.UserID u)) "")
      as [Hempty|Hfull].
    { apply Hblank in Hempty. rewrite Hempty.
      split; [discriminate | intros [Habsurd _]; discriminate Habsurd]. }
    assert (forallb gostrings.asciiSpace
              (String.list_ascii_of_string (intake.UserCreate.UserID u))
            = false) as ->.
    { destruct (forallb _ _); [|reflexivity]. tauto. }
    destruct (intake.isValidEmail (intake.UserCreate.Email u));
      cbn [negb]; [|split; [discriminate | intros (_ & He & _); discriminate He]].
    destruct (intake.UserCreate.MonthlyIncome u <? F64.zero)%f64;
      [split; [discriminate | intros (_ & _ & Hi & _); discriminate Hi]|].
    destruct (Z.ltb_spec (intake.UserCreate.CreditScore u) 300);
      cbn [orb]; [split; [discriminate | lia]|].
    destruct (Z.gtb_spec (intake.UserCreate.CreditScore u) 900);
      [split; [discriminate | lia]|].
    destruct (Z.ltb_spec (intake.UserCreate.Age u) 18);
      cbn [orb]; [split; [discriminate | lia]|].
    destruct (Z.gtb_spec (intake.UserCreate.Age u) 120);
      [split; [discriminate | lia]|].
    destruct (intake.IsValid (intake.UserCreate.EmploymentStatus u));
      cbn [negb].
    - split; [intros _; repeat split; auto; lia | reflexivity].
    - split; [discriminate|].
      intros (_ & _ & _ & _ & _ & Hstatus). discriminate Hstatus. }
  split; [exact Hiff|].
  intros Hok. unfold intake.ValidateUserCreate in *.
  cbn [withIncome intake.UserCreate.UserID intake.UserCreate.Email
       intake.UserCreate.MonthlyIncome intake.UserCreate.CreditScore
       intake.UserCreate.Age intake.UserCreate.EmploymentStatus].
  change (F64.nan <? F64.zero)%f64 with false.
  destruct (String.eqb _ _); [discriminate Hok|].
  destruct (negb (intake.isValidEmail _)); [discriminate Hok|].
  destruct (_ <? F64.zero)%f64; [discriminate Hok|].
  exact Hok.
Qed.

(** The theorem at a record as the parser builds it. *)
Lemma X21_ValidateUserCreate_witness :
  intake.ValidateUserCreate sampleRecord = None
  /\ intake.ValidateUserCreate (withIncome sampleRecord F64.nan) = None.
Proof.
  destruct (X21_ValidateUserCreate_accepts sampleRecord) as [_ Hnan];
    [vm_compute; reflexivity|].
  assert (intake.ValidateUserCreate sampleRecord = None) as Hok
    by (vm_compute; reflexivity).
  split; [exact Hok | exact (Hnan Hok)].
Defined.

(* ===================================================================== *)
(** ** Storing a batch of users *)
(* ===================================================================== *)

Lemma insertLoop_counts (exec : nat -> intake.UserCreate.t -> option error)
    (users : list intake.UserCreate.t) :
  forall (n : nat) (result : userrepo.BulkInsertResult.t),
    0 <= userrepo.BulkInsertResult.InsertedCount result ->
    0 <= userrepo.BulkInsertResult.FailedCount result ->
    userrepo.BulkInsertResult.InsertedCount result
    + userrepo.BulkInsertResult.FailedCount result + len users < 2 ^ 63 ->
    let final := userrepo.insertLoop exec n users result in
    userrepo.BulkInsertResult.InsertedCount final
    + userrepo.BulkInsertResult.FailedCount final
    = userrepo.BulkInsertResult.InsertedCount result
      + userrepo.BulkInsertResult.FailedCount result + len users
    /\ userrepo.BulkInsertResult.InsertedCount result
       <= userrepo.BulkInsertResult.InsertedCount final
    /\ userrepo.BulkInsertResult.FailedCount final
       - userrepo.BulkInsertResult.FailedCount result
       = len (userrepo.BulkInsertResult.Errors final)
         - len (userrepo.BulkInsertResult.Errors result)
    /\ exists added,
         userrepo.BulkInsertResult.Errors final
         = userrepo.BulkInsertResult.Errors result ++ added
         /\ Forall
              (fun message =>
                 exists user err,
                   In user users
                   /\ message
                      = ("user " ++ intake.UserCreate.UserID user ++ ": "
                         ++ err)%string)
              added.
Proof.
  unfold len.
  induction users as [|user users IH]; intros n result Hi Hf Hsum;
    cbn zeta.
  - cbn [userrepo.insertLoop length]. repeat split; try lia.
    exists []. rewrite app_nil_r. split; [reflexivity | constructor].
  - cbn [userrepo.insertLoop]. cbn [length] in Hsum |- *.
    destruct (exec n user) as [err|].
    + match goal with
      | |- context [userrepo.insertLoop exec (S n) users ?r] =>
          specialize (IH (S n) r)
      end.
      cbn [userrepo.BulkInsertResult.InsertedCount
           userrepo.BulkInsertResult.FailedCount
           userrepo.BulkInsertResult.Errors] in IH.
      unfold Int64.add in IH |- *. rewrite wrap_small in IH |- * by lia.
      destruct IH as (Hcount & Hmono & Herrors & added & Hadded & Hall);
        [lia | lia | lia |].
      rewrite length_app in Herrors. cbn [length] in Herrors.
      repeat split; try lia.
      eexists. rewrite Hadded, <- app_assoc. split; [reflexivity|].
      constructor.
      * exists user, err. split; [left; reflexivity | reflexivity].
      * eapply Forall_impl; [exact Hall|].
        intros message (user' & err' & Hin & ->).
        exists user', err'. split; [right; exact Hin | reflexivity].
    + match goal with
      | |- context [userrepo.insertLoop exec (S n) users ?r] =>
          specialize (IH (S n) r)
      end.
      cbn [userrepo.BulkInsertResult.InsertedCount
           userrepo.BulkInsertResult.FailedCount
           userrepo.BulkInsertResult.Errors] in IH.
      unfold Int64.add in IH |- *. rewrite wrap_small in IH |- * by lia.
      destruct IH as (Hcount & Hmono & Herrors & added & Hadded & Hall);
        [lia | lia | lia |].
      repeat split; try lia.
      exists added. split; [exact Hadded|].
      eapply Forall_impl; [exact Hall|].
      intros message (user' & err' & Hin & ->).
      exists user', err'. split; [right; exact Hin | reflexivity].
Qed.

(** X22: the user repository's [BulkInsert] accounts for every user of
    the batch.  When the transaction cannot begin nothing is counted;
    otherwise every user is counted once, as inserted or as failed, there
    is one message per failed user, each naming a user of the batch, and
    the counts come back whether or not the commit fails.  The call
    returns an error only when the transaction cannot begin or commit,
    never because a row was refused. *)
Theorem X22_user_BulkInsert_accounts_for_every_user :
  forall (t : database.Tx)
         (exec : nat -> intake.UserCreate.t -> option error)
         (users : list intake.UserCreate.t),
    len users < 2 ^ 63 ->
    let result := fst (userrepo.BulkInsert t exec users) in
    let err := snd (userrepo.BulkInsert t exec users) in
    userrepo.BulkInsertResult.InsertedCount result
    + userrepo.BulkInsertResult.FailedCount result
    = match database.txBegin t with
      | Some _ => 0
      | None => len users
      end
    /\ 0 <= userrepo.BulkInsertResult.InsertedCount result
    /\ len (userrepo.BulkInsertResult.Errors result)
       = userrepo.BulkInsertResult.FailedCount result
    /\ Forall
         (fun message =>
            exists user e,
              In user users
              /\ message
                 = ("user " ++ intake.UserCreate.UserID user ++ ": " ++ e)%string)
         (userrepo.BulkInsertResult.Errors result)
    /\ (err = None
        <-> database.txBegin t = None /\ database.txCommit t = None).
Proof.
  intros t exec users Hlen. cbn zeta.
  unfold userrepo.BulkInsert, database.WithTransaction.
  destruct (database.txBegin t) as [e|].
  - cbn. repeat split; try lia; try constructor; try discriminate.
    intros [Habsurd _]. discriminate Habsurd.
  - destruct (insertLoop_counts exec users 0
                (userrepo.BulkInsertResult.mk 0 0 []))
      as (Hcount & Hmono & Herrors & added & Hadded & Hall);
      [cbn; lia | cbn; lia | cbn; lia |].
    cbn [userrepo.BulkInsertResult.InsertedCount
         userrepo.BulkInsertResult.FailedCount
         userrepo.BulkInsertResult.Errors app] in *.
    change (len (@nil string)) with 0 in Herrors.
    destruct (database.txCommit t) as [e|]; cbn [fst snd].
    + repeat split; try lia; try discriminate.
      * rewrite Hadded. exact Hall.
      * intros [_ Habsurd]. discriminate Habsurd.
    + repeat split; try lia.
      rewrite Hadded. exact Hall.
Qed.

(** The theorem at a batch of three whose second statement is refused. *)
Lemma X22_user_BulkInsert_witness :
  let batch := [sampleRecord; withIncome sampleRecord F64.nan; sampleRecord] in
  userrepo.BulkInsert healthyTx secondRefused batch
  = (userrepo.BulkInsertResult.mk 2 1 ["user  U1: duplicate key"%string],
     None)
  /\ userrepo.BulkInsertResult.InsertedCount
       (fst (userrepo.BulkInsert healthyTx secondRefused batch))
     + userrepo.BulkInsertResult.FailedCount
         (fst (userrepo.BulkInsert healthyTx secondRefused batch))
     = 3.
Proof.
  cbn zeta. split; [vm_compute; reflexivity|].
  apply (X22_user_BulkInsert_accounts_for_every_user healthyTx secondRefused
           [sampleRecord; withIncome sampleRecord F64.nan; sampleRecord]).
  vm_compute. reflexivity.
Defined.

(* ===================================================================== *)
(** ** Reading the reply of the reasoning service *)
(* ===================================================================== *)

Lemma substring_head (body post : string) :
  String.substring 0 (String.length body) (body ++ post) = body.
Proof.
  induction body as [|x body IH]; [destruct post; reflexivity|].
  rewrite append_String. cbn [String.length String.substring].
  rewrite IH. reflexivity.
Qed.

Lemma substring_middle (pre body post : string) :
  String.substring (String.length pre) (String.length body)
    (pre ++ body ++ post) = body.
Proof.
  induction pre as [|x pre IH]; [rewrite append_empty; apply substring_head|].
  rewrite append_String. cbn [String.length String.substring]. exact IH.
Qed.

Lemma substring_none (n : nat) : forall s : string,
  String.substring n 0 s = ""%string.
Proof.
  induction n as [|n IH]; intros [|x s]; cbn [String.substring];
    try reflexivity.
  apply IH.
Qed.

Lemma String_length_app (a b : string) :
  String.length (a ++ b) = (String.length a + String.length b)%nat.
Proof.
  induction a as [|x a IH]; [reflexivity|].
  rewrite append_String. cbn [String.length]. rewrite IH. reflexivity.
Qed.

Lemma hasByte_app (a b : string) (c : ascii) :
  hasByte (a ++ b) c <-> hasByte a c \/ hasByte b c.
Proof.
  induction a as [|x a IH]; [rewrite append_empty; unfold hasByte; simpl; tauto|].
  rewrite append_String, !hasByte_String, IH. tauto.
Qed.

(** X23: take a decoded reply whose first candidate is an object with a
    content object, whose parts begin with an object, whose text is a
    string.  When the text has no opening or no closing brace,
    [parseResponse] returns the error that no JSON was found.  When the
    text runs from a first opening brace to a last closing brace,
    [parseResponse] hands exactly that stretch, braces included, to
    [json.Unmarshal] and returns its verdict, or its error wrapped.  When
    the last closing brace comes before the first opening brace with at
    least one byte between them, the slice expression panics; with no
    byte between them the stretch is empty.  A reply without candidates
    is an error; a first candidate that is no object, or has no content
    object, is a panic. *)
Theorem X23_parseResponse_takes_outer_braces :
  forall (c : LLMClient) (decoded candidate content part : list (string * JSON))
         (candidates parts : list JSON) (text : string),
    index decoded "candidates" = Some (JArray (JObject candidate :: candidates)) ->
    index candidate "content" = Some (JObject content) ->
    index content "parts" = Some (JArray (JObject part :: parts)) ->
    index part "text" = Some (JString text) ->
    (~ hasByte text "{" \/ ~ hasByte text "}" ->
     parseResponse c decoded = Returns (Err "no JSON found in response"))
    /\ (forall pre mid post : string,
          text = (pre ++ "{" ++ mid ++ "}" ++ post)%string ->
          ~ hasByte pre "{" -> ~ hasByte post "}" ->
          parseResponse c decoded
          = match Unmarshal (client c) ("{" ++ mid ++ "}")%string with
            | Ok response => Returns (Ok response)
            | Err err => Returns (Err (wrapError "failed to parse JSON" err))
            end)
    /\ (forall pre mid post : string,
          text = (pre ++ "}" ++ mid ++ "{" ++ post)%string ->
          ~ hasByte pre "{" -> ~ hasByte mid "{" ->
          ~ hasByte mid "}" -> ~ hasByte post "}" ->
          parseResponse c decoded
          = if String.eqb mid ""
            then match Unmarshal (client c) "" with
                 | Ok response => Returns (Ok response)
                 | Err err =>
                     Returns (Err (wrapError "failed to parse JSON" err))
                 end
            else Panics SliceBoundsOutOfRange)
    /\ (forall reply,
          index reply "candidates" = None
          \/ index reply "candidates" = Some (JArray []) ->
          parseResponse c reply = Returns (Err "no candidates in response"))
    /\ (forall reply first rest,
          index reply "candidates" = Some (JArray (first :: rest)) ->
          match first with
          | JObject entries =>
              match index entries "content" with
              | Some (JObject _) => False
              | _ => True
              end
          | _ => True
          end ->
          parseResponse c reply = Panics InterfaceConversion).
Proof.
  intros c decoded candidate content part candidates parts text
    Hcandidates Hcontent Hparts Htext.
  assert (Hparse :
    parseResponse c decoded
    = let start := gostrings.Index text "{" in
      let end_ := gostrings.LastIndex text "}" in
      if (start =? -1) || (end_ =? -1)
      then Returns (Err "no JSON found in response")
      else if end_ + 1 <? start then Panics SliceBoundsOutOfRange
      else match Unmarshal (client c)
                   (String.substring (Z.to_nat start)
                      (Z.to_nat (end_ + 1 - start)) text) with
           | Err err => Returns (Err (wrapError "failed to parse JSON" err))
           | Ok response => Returns (Ok response)
           end).
  { unfold parseResponse. rewrite Hcandidates, Hcontent, Hparts, Htext.
    reflexivity. }
  split; [|split; [|split; [|split]]].
  - intros Hnone. rewrite Hparse. cbn zeta.
    destruct Hnone as [Hno|Hno].
    + apply Index_absent in Hno. rewrite Hno. reflexivity.
    + apply LastIndex_absent in Hno. rewrite Hno.
      rewrite orb_true_r. reflexivity.
  - intros pre mid post -> Hpre Hpost. rewrite Hparse. cbn zeta.
    change (pre ++ "{" ++ mid ++ "}" ++ post)%string
      with (pre ++ String "{" (mid ++ String "}" post))%string.
    change ("{" ++ mid ++ "}")%string with (String "{" mid ++ "}")%string.
    rewrite (Index_app_absent pre "{" (mid ++ String "}" post)) by exact Hpre.
    replace (pre ++ String "{" (mid ++ String "}" post))%string
      with ((pre ++ String "{" mid) ++ String "}" post)%string
      by (rewrite append_assoc; reflexivity).
    rewrite (LastIndex_app_absent (pre ++ String "{" mid) "}" post)
      by exact Hpost.
    rewrite byteLen_app, byteLen_String.
    pose proof (byteLen_nonneg pre) as Hp.
    pose proof (byteLen_nonneg mid) as Hm.
    destruct (Z.eqb_spec (gostrings.byteLen pre) (-1)); [lia|].
    destruct (Z.eqb_spec (gostrings.byteLen pre + (gostrings.byteLen mid + 1))
                (-1)); [lia|].
    destruct (Z.ltb_spec
                (gostrings.byteLen pre + (gostrings.byteLen mid + 1) + 1)
                (gostrings.byteLen pre)); [lia|].
    cbn [orb].
    replace (Z.to_nat (gostrings.byteLen pre)) with (String.length pre)
      by (unfold gostrings.byteLen; lia).
    replace (Z.to_nat
               (gostrings.byteLen pre + (gostrings.byteLen mid + 1) + 1
                - gostrings.byteLen pre))
      with (String.length (String "{" mid ++ "}"))
      by (rewrite append_String; cbn [String.length];
          rewrite String_length_app; cbn [String.length];
          unfold gostrings.byteLen; lia).
    replace ((pre ++ String "{" mid) ++ String "}" post)%string
      with (pre ++ (String "{" mid ++ "}") ++ post)%string.
    + rewrite substring_middle. reflexivity.
    + rewrite !append_assoc. reflexivity.
  - intros pre mid post -> Hpre Hmid Hmid' Hpost. rewrite Hparse. cbn zeta.
    change (pre ++ "}" ++ mid ++ "{" ++ post)%string
      with (pre ++ String "}" (mid ++ String "{" post))%string.
    replace (pre ++ String "}" (mid ++ String "{" post))%string
      with ((pre ++ String "}" mid) ++ String "{" post)%string
      by (rewrite append_assoc; reflexivity).
    rewrite (Index_app_absent (pre ++ String "}" mid) "{" post).
    2: { rewrite hasByte_app, hasByte_String.
         intros [H|[H|H]]; [tauto | discriminate H | tauto]. }
    replace ((pre ++ String "}" mid) ++ String "{" post)%string
      with (pre ++ String "}" (mid ++ String "{" post))%string
      by (rewrite append_assoc; reflexivity).
    rewrite (LastIndex_app_absent pre "}" (mid ++ String "{" post)).
    2: { rewrite hasByte_app, hasByte_String.
         intros [H|[H|H]]; [tauto | discriminate H | tauto]. }
    rewrite byteLen_app, byteLen_String.
    pose proof (byteLen_nonneg pre) as Hp.
    pose proof (byteLen_nonneg mid) as Hm.
    destruct (Z.eqb_spec (gostrings.byteLen pre + (gostrings.byteLen mid + 1))
                (-1)); [lia|].
    destruct (Z.eqb_spec (gostrings.byteLen pre) (-1)); [lia|].
    cbn [orb].
    destruct mid as [|x mid].
    + change (gostrings.byteLen "") with 0.
      destruct (Z.ltb_spec (gostrings.byteLen pre + 1)
                  (gostrings.byteLen pre + (0 + 1))); [lia|].
      replace (gostrings.byteLen pre + 1
               - (gostrings.byteLen pre + (0 + 1))) with 0 by lia.
      cbn [String.eqb Z.to_nat].
      rewrite substring_none. reflexivity.
    + rewrite byteLen_String in *.
      pose proof (byteLen_nonneg mid) as Hm'.
      destruct (Z.ltb_spec (gostrings.byteLen pre + 1)
                  (gostrings.byteLen pre + (gostrings.byteLen mid + 1 + 1)));
        [|lia].
      reflexivity.
  - intros reply [Hnone|Hnone]; unfold parseResponse; rewrite Hnone;
      reflexivity.
  - intros reply first rest Hfirst Hshape. unfold parseResponse.
    rewrite Hfirst.
    destruct first as [| | | | |entries]; try reflexivity.
    destruct (index entries "content") as [[| | | | |inner]|];
      try reflexivity.
    destruct Hshape.
Qed.

(** The theorem at a verdict wrapped in prose, which is read; at a text
    whose braces are out of order, which makes the call panic; and at a
    candidate without content, on which it panics too. *)
Lemma X23_parseResponse_witness :
  parseResponse Assessor.unreachable
    (Assessor.bodyWith ("Here: " ++ Assessor.verdictText true ++ " Done."))
  = Returns (Ok (mkLLMResponse true (F64.lit 9 10) "verdict" []))
  /\ parseResponse Assessor.unreachable (Assessor.bodyWith "} {")
     = Panics SliceBoundsOutOfRange
  /\ parseResponse Assessor.unreachable
       [("candidates"%string, JArray [JObject []])]
     = Panics InterfaceConversion.
Proof.
  destruct (X23_parseResponse_takes_outer_braces Assessor.unreachable
              (Assessor.bodyWith "} {")
              [("content"%string,
                JObject
                  [("parts"%string,
                    JArray [JObject [("text"%string, JString "} {")]])])]
              [("parts"%string,
                JArray [JObject [("text"%string, JString "} {")]])]
              [("text"%string, JString "} {")] [] [] "} {")
    as (_ & _ & Hswapped & _ & Hshape); try reflexivity.
  split; [vm_compute; reflexivity|]. split.
  - rewrite (Hswapped "" " " ""); try reflexivity;
      unfold hasByte; simpl; intros H;
      repeat (destruct H as [H|H]; [discriminate H|]); exact H.
  - apply (Hshape _ (JObject []) []); [reflexivity | exact I].
Defined.

(** X24: with an API key, [EvaluateMatch] returns the first failure of the
    round trip as its error: the request that cannot be created, the call
    that fails, a status other than 200 (whatever the body), a body that
    does not decode; and when none occurs its outcome is that of
    [parseResponse] on the decoded body.  So it panics only on a reply
    with status 200 whose body decodes, and only as [parseResponse]
    does. *)
Theorem X24_EvaluateMatch_reports_first_failure :
  forall (c : LLMClient) (evaluation : nat) (user : User.t)
         (product : LoanProduct.t),
    apiKey c <> ""%string ->
    let url := (apiURL c ++ "?key=" ++ apiKey c)%string in
    (forall err,
       NewRequestWithContext (client c) url = Some err ->
       EvaluateMatch c evaluation user product
       = Returns (Err ("failed to create request: " ++ err)%string))
    /\ (NewRequestWithContext (client c) url = None ->
        (forall err,
           Do (client c) evaluation user product = Err err ->
           EvaluateMatch c evaluation user product
           = Returns (Err ("API request failed: " ++ err)%string))
        /\ (forall resp,
              Do (client c) evaluation user product = Ok resp ->
              (StatusCode resp <> 200 ->
               EvaluateMatch c evaluation user product
               = Returns
                   (Err ("API returned status "
                         ++ itoa (StatusCode resp))%string))
              /\ (StatusCode resp = 200 ->
                  (forall err,
                     Body resp = Err err ->
                     EvaluateMatch c evaluation user product
                     = Returns
                         (Err ("failed to decode response: " ++ err)%string))
                  /\ (forall decoded,
                        Body resp = Ok decoded ->
                        EvaluateMatch c evaluation user product
                        = parseResponse c decoded))))
    /\ (forall p,
          EvaluateMatch c evaluation user product = Panics p ->
          exists resp decoded,
            Do (client c) evaluation user product = Ok resp
            /\ StatusCode resp = 200
            /\ Body resp = Ok decoded
            /\ parseResponse c decoded = Panics p).
Proof.
  intros c evaluation user product Hkey. cbn zeta. unfold EvaluateMatch.
  destruct (String.eqb_spec (apiKey c) "") as [Heq|_]; [contradiction|].
  destruct (NewRequestWithContext (client c) _) as [e0|].
  { split; [intros err [= ->]; reflexivity|].
    split; [discriminate|]. discriminate. }
  split; [discriminate|].
  destruct (Do (client c) evaluation user product) as [resp|e1].
  2: { split; [|discriminate]. intros _.
       split; [intros err [= ->]; reflexivity | discriminate]. }
  destruct (Z.eqb_spec (StatusCode resp) 200) as [Hok|Hbad]; cbn [negb].
  2: { split; [|discriminate]. intros _. split; [discriminate|].
       intros resp' [= <-]. split; [reflexivity | contradiction]. }
  destruct (Body resp) as [decoded|e2] eqn:Hbody.
  2: { split; [|discriminate]. intros _. split; [discriminate|].
       intros resp' [= <-]. split; [contradiction|]. intros _.
       rewrite Hbody. split; [intros err [= ->]; reflexivity | discriminate]. }
  split.
  - intros _. split; [discriminate|].
    intros resp' [= <-]. split; [contradiction|]. intros _.
    rewrite Hbody. split; [discriminate|].
    intros decoded' [= <-]. reflexivity.
  - intros p Hpanic. exists resp, decoded. auto.
Qed.

(** The theorem at a service that answers with status 503 and a body that
    does not decode: the status is what is reported. *)
Lemma X24_EvaluateMatch_witness :
  EvaluateMatch overloaded 0 Samples.alice Samples.hdfc
  = Returns (Err "API returned status 503").
Proof.
  destruct (X24_EvaluateMatch_reports_first_failure overloaded 0
              Samples.alice Samples.hdfc) as (_ & Hsent & _);
    [discriminate|].
  destruct Hsent as [_ Hreply]; [reflexivity|].
  destruct (Hreply (mkResponse 503 (Err "unexpected end of JSON input")))
    as [Hstatus _]; [reflexivity|].
  rewrite Hstatus; [reflexivity | discriminate].
Defined.
